(** * Exchange adapters: signed private requests (liqui) and the cached
      market-data wrapper (poloniex)

    A shallow embedding of [exchanges/liqui/liqui.go] and of the poloniex
    wrapper, with the helpers of the [common], [nonce], [ticker] and
    [orderbook] packages they call.  Go strings are byte strings
    ([string]), [int64] is [Z] with its wrap-around written out, [float64]
    is the primitive binary64 float, Go maps are [gmap]s, and every
    pointer-receiver method returns the updated receiver. *)

From Stdlib Require Import ZArith List Ascii String Floats.
From Stdlib Require Import DecimalPos DecimalZ DecimalString.
From stdpp Require Import gmap strings list fin_maps sorting.

Local Open Scope string_scope.
Local Open Scope Z_scope.

(** ** Go base values *)

(** A Go [error] as the sources build it: [errors.New] and [fmt.Errorf]
    (without [%w]) both yield a value that carries a message and nothing
    else.  A [nil] error is [None] of [option error]. *)
Record error : Type := errors_New { Error : string }.

Global Instance error_eq_dec : EqDecision error.
Proof. solve_decision. Defined.

Definition wrap_int64 (z : Z) : Z := (z + 2 ^ 63) mod 2 ^ 64 - 2 ^ 63.

Module strconv.
(** [strconv.FormatInt(n, 10)]. *)
Definition FormatInt (n : Z) : string := NilZero.string_of_int (Z.to_int n).
End strconv.

Module fmt.
(** [fmt.Sprintf] for a format whose only verb is one [%s]. *)
Fixpoint Sprintf1 (format arg : string) : string :=
  match format with
  | String "%"%char (String "s"%char rest) => arg ++ rest
  | String c rest => String c (Sprintf1 rest arg)
  | EmptyString => EmptyString
  end.

Definition Errorf1 (format arg : string) : error :=
  errors_New (Sprintf1 format arg).
End fmt.

(** Bytes are integers in [0, 256). *)
Definition byte_of_ascii (a : ascii) : Z := Z.of_N (Ascii.N_of_ascii a).
Definition ascii_of_byte (b : Z) : ascii := Ascii.ascii_of_N (Z.to_N b).
Definition bytes_of_string (s : string) : list Z :=
  byte_of_ascii <$> list_ascii_of_string s.

(** ** Package [common] *)

Module common.

(** *** SHA-512 (FIPS 180-4) on 64-bit words held in [Z] *)

Definition mask64 : Z := 2 ^ 64 - 1.
Definition add64 (x y : Z) : Z := Z.land (x + y) mask64.
Definition rotr (n x : Z) : Z :=
  Z.land (Z.lor (Z.shiftr x n) (Z.shiftl x (64 - n))) mask64.

Definition Ch (x y z : Z) : Z :=
  Z.lxor (Z.land x y) (Z.land (Z.lxor x mask64) z).
Definition Maj (x y z : Z) : Z :=
  Z.lxor (Z.lxor (Z.land x y) (Z.land x z)) (Z.land y z).
Definition Sigma0 (x : Z) : Z := Z.lxor (Z.lxor (rotr 28 x) (rotr 34 x)) (rotr 39 x).
Definition Sigma1 (x : Z) : Z := Z.lxor (Z.lxor (rotr 14 x) (rotr 18 x)) (rotr 41 x).
Definition sigma0 (x : Z) : Z := Z.lxor (Z.lxor (rotr 1 x) (rotr 8 x)) (Z.shiftr x 7).
Definition sigma1 (x : Z) : Z := Z.lxor (Z.lxor (rotr 19 x) (rotr 61 x)) (Z.shiftr x 6).

Definition K512 : list Z :=
  [ 0x428a2f98d728ae22; 0x7137449123ef65cd; 0xb5c0fbcfec4d3b2f; 0xe9b5dba58189dbbc;
    0x3956c25bf348b538; 0x59f111f1b605d019; 0x923f82a4af194f9b; 0xab1c5ed5da6d8118;
    0xd807aa98a3030242; 0x12835b0145706fbe; 0x243185be4ee4b28c; 0x550c7dc3d5ffb4e2;
    0x72be5d74f27b896f; 0x80deb1fe3b1696b1; 0x9bdc06a725c71235; 0xc19bf174cf692694;
    0xe49b69c19ef14ad2; 0xefbe4786384f25e3; 0x0fc19dc68b8cd5b5; 0x240ca1cc77ac9c65;
    0x2de92c6f592b0275; 0x4a7484aa6ea6e483; 0x5cb0a9dcbd41fbd4; 0x76f988da831153b5;
    0x983e5152ee66dfab; 0xa831c66d2db43210; 0xb00327c898fb213f; 0xbf597fc7beef0ee4;
    0xc6e00bf33da88fc2; 0xd5a79147930aa725; 0x06ca6351e003826f; 0x142929670a0e6e70;
    0x27b70a8546d22ffc; 0x2e1b21385c26c926; 0x4d2c6dfc5ac42aed; 0x53380d139d95b3df;
    0x650a73548baf63de; 0x766a0abb3c77b2a8; 0x81c2c92e47edaee6; 0x92722c851482353b;
    0xa2bfe8a14cf10364; 0xa81a664bbc423001; 0xc24b8b70d0f89791; 0xc76c51a30654be30;
    0xd192e819d6ef5218; 0xd69906245565a910; 0xf40e35855771202a; 0x106aa07032bbd1b8;
    0x19a4c116b8d2d0c8; 0x1e376c085141ab53; 0x2748774cdf8eeb99; 0x34b0bcb5e19b48a8;
    0x391c0cb3c5c95a63; 0x4ed8aa4ae3418acb; 0x5b9cca4f7763e373; 0x682e6ff3d6b2b8a3;
    0x748f82ee5defb2fc; 0x78a5636f43172f60; 0x84c87814a1f0ab72; 0x8cc702081a6439ec;
    0x90befffa23631e28; 0xa4506cebde82bde9; 0xbef9a3f7b2c67915; 0xc67178f2e372532b;
    0xca273eceea26619c; 0xd186b8c721c0c207; 0xeada7dd6cde0eb1e; 0xf57d4f7fee6ed178;
    0x06f067aa72176fba; 0x0a637dc5a2c898a6; 0x113f9804bef90dae; 0x1b710b35131c471b;
    0x28db77f523047d84; 0x32caab7b40c72493; 0x3c9ebe0a15c9bebc; 0x431d67c49c100d4c;
    0x4cc5d4becb3e42b6; 0x597f299cfc657e2a; 0x5fcb6fab3ad6faec; 0x6c44198c4a475817 ].

Definition H512 : list Z :=
  [ 0x6a09e667f3bcc908; 0xbb67ae8584caa73b; 0x3c6ef372fe94f82b; 0xa54ff53a5f1d36f1;
    0x510e527fade682d1; 0x9b05688c2b3e6c1f; 0x1f83d9abfb41bd6b; 0x5be0cd19137e2179 ].

(** Big-endian rendering of [z] on [n] bytes, and back. *)
Fixpoint be_bytes (n : nat) (z : Z) : list Z :=
  match n with
  | O => []
  | S m => Z.land (Z.shiftr z (8 * Z.of_nat m)) 255 :: be_bytes m z
  end.
Definition be_word (bs : list Z) : Z :=
  fold_left (fun acc b => Z.lor (Z.shiftl acc 8) b) bs 0.

(** Message padding: a [0x80] byte, zeros up to 112 mod 128, then the bit
    length on 16 bytes. *)
Definition pad512 (msg : list Z) : list Z :=
  let len := Z.of_nat (length msg) in
  let zeros := Z.to_nat ((111 - len) mod 128) in
  (msg ++ [128] ++ replicate zeros 0 ++ be_bytes 16 (8 * len))%list.

(** Cut a byte list into chunks of [n] bytes ([fuel] bounds the number of
    chunks). *)
Fixpoint chunks (fuel n : nat) (bs : list Z) : list (list Z) :=
  match fuel with
  | O => []
  | S fuel' =>
      match bs with
      | [] => []
      | _ => take n bs :: chunks fuel' n (drop n bs)
      end
  end.

Definition nthZ (l : list Z) (i : nat) : Z := nth i l 0.

(** One round: the working variables [a..h] and the sliding window of the
    message schedule [W_t .. W_(t+15)]. *)
Definition round512 (st : list Z * list Z) (k : Z) : list Z * list Z :=
  let '(v, w) := st in
  let a := nthZ v 0 in let b := nthZ v 1 in let c := nthZ v 2 in
  let d := nthZ v 3 in let e := nthZ v 4 in let f := nthZ v 5 in
  let g := nthZ v 6 in let h := nthZ v 7 in
  let wt := nthZ w 0 in
  let t1 := add64 (add64 (add64 (add64 h (Sigma1 e)) (Ch e f g)) k) wt in
  let t2 := add64 (Sigma0 a) (Maj a b c) in
  let wnew := add64 (add64 (add64 (sigma1 (nthZ w 14)) (nthZ w 9))
                           (sigma0 (nthZ w 1))) wt in
  ([add64 t1 t2; a; b; c; add64 d t1; e; f; g], (drop 1 w ++ [wnew])%list).

Definition compress512 (hs : list Z) (block : list Z) : list Z :=
  let w := be_word <$> chunks 16 8 block in
  let '(v, _) := fold_left round512 K512 (hs, w) in
  zip_with add64 hs v.

Definition SHA512 (msg : list Z) : list Z :=
  let padded := pad512 msg in
  let blocks := chunks (length padded) 128 padded in
  mjoin (be_bytes 8 <$> fold_left compress512 blocks H512).

(** *** HMAC (RFC 2104) with SHA-512, block size 128 *)

Inductive HashType := HashSHA512.

(** Modelled from the spec: [common.GetHMAC] is not among the sources; the
    signature is "HMAC-SHA512 over the encoded bytes using [secret]". *)
Definition GetHMAC (hashType : HashType) (input key : list Z) : list Z :=
  match hashType with
  | HashSHA512 =>
      let k0 := if Nat.ltb 128 (length key) then SHA512 key else key in
      let k := (k0 ++ replicate (128 - length k0) 0)%list in
      let ipad := (fun b => Z.lxor b 54) <$> k in
      let opad := (fun b => Z.lxor b 92) <$> k in
      SHA512 (opad ++ SHA512 (ipad ++ input))%list
  end.

(** *** Hex and case helpers *)

Definition hex_digit (n : Z) : ascii :=
  if n <? 10 then ascii_of_byte (48 + n) else ascii_of_byte (87 + n).

(** Modelled from the spec: [common.HexEncodeToString] is not among the
    sources; the [Sign] header is "lowercase hex". *)
Fixpoint HexEncodeToString (bs : list Z) : string :=
  match bs with
  | [] => EmptyString
  | b :: rest =>
      String (hex_digit (Z.shiftr b 4))
        (String (hex_digit (Z.land b 15)) (HexEncodeToString rest))
  end.

Definition upper_ascii (a : ascii) : ascii :=
  let n := byte_of_ascii a in
  if (97 <=? n) && (n <=? 122) then ascii_of_byte (n - 32) else a.

(** Modelled from the spec: [common.StringToUpper] is not among the
    sources; it yields "the uppercase form" of its argument.  Pair keys
    are ASCII, and the model maps the letters [a]..[z] byte by byte.  A
    byte above 127 is copied as it is, so the model stands for the helper
    on strings of ASCII bytes only: a property that needs more of the
    result than its being empty or not takes its strings ASCII. *)
Fixpoint StringToUpper (s : string) : string :=
  match s with
  | EmptyString => EmptyString
  | String a rest => String (upper_ascii a) (StringToUpper rest)
  end.

End common.


(** ** Package [nonce] *)

Module nonce.

(** Modelled from the spec: the [nonce] package is not among the sources.
    The nonce is "a per-exchange-session 64-bit integer" whose counter
    starts at the zero value; [Set] stores a reading, [Inc] adds one
    (on [int64], so with wrap-around), [String] prints it in decimal. *)
Record Nonce : Type := mkNonce { n : Z }.

Definition zero : Nonce := mkNonce 0.
Definition Get (x : Nonce) : Z := n x.
Definition Set_ (x : Nonce) (val : Z) : Nonce := mkNonce val.
Definition Inc (x : Nonce) : Nonce := mkNonce (wrap_int64 (n x + 1)).
Definition String_ (x : Nonce) : string := strconv.FormatInt (n x).

End nonce.

(** ** [net/url]: [url.Values] *)

Module url.

(** [url.Values] is [map[string][]string]. *)
Abbreviation Values := (gmap string (list string)).

Definition Set_ (v : Values) (key value : string) : Values :=
  <[key := [value]]> v.

Definition Add (v : Values) (key value : string) : Values :=
  <[key := (default [] (v !! key) ++ [value])%list]> v.

(** [shouldEscape(c, encodeQueryComponent)]: only the unreserved bytes
    stay as they are. *)
Definition shouldEscape (c : Z) : bool :=
  if ((97 <=? c) && (c <=? 122)) || ((65 <=? c) && (c <=? 90))
     || ((48 <=? c) && (c <=? 57))
  then false
  else if (c =? 45) || (c =? 95) || (c =? 46) || (c =? 126) then false
  else true.

Definition upperhex (n : Z) : ascii :=
  if n <? 10 then ascii_of_byte (48 + n) else ascii_of_byte (55 + n).

Fixpoint QueryEscape (s : string) : string :=
  match s with
  | EmptyString => EmptyString
  | String a rest =>
      let c := byte_of_ascii a in
      if c =? 32 then String "+" (QueryEscape rest)
      else if shouldEscape c
           then String "%" (String (upperhex (Z.shiftr c 4))
                  (String (upperhex (Z.land c 15)) (QueryEscape rest)))
           else String a (QueryEscape rest)
  end.

(** The body of [Encode]'s loops: the buffer receives [key=value] for every
    value of every key, with [&] before each piece but the first. *)
Definition write_pair (keyEscaped : string) (buf : string) (value : string) : string :=
  (if Nat.ltb 0 (String.length buf) then buf ++ "&" else buf)
    ++ keyEscaped ++ "=" ++ QueryEscape value.

Definition write_key (v : Values) (buf : string) (k : string) : string :=
  fold_left (write_pair (QueryEscape k)) (default [] (v !! k)) buf.

(** [Encode] collects the keys in the map's iteration order ([keys], any
    enumeration of them), sorts them, and writes them out. *)
Definition Encode_from (keys : list string) (v : Values) : string :=
  fold_left (write_key v) (merge_sort String.le keys) EmptyString.

Definition Encode (v : Values) : string :=
  Encode_from ((map_to_list v).*1) v.

End url.


(** ** Package [exchange]: what the adapters use of it *)

Module exchange.

(** The fee-type tags; the adapters switch on the two trading ones. *)
Inductive FeeType : Type :=
| CryptocurrencyTradeFee
| CryptocurrencyWithdrawalFee
| OtherFeeType (tag : string).

Record FeeBuilder : Type := mkFeeBuilder {
  FeeType_ : FeeType;
  FirstCurrency : string;
  IsMaker : bool;
  PurchasePrice : float;
  Amount : float
}.

(** One call of [SendPayload]: its arguments, but for the [result]
    pointer. *)
Record Request : Type := mkRequest {
  httpMethod : string;
  path : string;
  headers : gmap string string;
  body : option string;
  authRequest : bool;
  verbose : bool
}.

End exchange.

(** ** Package [liqui] *)

Module liqui.

Definition liquiAPIPrivateURL : string := "https://api.Liqui.io/tapi".
Definition liquiAccountInfo : string := "getInfo".
Definition liquiTrade : string := "Trade".
Definition liquiActiveOrders : string := "ActiveOrders".
Definition liquiOrderInfo : string := "OrderInfo".
Definition liquiCancelOrder : string := "CancelOrder".
Definition liquiTradeHistory : string := "TradeHistory".
Definition liquiWithdrawCoin : string := "WithdrawCoin".

(** An entry of [Info.Pairs]; [Hidden] is an [int]. *)
Record PairData : Type := mkPairData { Hidden : Z }.

Record Info : Type := mkInfo { Pairs : gmap string PairData }.

(** The adapter: the fields of the embedded [exchange.Base] that the code
    reads or writes, and its own [Info]. *)
Record Liqui : Type := mkLiqui {
  Name : string;
  Verbose : bool;
  AuthenticatedAPISupport : bool;
  APIKey : string;
  APISecret : string;
  APIUrlSecondary : string;
  Nonce : nonce.Nonce;
  Info_ : Info
}.

Definition with_Nonce (l : Liqui) (x : nonce.Nonce) : Liqui :=
  mkLiqui (Name l) (Verbose l) (AuthenticatedAPISupport l) (APIKey l)
          (APISecret l) (APIUrlSecondary l) x (Info_ l).

(** What a call leaves behind outside the adapter: the requests handed to
    the transport, in order, and the lines written to the log. *)
Record World : Type := mkWorld {
  sent : list exchange.Request;
  logged : list string
}.

Definition world0 : World := mkWorld [] [].

(** [GetAvailablePairs] over one iteration order of the map. *)
Definition GetAvailablePairs_range (order : list (string * PairData))
    (nonHidden : bool) : list string :=
  fold_left
    (fun pairs '(x, y) =>
       if (nonHidden && (Hidden y =? 1)) || String.eqb x EmptyString
       then pairs
       else (pairs ++ [common.StringToUpper x])%list)
    order [].

Definition GetAvailablePairs (l : Liqui) (nonHidden : bool) : list string :=
  GetAvailablePairs_range (map_to_list (Pairs (Info_ l))) nonHidden.

#[warnings="-inexact-float"] Definition calculateTradingFee (purchasePrice amount : float) (isMaker : bool)
    : float :=
  let fee := if isMaker then 0.001%float else 0.0025%float in
  (fee * purchasePrice * amount)%float.

Section Collaborators.

(** The response decoded through the [result] pointer; its Go types are
    declared outside the sources. *)
Variable Payload : Type.
(** [result.OrderID] of a decoded [Trade] response. *)
Variable OrderID : Payload -> float.
(** [strconv.FormatFloat(x, 'f', -1, 64)]. *)
Variable FormatFloat : float -> string.
(** The format string of the error for a private call on an adapter
    without authenticated support; declared in package [exchange]. *)
Variable WarningAuthenticatedRequestWithoutCredentialsSet : string.
(** The package-level withdrawal-fee table. *)
Variable WithdrawalFees : gmap string float.

(** The transport collaborator: from the requests sent so far and the
    new one, the error it returns and the response it decodes. *)
Definition Transport : Type :=
  list exchange.Request -> exchange.Request -> option error * Payload.

Variable transport : Transport.

(** Modelled from the spec: [SendPayload] of [exchange.Base] is the
    "external HTTP transport" collaborator; a call is one network call,
    recorded in [sent]. *)
Definition SendPayload (w : World) (r : exchange.Request)
    : (option error * option Payload) * World :=
  let '(err, p) := transport (sent w) r in
  ((err, Some p), mkWorld (sent w ++ [r])%list (logged w)).

(** [SendAuthenticatedHTTPRequest]; [now] is what [time.Now().Unix()]
    reads during the call.  The result is the error, the response
    written through [result] (if any), the adapter and the world.  The two
    [Set]s also update the caller's map in place; no caller in the sources
    reads it afterwards, and it is not returned. *)
Definition SendAuthenticatedHTTPRequest (now : Z) (l : Liqui) (w : World)
    (method : string) (values : url.Values)
    : (option error * option Payload) * Liqui * World :=
  if negb (AuthenticatedAPISupport l) then
    ((Some (fmt.Errorf1 WarningAuthenticatedRequestWithoutCredentialsSet (Name l)),
      None), l, w)
  else
    let l := if nonce.Get (Nonce l) =? 0
             then with_Nonce l (nonce.Set_ (Nonce l) now)
             else with_Nonce l (nonce.Inc (Nonce l)) in
    let values := url.Set_ values "nonce" (nonce.String_ (Nonce l)) in
    let values := url.Set_ values "method" method in
    let encoded := url.Encode values in
    let hmac := common.GetHMAC common.HashSHA512
                  (bytes_of_string encoded) (bytes_of_string (APISecret l)) in
    let line := "Sending POST request to " ++ APIUrlSecondary l
                ++ " calling method " ++ method
                ++ " with params " ++ encoded in
    let w := if Verbose l
             then mkWorld (sent w) (logged w ++ [line])%list
             else w in
    let headers : gmap string string := ∅ in
    let headers := <["Key" := APIKey l]> headers in
    let headers := <["Sign" := common.HexEncodeToString hmac]> headers in
    let headers := <["Content-Type" := "application/x-www-form-urlencoded"]> headers in
    let '(res, w) :=
      SendPayload w
        (exchange.mkRequest "POST" (APIUrlSecondary l) headers
           (Some encoded) true (Verbose l)) in
    (res, l, w).

Definition GetAccountInfo (now : Z) (l : Liqui) (w : World)
    : (option Payload * option error) * Liqui * World :=
  let '((err, result), l, w) :=
    SendAuthenticatedHTTPRequest now l w liquiAccountInfo ∅ in
  ((result, err), l, w).

Definition Trade (now : Z) (l : Liqui) (w : World)
    (pair orderType : string) (amount price : float)
    : (float * option error) * Liqui * World :=
  let req : url.Values := ∅ in
  let req := url.Add req "pair" pair in
  let req := url.Add req "type" orderType in
  let req := url.Add req "amount" (FormatFloat amount) in
  let req := url.Add req "rate" (FormatFloat price) in
  let '((err, result), l, w) :=
    SendAuthenticatedHTTPRequest now l w liquiTrade req in
  ((from_option OrderID 0%float result, err), l, w).

Definition GetActiveOrders (now : Z) (l : Liqui) (w : World) (pair : string)
    : (option Payload * option error) * Liqui * World :=
  let req := url.Add ∅ "pair" pair in
  let '((err, result), l, w) :=
    SendAuthenticatedHTTPRequest now l w liquiActiveOrders req in
  ((result, err), l, w).

Definition GetOrderInfo (now : Z) (l : Liqui) (w : World) (OrderID : Z)
    : (option Payload * option error) * Liqui * World :=
  let req := url.Add ∅ "order_id" (strconv.FormatInt OrderID) in
  let '((err, result), l, w) :=
    SendAuthenticatedHTTPRequest now l w liquiOrderInfo req in
  ((result, err), l, w).

Definition CancelOrder (now : Z) (l : Liqui) (w : World) (OrderID : Z)
    : (bool * option error) * Liqui * World :=
  let req := url.Add ∅ "order_id" (strconv.FormatInt OrderID) in
  let '((err, result), l, w) :=
    SendAuthenticatedHTTPRequest now l w liquiCancelOrder req in
  match err with
  | Some e => ((false, Some e), l, w)
  | None => ((true, None), l, w)
  end.

Definition GetTradeHistory (now : Z) (l : Liqui) (w : World)
    (vals : url.Values) (pair : string)
    : (option Payload * option error) * Liqui * World :=
  let vals := if negb (String.eqb pair EmptyString) then url.Add vals "pair" pair else vals in
  let '((err, result), l, w) :=
    SendAuthenticatedHTTPRequest now l w liquiTradeHistory vals in
  ((result, err), l, w).

Definition WithdrawCoins (now : Z) (l : Liqui) (w : World)
    (coin : string) (amount : float) (address : string)
    : (option Payload * option error) * Liqui * World :=
  let req : url.Values := ∅ in
  let req := url.Add req "coinName" coin in
  let req := url.Add req "amount" (FormatFloat amount) in
  let req := url.Add req "address" address in
  let '((err, result), l, w) :=
    SendAuthenticatedHTTPRequest now l w liquiWithdrawCoin req in
  ((result, err), l, w).

Definition getCryptocurrencyWithdrawalFee (currency : string) : float :=
  default 0%float (WithdrawalFees !! currency).

Definition GetFee (l : Liqui) (feeBuilder : exchange.FeeBuilder)
    : float * option error :=
  let fee :=
    match exchange.FeeType_ feeBuilder with
    | exchange.CryptocurrencyTradeFee =>
        calculateTradingFee (exchange.PurchasePrice feeBuilder)
          (exchange.Amount feeBuilder) (exchange.IsMaker feeBuilder)
    | exchange.CryptocurrencyWithdrawalFee =>
        getCryptocurrencyWithdrawalFee (exchange.FirstCurrency feeBuilder)
    | exchange.OtherFeeType _ => 0%float
    end in
  let fee := if (fee <? 0)%float then 0%float else fee in
  (fee, None).

(** *** Sessions and the generic private operations *)

(** A private operation with its arguments. *)
Inductive PrivateCall : Type :=
| CallGetAccountInfo
| CallTrade (pair orderType : string) (amount price : float)
| CallGetActiveOrders (pair : string)
| CallGetOrderInfo (OrderID : Z)
| CallCancelOrder (OrderID : Z)
| CallGetTradeHistory (vals : url.Values) (pair : string)
| CallWithdrawCoins (coin : string) (amount : float) (address : string).

(** Run one private operation; only the error, the adapter and the world
    are kept. *)
Definition run_private (now : Z) (l : Liqui) (w : World) (c : PrivateCall)
    : option error * Liqui * World :=
  match c with
  | CallGetAccountInfo =>
      let '((_, err), l, w) := GetAccountInfo now l w in (err, l, w)
  | CallTrade pr orderType amount price =>
      let '((_, err), l, w) := Trade now l w pr orderType amount price in (err, l, w)
  | CallGetActiveOrders pr =>
      let '((_, err), l, w) := GetActiveOrders now l w pr in (err, l, w)
  | CallGetOrderInfo id =>
      let '((_, err), l, w) := GetOrderInfo now l w id in (err, l, w)
  | CallCancelOrder id =>
      let '((_, err), l, w) := CancelOrder now l w id in (err, l, w)
  | CallGetTradeHistory vals pr =>
      let '((_, err), l, w) := GetTradeHistory now l w vals pr in (err, l, w)
  | CallWithdrawCoins coin amount address =>
      let '((_, err), l, w) := WithdrawCoins now l w coin amount address in (err, l, w)
  end.

(** A session: signed requests issued one after the other on the same
    adapter, each with the clock reading of its moment.  The result lists
    the nonce counter as each call leaves it. *)
Fixpoint session (calls : list (Z * string * url.Values)) (l : Liqui) (w : World)
    : list Z * Liqui * World :=
  match calls with
  | [] => ([], l, w)
  | (now, method, values) :: rest =>
      let '(_, l1, w1) := SendAuthenticatedHTTPRequest now l w method values in
      let '(trace, l2, w2) := session rest l1 w1 in
      (nonce.Get (Nonce l1) :: trace, l2, w2)
  end.

End Collaborators.

Arguments Transport Payload : clear implicits.
Arguments SendPayload {Payload} transport w r.
Arguments SendAuthenticatedHTTPRequest {Payload} _ transport now l w method values.
Arguments GetAccountInfo {Payload} _ transport now l w.
Arguments Trade {Payload} OrderID FormatFloat _ transport now l w pair orderType amount price.
Arguments GetActiveOrders {Payload} _ transport now l w pair.
Arguments GetOrderInfo {Payload} _ transport now l w OrderID.
Arguments CancelOrder {Payload} _ transport now l w OrderID.
Arguments GetTradeHistory {Payload} _ transport now l w vals pair.
Arguments WithdrawCoins {Payload} FormatFloat _ transport now l w coin amount address.
Arguments run_private {Payload} OrderID FormatFloat _ transport now l w c.
Arguments session {Payload} _ transport calls l w.

End liqui.

(** ** Package [pair] *)

Module pair.

(** A currency pair: base and quote currency. *)
Abbreviation CurrencyPair := (string * string)%type.

Definition CurrencyItem : Type := string.

End pair.

(** ** Package [ticker]: the process-wide ticker cache *)

Module ticker.

Definition Spot : string := "SPOT".

(** The fields of [ticker.Price] that the wrapper fills in. *)
Record Price : Type := mkPrice {
  Pair : pair.CurrencyPair;
  Last : float;
  High : float;
  Low : float;
  Bid : float;
  Ask : float;
  Volume : float
}.

Definition zeroPrice : Price :=
  mkPrice (EmptyString, EmptyString) 0%float 0%float 0%float 0%float 0%float 0%float.

(** The cache key: exchange, pair and asset type. *)
Abbreviation Key := (string * pair.CurrencyPair * string)%type.
Abbreviation Store := (gmap Key Price).

Definition errMiss : error := errors_New "ticker not found".

(** Modelled from the spec: the [ticker] package is not among the sources.
    [GetTicker] is the cache's [get]: "non-blocking lookup only", the
    snapshot or a miss. *)
Definition GetTicker (c : Store) (exchangeName : string) (p : pair.CurrencyPair)
    (tickerType : string) : Price * option error :=
  match c !! (exchangeName, p, tickerType) with
  | Some t => (t, None)
  | None => (zeroPrice, Some errMiss)
  end.

(** Modelled from the spec: [ProcessTicker] is the cache's [put]:
    "unconditional overwrite". *)
Definition ProcessTicker (c : Store) (exchangeName : string) (p : pair.CurrencyPair)
    (tickerNew : Price) (tickerType : string) : Store :=
  <[(exchangeName, p, tickerType) := tickerNew]> c.

End ticker.

(** ** Package [orderbook]: the process-wide orderbook cache *)

Module orderbook.

Record Item : Type := mkItem { Amount : float; Price : float }.

(** The fields of [orderbook.Base] that the wrapper fills in. *)
Record Base : Type := mkBase {
  Pair : pair.CurrencyPair;
  Bids : list Item;
  Asks : list Item
}.

Definition zeroBase : Base := mkBase (EmptyString, EmptyString) [] [].

Abbreviation Key := (string * pair.CurrencyPair * string)%type.
Abbreviation Store := (gmap Key Base).

Definition errMiss : error := errors_New "orderbook not found".

(** Modelled from the spec: the [orderbook] package is not among the
    sources.  [GetOrderbook] is the cache's [get], [ProcessOrderbook] its
    [put]. *)
Definition GetOrderbook (c : Store) (exchangeName : string) (p : pair.CurrencyPair)
    (orderbookType : string) : Base * option error :=
  match c !! (exchangeName, p, orderbookType) with
  | Some ob => (ob, None)
  | None => (zeroBase, Some errMiss)
  end.

Definition ProcessOrderbook (c : Store) (exchangeName : string)
    (p : pair.CurrencyPair) (orderbookNew : Base) (orderbookType : string) : Store :=
  <[(exchangeName, p, orderbookType) := orderbookNew]> c.

End orderbook.

(** ** Package [poloniex]: the wrapper *)

Module poloniex.

(** An entry of the exchange's ticker response. *)
Record Ticker : Type := mkTicker {
  Last : float;
  LowestAsk : float;
  HighestBid : float;
  BaseVolume : float;
  High24Hr : float;
  Low24Hr : float
}.

Definition zeroTicker : Ticker :=
  mkTicker 0%float 0%float 0%float 0%float 0%float 0%float.

Record OrderbookItem : Type := mkOrderbookItem { Price : float; Amount : float }.

(** An entry of [OrderbookAll.Data]. *)
Record Orderbook : Type := mkOrderbook {
  Asks : list OrderbookItem;
  Bids : list OrderbookItem
}.

Record AccountCurrencyInfo : Type := mkAccountCurrencyInfo {
  CurrencyName : string;
  TotalValue : float
}.

Record AccountInfo : Type := mkAccountInfo {
  ExchangeName : string;
  Currencies : list AccountCurrencyInfo
}.

(** The adapter: the fields of the embedded [exchange.Base] the wrapper
    reads. *)
Record Poloniex : Type := mkPoloniex {
  Name : string;
  EnabledPairs : list pair.CurrencyPair
}.

Definition GetName (p : Poloniex) : string := Name p.
Definition GetEnabledCurrencies (p : Poloniex) : list pair.CurrencyPair :=
  EnabledPairs p.

(** The state outside the adapter: the two process-wide caches, and how
    often each network endpoint has been called. *)
Record World : Type := mkWorld {
  tickers : ticker.Store;
  orderbooks : orderbook.Store;
  ticker_fetches : nat;
  orderbook_fetches : nat;
  balance_fetches : nat
}.

Definition world0 : World := mkWorld ∅ ∅ 0 0 0.

(** The network-backed calls of the adapter, which live outside the
    sources: the answer to the [k]-th call of each endpoint. *)
Record Network : Type := mkNetwork {
  net_GetTicker : nat -> gmap string Ticker * option error;
  net_GetOrderbook : nat -> gmap string Orderbook * option error;
  net_GetBalances : nat -> gmap string float * option error
}.

Section Wrapper.

(** [exchange.FormatExchangeCurrency(name, x).String()]: the pair in the
    exchange's wire format. *)
Variable FormatExchangeCurrency : string -> pair.CurrencyPair -> string.
Variable net : Network.

Definition GetTicker (w : World) : (gmap string Ticker * option error) * World :=
  (net_GetTicker net (ticker_fetches w),
   mkWorld (tickers w) (orderbooks w) (S (ticker_fetches w))
           (orderbook_fetches w) (balance_fetches w)).

Definition GetOrderbook (w : World)
    : (gmap string Orderbook * option error) * World :=
  (net_GetOrderbook net (orderbook_fetches w),
   mkWorld (tickers w) (orderbooks w) (ticker_fetches w)
           (S (orderbook_fetches w)) (balance_fetches w)).

Definition GetBalances (w : World) : (gmap string float * option error) * World :=
  (net_GetBalances net (balance_fetches w),
   mkWorld (tickers w) (orderbooks w) (ticker_fetches w)
           (orderbook_fetches w) (S (balance_fetches w))).

Definition with_tickers (w : World) (c : ticker.Store) : World :=
  mkWorld c (orderbooks w) (ticker_fetches w) (orderbook_fetches w)
          (balance_fetches w).

Definition with_orderbooks (w : World) (c : orderbook.Store) : World :=
  mkWorld (tickers w) c (ticker_fetches w) (orderbook_fetches w)
          (balance_fetches w).

(** The snapshot [UpdateTicker] builds for the enabled pair [x]; a key
    absent from the response reads as the zero [Ticker]. *)
Definition ticker_snapshot (p : Poloniex) (tick : gmap string Ticker)
    (x : pair.CurrencyPair) : ticker.Price :=
  let curr := FormatExchangeCurrency (GetName p) x in
  let t := default zeroTicker (tick !! curr) in
  ticker.mkPrice x (Last t) (High24Hr t) (Low24Hr t) (HighestBid t)
                 (LowestAsk t) (BaseVolume t).

Definition UpdateTicker_body (p : Poloniex) (assetType : string)
    (tick : gmap string Ticker) (c : ticker.Store) (x : pair.CurrencyPair)
    : ticker.Store :=
  ticker.ProcessTicker c (GetName p) x (ticker_snapshot p tick x) assetType.

Definition UpdateTicker (p : Poloniex) (w : World)
    (currencyPair : pair.CurrencyPair) (assetType : string)
    : (ticker.Price * option error) * World :=
  let '((tick, err), w) := GetTicker w in
  match err with
  | Some e => ((ticker.zeroPrice, Some e), w)
  | None =>
      let c := fold_left (UpdateTicker_body p assetType tick)
                 (GetEnabledCurrencies p) (tickers w) in
      (ticker.GetTicker c (Name p) currencyPair assetType, with_tickers w c)
  end.

Definition GetTickerPrice (p : Poloniex) (w : World)
    (currencyPair : pair.CurrencyPair) (assetType : string)
    : (ticker.Price * option error) * World :=
  let '(tickerNew, err) :=
    ticker.GetTicker (tickers w) (GetName p) currencyPair assetType in
  match err with
  | Some _ => UpdateTicker p w currencyPair assetType
  | None => ((tickerNew, None), w)
  end.

Definition to_item (obData : OrderbookItem) : orderbook.Item :=
  orderbook.mkItem (Amount obData) (Price obData).

(** One turn of [UpdateOrderbook]'s loop; the local [orderBook] is declared
    outside the loop and carried from one turn to the next. *)
Definition UpdateOrderbook_body (p : Poloniex) (assetType : string)
    (data_ : gmap string Orderbook) (acc : orderbook.Store * orderbook.Base)
    (x : pair.CurrencyPair) : orderbook.Store * orderbook.Base :=
  let '(c, orderBook) := acc in
  let currency := FormatExchangeCurrency (Name p) x in
  match data_ !! currency with
  | None => (c, orderBook)
  | Some data =>
      let orderBook := orderbook.mkBase x (orderbook.Bids orderBook)
                                        (orderbook.Asks orderBook) in
      let obItems := fold_left (fun items y => (items ++ [to_item y])%list)
                               (Bids data) [] in
      let orderBook := orderbook.mkBase (orderbook.Pair orderBook) obItems
                                        (orderbook.Asks orderBook) in
      let obItems := fold_left (fun items y => (items ++ [to_item y])%list)
                               (Asks data) [] in
      let orderBook := orderbook.mkBase (orderbook.Pair orderBook)
                                        (orderbook.Bids orderBook) obItems in
      (orderbook.ProcessOrderbook c (Name p) x orderBook assetType, orderBook)
  end.

Definition UpdateOrderbook (p : Poloniex) (w : World)
    (currencyPair : pair.CurrencyPair) (assetType : string)
    : (orderbook.Base * option error) * World :=
  let orderBook := orderbook.zeroBase in
  let '((orderbookNew, err), w) := GetOrderbook w in
  match err with
  | Some e => ((orderBook, Some e), w)
  | None =>
      let '(c, _) := fold_left (UpdateOrderbook_body p assetType orderbookNew)
                       (GetEnabledCurrencies p) (orderbooks w, orderBook) in
      (orderbook.GetOrderbook c (Name p) currencyPair assetType,
       with_orderbooks w c)
  end.

Definition GetOrderbookEx (p : Poloniex) (w : World)
    (currencyPair : pair.CurrencyPair) (assetType : string)
    : (orderbook.Base * option error) * World :=
  let '(ob, err) :=
    orderbook.GetOrderbook (orderbooks w) (GetName p) currencyPair assetType in
  match err with
  | Some _ => UpdateOrderbook p w currencyPair assetType
  | None => ((ob, None), w)
  end.

(** [GetExchangeAccountInfo] ranges over the balances map. *)
Definition GetExchangeAccountInfo (p : Poloniex) (w : World)
    : (AccountInfo * option error) * World :=
  let '((accountBalance, err), w) := GetBalances w in
  match err with
  | Some e => ((mkAccountInfo (GetName p) [], Some e), w)
  | None =>
      ((mkAccountInfo (GetName p)
          (fold_left (fun cs '(x, y) => (cs ++ [mkAccountCurrencyInfo x y])%list)
                     (map_to_list accountBalance) []),
        None), w)
  end.

(** *** Callers of [GetTickerPrice] running side by side

    [GetTickerPrice] holds no lock between its lookup and its refresh, so
    another caller may run between the two.  A caller is at its start,
    has seen the miss, or has returned; a schedule names the caller that
    moves next. *)
Inductive Caller : Type :=
| AtStart
| SawMiss
| Returned (r : ticker.Price * option error).

Definition step (p : Poloniex) (currencyPair : pair.CurrencyPair)
    (assetType : string) (cfg : list Caller * World) (i : nat)
    : list Caller * World :=
  let '(cs, w) := cfg in
  match cs !! i with
  | Some AtStart =>
      let '(tickerNew, err) :=
        ticker.GetTicker (tickers w) (GetName p) currencyPair assetType in
      match err with
      | Some _ => (<[i := SawMiss]> cs, w)
      | None => (<[i := Returned (tickerNew, None)]> cs, w)
      end
  | Some SawMiss =>
      let '(r, w) := UpdateTicker p w currencyPair assetType in
      (<[i := Returned r]> cs, w)
  | _ => cfg
  end.

Definition run (p : Poloniex) (currencyPair : pair.CurrencyPair)
    (assetType : string) (schedule : list nat) (cfg : list Caller * World)
    : list Caller * World :=
  fold_left (step p currencyPair assetType) schedule cfg.

(** [n] calls of [GetTickerPrice], one after the other. *)
Fixpoint GetTickerPrice_times (n : nat) (p : Poloniex) (w : World)
    (currencyPair : pair.CurrencyPair) (assetType : string)
    : list (ticker.Price * option error) * World :=
  match n with
  | O => ([], w)
  | S m =>
      let '(r, w1) := GetTickerPrice p w currencyPair assetType in
      let '(rs, w2) := GetTickerPrice_times m p w1 currencyPair assetType in
      (r :: rs, w2)
  end.

Fixpoint GetOrderbookEx_times (n : nat) (p : Poloniex) (w : World)
    (currencyPair : pair.CurrencyPair) (assetType : string)
    : list (orderbook.Base * option error) * World :=
  match n with
  | O => ([], w)
  | S m =>
      let '(r, w1) := GetOrderbookEx p w currencyPair assetType in
      let '(rs, w2) := GetOrderbookEx_times m p w1 currencyPair assetType in
      (r :: rs, w2)
  end.

End Wrapper.

(** *** The operations the venue does not implement *)

Definition GetExchangeFundTransferHistory {FundHistory : Type} (p : Poloniex)
    : list FundHistory * option error :=
  ([], Some (errors_New "not supported on exchange")).

Definition GetExchangeHistory {TradeHistory : Type} (p : Poloniex)
    (currencyPair : pair.CurrencyPair) (assetType : string)
    : list TradeHistory * option error :=
  ([], Some (errors_New "trade history not yet implemented")).

Definition SubmitExchangeOrder (p : Poloniex) (currencyPair : pair.CurrencyPair)
    (side orderType : string) (amount price : float) (clientID : string)
    : Z * option error :=
  (0, Some (errors_New "not yet implemented")).

Definition ModifyExchangeOrder {ModifyOrder : Type} (p : Poloniex) (orderID : Z)
    (action : ModifyOrder) : Z * option error :=
  (0, Some (errors_New "not yet implemented")).

Definition CancelExchangeOrder (p : Poloniex) (orderID : Z) : option error :=
  Some (errors_New "not yet implemented").

Definition CancelAllExchangeOrders (p : Poloniex) : option error :=
  Some (errors_New "not yet implemented").

Definition GetExchangeOrderInfo {OrderDetail : Type} (zeroOrderDetail : OrderDetail)
    (p : Poloniex) (orderID : Z) : OrderDetail * option error :=
  (zeroOrderDetail, Some (errors_New "not yet implemented")).

Definition GetExchangeDepositAddress (p : Poloniex)
    (cryptocurrency : pair.CurrencyItem) : string * option error :=
  (EmptyString, Some (errors_New "not yet implemented")).

Definition WithdrawCryptoExchangeFunds (p : Poloniex) (address : string)
    (cryptocurrency : pair.CurrencyItem) (amount : float) : string * option error :=
  (EmptyString, Some (errors_New "not yet implemented")).

Definition WithdrawFiatExchangeFunds (p : Poloniex) (currency : pair.CurrencyItem)
    (amount : float) : string * option error :=
  (EmptyString, Some (errors_New "not yet implemented")).

Definition WithdrawFiatExchangeFundsToInternationalBank (p : Poloniex)
    (currency : pair.CurrencyItem) (amount : float) : string * option error :=
  (EmptyString, Some (errors_New "not yet implemented")).

End poloniex.

(** ** Auxiliary definitions for the properties *)

(** What one turn of [GetAvailablePairs]'s loop contributes. *)
Definition listed (nonHidden : bool) (kv : string * liqui.PairData) : option string :=
  if (nonHidden && (liqui.Hidden kv.2 =? 1)) || String.eqb kv.1 EmptyString
  then None
  else Some (common.StringToUpper kv.1).

Definition liqui_with_pairs (pairs : gmap string liqui.PairData) : liqui.Liqui :=
  liqui.mkLiqui "Liqui" false false EmptyString EmptyString liqui.liquiAPIPrivateURL nonce.zero
                (liqui.mkInfo pairs).

Definition sample_pairs : gmap string liqui.PairData :=
  <["eth_btc" := liqui.mkPairData 0]>
    (<["ltc_btc" := liqui.mkPairData 1]> (<[EmptyString := liqui.mkPairData 0]> ∅)).

(** A transport whose responses are rewritten by [f] before they are
    decoded; its errors are those of [transport]. *)
Definition map_payload {A B : Type} (f : A -> B) (transport : liqui.Transport A)
    : liqui.Transport B :=
  fun history r => let '(err, p) := transport history r in (err, f p).

(** Sample collaborators and adapters. *)
Definition sample_warning : string :=
  "WARNING -- Exchange %s authenticated HTTP request called but not supported due to unset/default API keys.".

Definition transport_ok : liqui.Transport string :=
  fun _ _ => (None, "{success:1}").

Definition transport_down : liqui.Transport string :=
  fun _ _ => (Some (errors_New "connection refused"), EmptyString).

Definition sample_OrderID : string -> float := fun _ => 0%float.
Definition sample_FormatFloat : float -> string := fun _ => "1".

Definition liqui_sample (auth : bool) (key secret : string) (counter : Z)
    : liqui.Liqui :=
  liqui.mkLiqui "Liqui" false auth key secret liqui.liquiAPIPrivateURL
                (nonce.mkNonce counter) (liqui.mkInfo ∅).

(** The characters of lowercase hexadecimal. *)
Definition lower_hex (a : ascii) : bool :=
  let c := byte_of_ascii a in
  ((48 <=? c) && (c <=? 57)) || ((97 <=? c) && (c <=? 102)).

Definition is_byte (b : Z) : Prop := 0 <= b < 256.

(** The counter a signed call leaves: seeded when it reads zero, one more
    otherwise. *)
Definition next_nonce (now : Z) (x : nonce.Nonce) : nonce.Nonce :=
  if nonce.Get x =? 0 then nonce.Set_ x now else nonce.Inc x.

(** The signing step in the specification's words: insert the nonce and the
    method name into the parameters, encode them, and sign the encoded
    bytes with HMAC-SHA512 under the secret, in lowercase hex. *)
Definition spec_params (method : string) (params : url.Values) (nonce_ : string)
    : url.Values :=
  <["method" := [method]]> (<["nonce" := [nonce_]]> params).

Definition spec_sign (method : string) (params : url.Values)
    (nonce_ secret : string) : string * string :=
  let body := url.Encode (spec_params method params nonce_) in
  (body,
   common.HexEncodeToString
     (common.GetHMAC common.HashSHA512 (bytes_of_string body)
        (bytes_of_string secret))).

(** The three headers of a private request. *)
Definition spec_headers (key sign : string) : gmap string string :=
  list_to_map [("Key", key); ("Sign", sign);
               ("Content-Type", "application/x-www-form-urlencoded")].

(** The request a signed call hands to the transport, given the counter
    [x] the call leaves. *)
Definition spec_request (l : liqui.Liqui) (x : nonce.Nonce) (method : string)
    (values : url.Values) : exchange.Request :=
  let '(body, sign) := spec_sign method values (nonce.String_ x) (liqui.APISecret l) in
  exchange.mkRequest "POST" (liqui.APIUrlSecondary l)
    (spec_headers (liqui.APIKey l) sign) (Some body) true (liqui.Verbose l).


(** Body and [Sign] header of a request. *)
Definition body_and_sign (r : exchange.Request) : option string * option string :=
  (exchange.body r, exchange.headers r !! "Sign").

(** The snapshot [UpdateOrderbook] stores for the pair [x] whose entry in
    the response is [data]. *)
Definition orderbook_snapshot (x : pair.CurrencyPair) (data : poloniex.Orderbook)
    : orderbook.Base :=
  orderbook.mkBase x (poloniex.to_item <$> poloniex.Bids data)
                     (poloniex.to_item <$> poloniex.Asks data).

(** Sample wrapper data: two enabled pairs and responses that cover both of
    them or only the first. *)
Definition BTC_USD : pair.CurrencyPair := ("BTC", "USD").
Definition ETH_USD : pair.CurrencyPair := ("ETH", "USD").

Definition sample_format (name : string) (x : pair.CurrencyPair) : string :=
  x.1 ++ "_" ++ x.2.

Definition sample_poloniex : poloniex.Poloniex :=
  poloniex.mkPoloniex "Poloniex" [BTC_USD; ETH_USD].

Definition btc_ticker (last : float) : poloniex.Ticker :=
  poloniex.mkTicker last 6401 6399 1200 6500 6300.
Definition eth_ticker : poloniex.Ticker :=
  poloniex.mkTicker 200 201 199 5000 210 190.

Definition btc_book : poloniex.Orderbook :=
  poloniex.mkOrderbook [poloniex.mkOrderbookItem 6401 2]
                       [poloniex.mkOrderbookItem 6399 1].
Definition eth_book : poloniex.Orderbook :=
  poloniex.mkOrderbook [poloniex.mkOrderbookItem 201 7]
                       [poloniex.mkOrderbookItem 199 3].

(** Every fetch answers with both pairs; the [k]-th ticker fetch reports the
    last BTC price [6400 + k]. *)
Definition net_full : poloniex.Network :=
  poloniex.mkNetwork
    (fun k => (<["BTC_USD" := btc_ticker (6400 + PrimFloat.of_uint63 (Uint63.of_Z (Z.of_nat k)))]>
                 (<["ETH_USD" := eth_ticker]> ∅), None))
    (fun _ => (<["BTC_USD" := btc_book]> (<["ETH_USD" := eth_book]> ∅), None))
    (fun _ => (∅, None)).

(** Every fetch answers without the ETH_USD entry. *)
Definition net_without_eth : poloniex.Network :=
  poloniex.mkNetwork
    (fun _ => (<["BTC_USD" := btc_ticker 6400]> ∅, None))
    (fun _ => (<["BTC_USD" := btc_book]> ∅, None))
    (fun _ => (∅, None)).

(** The balances endpoint fails with the given message. *)
Definition net_balances_fail (msg : string) : poloniex.Network :=
  poloniex.mkNetwork (fun _ => (∅, None)) (fun _ => (∅, None))
                     (fun _ => (∅, Some (errors_New msg))).

(** The generic operations the wrapper leaves unimplemented, with their
    arguments, and the error each returns. *)
Inductive UnsupportedCall : Type :=
| CallGetExchangeFundTransferHistory
| CallGetExchangeHistory (currencyPair : pair.CurrencyPair) (assetType : string)
| CallSubmitExchangeOrder (currencyPair : pair.CurrencyPair)
    (side orderType : string) (amount price : float) (clientID : string)
| CallModifyExchangeOrder (orderID : Z) (action : string)
| CallCancelExchangeOrder (orderID : Z)
| CallCancelAllExchangeOrders
| CallGetExchangeOrderInfo (orderID : Z)
| CallGetExchangeDepositAddress (cryptocurrency : pair.CurrencyItem)
| CallWithdrawCryptoExchangeFunds (address : string)
    (cryptocurrency : pair.CurrencyItem) (amount : float)
| CallWithdrawFiatExchangeFunds (currency : pair.CurrencyItem) (amount : float)
| CallWithdrawFiatExchangeFundsToInternationalBank
    (currency : pair.CurrencyItem) (amount : float).

Definition unsupported_error (p : poloniex.Poloniex) (c : UnsupportedCall)
    : option error :=
  match c with
  | CallGetExchangeFundTransferHistory =>
      (poloniex.GetExchangeFundTransferHistory (FundHistory := unit) p).2
  | CallGetExchangeHistory cp at_ =>
      (poloniex.GetExchangeHistory (TradeHistory := unit) p cp at_).2
  | CallSubmitExchangeOrder cp side ot amount price clientID =>
      (poloniex.SubmitExchangeOrder p cp side ot amount price clientID).2
  | CallModifyExchangeOrder orderID action =>
      (poloniex.ModifyExchangeOrder p orderID action).2
  | CallCancelExchangeOrder orderID => poloniex.CancelExchangeOrder p orderID
  | CallCancelAllExchangeOrders => poloniex.CancelAllExchangeOrders p
  | CallGetExchangeOrderInfo orderID =>
      (poloniex.GetExchangeOrderInfo tt p orderID).2
  | CallGetExchangeDepositAddress c => (poloniex.GetExchangeDepositAddress p c).2
  | CallWithdrawCryptoExchangeFunds address c amount =>
      (poloniex.WithdrawCryptoExchangeFunds p address c amount).2
  | CallWithdrawFiatExchangeFunds c amount =>
      (poloniex.WithdrawFiatExchangeFunds p c amount).2
  | CallWithdrawFiatExchangeFundsToInternationalBank c amount =>
      (poloniex.WithdrawFiatExchangeFundsToInternationalBank p c amount).2
  end.

Definition unsupported_message (c : UnsupportedCall) : string :=
  match c with
  | CallGetExchangeFundTransferHistory => "not supported on exchange"
  | CallGetExchangeHistory _ _ => "trade history not yet implemented"
  | _ => "not yet implemented"
  end.

(** ** Package [liqui]: the public calls *)

Module liqui_public.

Definition liquiAPIPublicURL : string := "https://api.Liqui.io/api".
Definition liquiAPIPublicVersion : string := "3".
Definition liquiInfo : string := "info".
Definition liquiTicker : string := "ticker".
Definition liquiDepth : string := "depth".
Definition liquiTrades : string := "trades".

(** [fmt.Sprintf] for a format whose verbs are all [%s]: each verb takes the
    next argument; a verb without argument prints as [%!s(MISSING)]. *)
Fixpoint Sprintf (format : string) (args : list string) : string :=
  match format with
  | String "%"%char (String "s"%char rest) =>
      match args with
      | a :: args' => a ++ Sprintf rest args'
      | [] => "%!s(MISSING)" ++ Sprintf rest []
      end
  | String c rest => String c (Sprintf rest args)
  | EmptyString => EmptyString
  end.

Section Collaborators.

Variable Payload : Type.
(** [response.Data[currencyPair]] of a decoded response: the entry of the
    pair, the zero value when the response has none. *)
Variable entry : Payload -> string -> Payload.
Variable transport : liqui.Transport Payload.
(** [l.APIUrl], the base URL of the public endpoints: a field of the adapter
    next to those of [liqui.Liqui], which the private calls do not read. *)
Variable APIUrl : string.

(** [SendHTTPRequest]: a [GET] with neither headers nor body. *)
Definition SendHTTPRequest (l : liqui.Liqui) (w : liqui.World) (path : string)
    : (option error * option Payload) * liqui.World :=
  liqui.SendPayload transport w
    (exchange.mkRequest "GET" path ∅ None false (liqui.Verbose l)).

Definition GetInfo (l : liqui.Liqui) (w : liqui.World)
    : (option Payload * option error) * liqui.World :=
  let req := Sprintf "%s/%s/%s/" [APIUrl; liquiAPIPublicVersion; liquiInfo] in
  let '((err, resp), w) := SendHTTPRequest l w req in
  ((resp, err), w).

Definition GetTicker (l : liqui.Liqui) (w : liqui.World) (currencyPair : string)
    : (option Payload * option error) * liqui.World :=
  let req := Sprintf "%s/%s/%s/%s"
               [APIUrl; liquiAPIPublicVersion; liquiTicker; currencyPair] in
  let '((err, data), w) := SendHTTPRequest l w req in
  ((data, err), w).

Definition GetDepth (l : liqui.Liqui) (w : liqui.World) (currencyPair : string)
    : (option Payload * option error) * liqui.World :=
  let req := Sprintf "%s/%s/%s/%s"
               [APIUrl; liquiAPIPublicVersion; liquiDepth; currencyPair] in
  let '((err, data), w) := SendHTTPRequest l w req in
  (((fun d => entry d currencyPair) <$> data, err), w).

Definition GetTrades (l : liqui.Liqui) (w : liqui.World) (currencyPair : string)
    : (option Payload * option error) * liqui.World :=
  let req := Sprintf "%s/%s/%s/%s"
               [APIUrl; liquiAPIPublicVersion; liquiTrades; currencyPair] in
  let '((err, data), w) := SendHTTPRequest l w req in
  (((fun d => entry d currencyPair) <$> data, err), w).

(** A public operation with its argument. *)
Inductive PublicCall : Type :=
| CallGetInfo
| CallGetTicker (currencyPair : string)
| CallGetDepth (currencyPair : string)
| CallGetTrades (currencyPair : string).

Definition run_public (l : liqui.Liqui) (w : liqui.World) (c : PublicCall)
    : (option Payload * option error) * liqui.World :=
  match c with
  | CallGetInfo => GetInfo l w
  | CallGetTicker cp => GetTicker l w cp
  | CallGetDepth cp => GetDepth l w cp
  | CallGetTrades cp => GetTrades l w cp
  end.

End Collaborators.

Arguments SendHTTPRequest {Payload} transport l w path.
Arguments GetInfo {Payload} transport APIUrl l w.
Arguments GetTicker {Payload} transport APIUrl l w currencyPair.
Arguments GetDepth {Payload} entry transport APIUrl l w currencyPair.
Arguments GetTrades {Payload} entry transport APIUrl l w currencyPair.
Arguments run_public {Payload} entry transport APIUrl l w c.

End liqui_public.

(** ** Auxiliary definitions for the further properties *)

(** The path of a public operation. *)
Definition public_path (APIUrl : string) (c : liqui_public.PublicCall) : string :=
  match c with
  | liqui_public.CallGetInfo => APIUrl ++ "/3/info/"
  | liqui_public.CallGetTicker cp => APIUrl ++ "/3/ticker/" ++ cp
  | liqui_public.CallGetDepth cp => APIUrl ++ "/3/depth/" ++ cp
  | liqui_public.CallGetTrades cp => APIUrl ++ "/3/trades/" ++ cp
  end.

(** A byte that is no uppercase ASCII letter, and strings of such bytes. *)
Definition not_upper (a : ascii) : bool :=
  let n := byte_of_ascii a in negb ((65 <=? n) && (n <=? 90)).

Fixpoint no_upper (s : string) : bool :=
  match s with
  | EmptyString => true
  | String a rest => not_upper a && no_upper rest
  end.

(** The API method name and the parameters a private operation hands to
    [SendAuthenticatedHTTPRequest]. *)
Definition private_method (c : liqui.PrivateCall) : string :=
  match c with
  | liqui.CallGetAccountInfo => "getInfo"
  | liqui.CallTrade _ _ _ _ => "Trade"
  | liqui.CallGetActiveOrders _ => "ActiveOrders"
  | liqui.CallGetOrderInfo _ => "OrderInfo"
  | liqui.CallCancelOrder _ => "CancelOrder"
  | liqui.CallGetTradeHistory _ _ => "TradeHistory"
  | liqui.CallWithdrawCoins _ _ _ => "WithdrawCoin"
  end.

Definition private_values (FormatFloat : float -> string) (c : liqui.PrivateCall)
    : url.Values :=
  match c with
  | liqui.CallGetAccountInfo => ∅
  | liqui.CallTrade pr orderType amount price =>
      url.Add (url.Add (url.Add (url.Add ∅ "pair" pr) "type" orderType)
                       "amount" (FormatFloat amount))
              "rate" (FormatFloat price)
  | liqui.CallGetActiveOrders pr => url.Add ∅ "pair" pr
  | liqui.CallGetOrderInfo id => url.Add ∅ "order_id" (strconv.FormatInt id)
  | liqui.CallCancelOrder id => url.Add ∅ "order_id" (strconv.FormatInt id)
  | liqui.CallGetTradeHistory vals pr =>
      if negb (String.eqb pr EmptyString) then url.Add vals "pair" pr else vals
  | liqui.CallWithdrawCoins coin amount address =>
      url.Add (url.Add (url.Add ∅ "coinName" coin) "amount" (FormatFloat amount))
              "address" address
  end.

(** The body of the last request handed to the transport. *)
Definition last_body (w : liqui.World) : option string :=
  last (liqui.sent w) ≫= exchange.body.

(** The pieces [key=value] that [Encode] writes for the keys [ks], in order,
    and their concatenation with [&] between them. *)
Definition pieces_of (v : url.Values) (ks : list string) : list string :=
  ks ≫= (fun k => (fun x => url.QueryEscape k ++ "=" ++ url.QueryEscape x)
                    <$> default [] (v !! k)).

Fixpoint join_amp (pieces : list string) : string :=
  match pieces with
  | [] => EmptyString
  | p :: ps =>
      match ps with
      | [] => p
      | _ => p ++ "&" ++ join_amp ps
      end
  end.

(** Sample wrapper data: a pair that is not enabled, and a network none of
    whose endpoints answers. *)
Definition LTC_USD : pair.CurrencyPair := ("LTC", "USD").

Definition net_down (msg : string) : poloniex.Network :=
  poloniex.mkNetwork (fun _ => (∅, Some (errors_New msg)))
                     (fun _ => (∅, Some (errors_New msg)))
                     (fun _ => (∅, Some (errors_New msg))).

(** The callers that have not returned yet. *)
Definition is_pending (c : poloniex.Caller) : nat :=
  match c with
  | poloniex.Returned _ => 0
  | _ => 1
  end.

Definition pending (cs : list poloniex.Caller) : nat :=
  sum_list (is_pending <$> cs).

(** The entry [GetExchangeAccountInfo] appends for one balance. *)
Definition account_entry (kv : string * float) : poloniex.AccountCurrencyInfo :=
  poloniex.mkAccountCurrencyInfo kv.1 kv.2.

(** Strings of ASCII bytes: on these [strings.ToUpper] maps the letters
    [a]..[z] and nothing else, as [common.StringToUpper] is modelled. *)
Fixpoint ascii_only (s : string) : bool :=
  match s with
  | EmptyString => true
  | String a rest => (byte_of_ascii a <? 128) && ascii_only rest
  end.

(** ** Signed calls of [liqui] running side by side

    [SendAuthenticatedHTTPRequest] holds nothing between its calls on the
    nonce: reading it (line 280), seeding or advancing it (281, 283) and
    printing it (285) are three separate calls, so another caller may run
    between any two of them.  A caller is at the gate, about to read the
    counter, about to seed or advance it (having seen zero or not), about
    to print it, or has returned; a schedule names the caller that moves
    next.  From the printing of the counter to the transport call a caller
    is taken to move in one step. *)
Module signing.

Section Callers.

Variable Payload : Type.
Variable WarningAuthenticatedRequestWithoutCredentialsSet : string.
Variable transport : liqui.Transport Payload.

Inductive Caller : Type :=
| AtGate
| AtGet
| AtAdvance (zero : bool)
| AtString
| Returned (r : option error * option Payload).

(** Lines 285 to 306 of [SendAuthenticatedHTTPRequest]. *)
Definition sign_and_send (l : liqui.Liqui) (w : liqui.World)
    (method : string) (values : url.Values)
    : (option error * option Payload) * liqui.World :=
  let values := url.Set_ values "nonce" (nonce.String_ (liqui.Nonce l)) in
  let values := url.Set_ values "method" method in
  let encoded := url.Encode values in
  let hmac := common.GetHMAC common.HashSHA512
                (bytes_of_string encoded) (bytes_of_string (liqui.APISecret l)) in
  let line := "Sending POST request to " ++ liqui.APIUrlSecondary l
              ++ " calling method " ++ method
              ++ " with params " ++ encoded in
  let w := if liqui.Verbose l
           then liqui.mkWorld (liqui.sent w) (liqui.logged w ++ [line])%list
           else w in
  let headers : gmap string string := ∅ in
  let headers := <["Key" := liqui.APIKey l]> headers in
  let headers := <["Sign" := common.HexEncodeToString hmac]> headers in
  let headers := <["Content-Type" := "application/x-www-form-urlencoded"]> headers in
  liqui.SendPayload transport w
    (exchange.mkRequest "POST" (liqui.APIUrlSecondary l) headers
       (Some encoded) true (liqui.Verbose l)).

(** A call with its arguments: the clock reading of its moment, the method
    and the parameters. *)
Definition Call : Type := Z * string * url.Values.

Definition Config : Type := liqui.Liqui * liqui.World * list (Call * Caller).

Definition step (cfg : Config) (i : nat) : Config :=
  let '(l, w, cs) := cfg in
  match cs !! i with
  | Some ((now, method, values), AtGate) =>
      if negb (liqui.AuthenticatedAPISupport l) then
        (l, w,
         <[i := ((now, method, values),
                 Returned
                   (Some (fmt.Errorf1
                            WarningAuthenticatedRequestWithoutCredentialsSet
                            (liqui.Name l)), None))]> cs)
      else (l, w, <[i := ((now, method, values), AtGet)]> cs)
  | Some ((now, method, values), AtGet) =>
      (l, w,
       <[i := ((now, method, values),
               AtAdvance (nonce.Get (liqui.Nonce l) =? 0))]> cs)
  | Some ((now, method, values), AtAdvance true) =>
      (liqui.with_Nonce l (nonce.Set_ (liqui.Nonce l) now), w,
       <[i := ((now, method, values), AtString)]> cs)
  | Some ((now, method, values), AtAdvance false) =>
      (liqui.with_Nonce l (nonce.Inc (liqui.Nonce l)), w,
       <[i := ((now, method, values), AtString)]> cs)
  | Some ((now, method, values), AtString) =>
      let '(r, w) := sign_and_send l w method values in
      (l, w, <[i := ((now, method, values), Returned r)]> cs)
  | _ => cfg
  end.

Definition run (schedule : list nat) (cfg : Config) : Config :=
  fold_left step schedule cfg.

End Callers.

Arguments AtGate {Payload}.
Arguments AtGet {Payload}.
Arguments AtAdvance {Payload} zero.
Arguments AtString {Payload}.
Arguments Returned {Payload} r.
Arguments sign_and_send {Payload} transport l w method values.
Arguments step {Payload} _ transport cfg i.
Arguments run {Payload} _ transport schedule cfg.

End signing.


(** ** What the unimplemented operations of the wrapper return

    The result beside the error, for each operation of [UnsupportedCall];
    the element types of the two histories and the order detail are
    declared outside the sources. *)
Inductive UnsupportedValue (FundHistory TradeHistory OrderDetail : Type) : Type :=
| NoValue
| FundHistoryValue (v : list FundHistory)
| TradeHistoryValue (v : list TradeHistory)
| IntValue (v : Z)
| OrderDetailValue (v : OrderDetail)
| StringValue (v : string).

Arguments NoValue {FundHistory TradeHistory OrderDetail}.
Arguments FundHistoryValue {FundHistory TradeHistory OrderDetail} v.
Arguments TradeHistoryValue {FundHistory TradeHistory OrderDetail} v.
Arguments IntValue {FundHistory TradeHistory OrderDetail} v.
Arguments OrderDetailValue {FundHistory TradeHistory OrderDetail} v.
Arguments StringValue {FundHistory TradeHistory OrderDetail} v.

Definition unsupported_outcome {FundHistory TradeHistory OrderDetail : Type}
    (zeroOrderDetail : OrderDetail) (p : poloniex.Poloniex) (c : UnsupportedCall)
    : UnsupportedValue FundHistory TradeHistory OrderDetail * option error :=
  match c with
  | CallGetExchangeFundTransferHistory =>
      let '(v, err) := poloniex.GetExchangeFundTransferHistory p in
      (FundHistoryValue v, err)
  | CallGetExchangeHistory cp at_ =>
      let '(v, err) := poloniex.GetExchangeHistory p cp at_ in
      (TradeHistoryValue v, err)
  | CallSubmitExchangeOrder cp side ot amount price clientID =>
      let '(v, err) :=
        poloniex.SubmitExchangeOrder p cp side ot amount price clientID in
      (IntValue v, err)
  | CallModifyExchangeOrder orderID action =>
      let '(v, err) := poloniex.ModifyExchangeOrder p orderID action in
      (IntValue v, err)
  | CallCancelExchangeOrder orderID =>
      (NoValue, poloniex.CancelExchangeOrder p orderID)
  | CallCancelAllExchangeOrders => (NoValue, poloniex.CancelAllExchangeOrders p)
  | CallGetExchangeOrderInfo orderID =>
      let '(v, err) := poloniex.GetExchangeOrderInfo zeroOrderDetail p orderID in
      (OrderDetailValue v, err)
  | CallGetExchangeDepositAddress c =>
      let '(v, err) := poloniex.GetExchangeDepositAddress p c in
      (StringValue v, err)
  | CallWithdrawCryptoExchangeFunds address c amount =>
      let '(v, err) := poloniex.WithdrawCryptoExchangeFunds p address c amount in
      (StringValue v, err)
  | CallWithdrawFiatExchangeFunds c amount =>
      let '(v, err) := poloniex.WithdrawFiatExchangeFunds p c amount in
      (StringValue v, err)
  | CallWithdrawFiatExchangeFundsToInternationalBank c amount =>
      let '(v, err) :=
        poloniex.WithdrawFiatExchangeFundsToInternationalBank p c amount in
      (StringValue v, err)
  end.

(** The zero value of each operation's result type: the nil slice, [0],
    the zero struct, the empty string. *)
Definition zero_outcome {FundHistory TradeHistory OrderDetail : Type}
    (zeroOrderDetail : OrderDetail) (c : UnsupportedCall)
    : UnsupportedValue FundHistory TradeHistory OrderDetail :=
  match c with
  | CallGetExchangeFundTransferHistory => FundHistoryValue []
  | CallGetExchangeHistory _ _ => TradeHistoryValue []
  | CallSubmitExchangeOrder _ _ _ _ _ _ => IntValue 0
  | CallModifyExchangeOrder _ _ => IntValue 0
  | CallCancelExchangeOrder _ => NoValue
  | CallCancelAllExchangeOrders => NoValue
  | CallGetExchangeOrderInfo _ => OrderDetailValue zeroOrderDetail
  | _ => StringValue EmptyString
  end.

(** * Properties *)

(** ** Test vectors of the helpers *)

Example sha512_abc :
  common.HexEncodeToString (common.SHA512 (bytes_of_string "abc")) =
  "ddaf35a193617abacc417349ae20413112e6fa4e89a97ea20a9eeee64b55d39a2192992a274fc1a836ba3c23a3feebbd454d4423643ce80e2a9ac94fa54ca49f".
Proof. vm_compute. reflexivity. Qed.

Example hmac_sha512_rfc4231_case2 :
  common.HexEncodeToString
    (common.GetHMAC common.HashSHA512
       (bytes_of_string "what do ya want for nothing?") (bytes_of_string "Jefe")) =
  "164b7a7bfcf819e2e395fbe73b56e0a387bd64222e831fd610270cd7ea2505549758bf75c05a994a6d034f65f8f0e6fdcaeab1a34d4a6b4b636e070a38bce737".
Proof. vm_compute. reflexivity. Qed.

Example hmac_sha512_rfc4231_case6 :
  common.HexEncodeToString
    (common.GetHMAC common.HashSHA512
       (bytes_of_string "Test Using Larger Than Block-Size Key - Hash Key First")
       (replicate 131 170)) =
  "80b24263c7c1a3ebb71493c1dd7be8b49b46d1f41b4aeec1121b013783f8f3526b56d037e05f2598bd0fd2215d6a1e5295e64f73f63f0aec8b915a985d786598".
Proof. vm_compute. reflexivity. Qed.

Example Encode_sorted_and_escaped :
  url.Encode (url.Set_ (url.Set_ (url.Add (url.Add ∅ "pair" "eth_btc") "note" "a b&c=d/é")
                          "nonce" "1540000000") "method" "Trade")
  = "method=Trade&nonce=1540000000&note=a+b%26c%3Dd%2F%C3%A9&pair=eth_btc".
Proof. vm_compute. reflexivity. Qed.

(** ** Fee estimation *)

(** The floor of [GetFee]: a value below zero is replaced by zero, any other
    value is returned as it is. *)
Lemma floor_not_below_zero (fee : float) :
  ((if (fee <? 0)%float then 0%float else fee) <? 0)%float = false.
Proof.
  destruct (fee <? 0)%float eqn:Hneg.
  - reflexivity.
  - exact Hneg.
Qed.

(** C8. [GetFee] is a function of the fee builder and the withdrawal-fee
    table alone, it reports no error, and the fee it returns is never below
    zero, whatever the fee type, the maker flag, the price and the amount
    (negative, zero, infinite or not-a-number included): a negative
    intermediate fee is replaced by zero. *)
Theorem C8_GetFee_never_negative
    (WithdrawalFees : gmap string float) (l : liqui.Liqui)
    (feeBuilder : exchange.FeeBuilder) :
  let raw :=
    match exchange.FeeType_ feeBuilder with
    | exchange.CryptocurrencyTradeFee =>
        liqui.calculateTradingFee (exchange.PurchasePrice feeBuilder)
          (exchange.Amount feeBuilder) (exchange.IsMaker feeBuilder)
    | exchange.CryptocurrencyWithdrawalFee =>
        liqui.getCryptocurrencyWithdrawalFee WithdrawalFees
          (exchange.FirstCurrency feeBuilder)
    | exchange.OtherFeeType _ => 0%float
    end in
  let '(fee, err) := liqui.GetFee WithdrawalFees l feeBuilder in
  (fee <? 0)%float = false
  /\ err = None
  /\ fee = (if (raw <? 0)%float then 0%float else raw).
Proof.
  unfold liqui.GetFee.
  set (raw := match exchange.FeeType_ feeBuilder with
              | exchange.CryptocurrencyTradeFee => _
              | exchange.CryptocurrencyWithdrawalFee => _
              | exchange.OtherFeeType _ => _
              end).
  cbv zeta. split; [apply floor_not_below_zero|].
  split; reflexivity.
Qed.

Example GetFee_taker_trade :
  liqui.GetFee ∅ (liqui.mkLiqui "Liqui" false false EmptyString EmptyString EmptyString nonce.zero (liqui.mkInfo ∅))
    (exchange.mkFeeBuilder exchange.CryptocurrencyTradeFee "BTC" false 100 2)
  = (0.5%float, None).
Proof. vm_compute. reflexivity. Qed.

Example GetFee_negative_amount_is_floored :
  liqui.GetFee ∅ (liqui.mkLiqui "Liqui" false false EmptyString EmptyString EmptyString nonce.zero (liqui.mkInfo ∅))
    (exchange.mkFeeBuilder exchange.CryptocurrencyTradeFee "BTC" true 100 (-2))
  = (0%float, None).
Proof. vm_compute. reflexivity. Qed.

Example GetFee_negative_withdrawal_entry_is_floored :
  liqui.GetFee {[ "BTC" := (-1)%float ]}
    (liqui.mkLiqui "Liqui" false false EmptyString EmptyString EmptyString nonce.zero (liqui.mkInfo ∅))
    (exchange.mkFeeBuilder exchange.CryptocurrencyWithdrawalFee "BTC" true 0 0)
  = (0%float, None).
Proof. vm_compute. reflexivity. Qed.

(** The floor compares with [<]: a product that is negative zero or
    not-a-number passes it unchanged, and neither is below zero. *)
Example GetFee_negative_zero_and_nan :
  let l := liqui.mkLiqui "Liqui" false false EmptyString EmptyString EmptyString
             nonce.zero (liqui.mkInfo ∅) in
  let fee0 := (liqui.GetFee ∅ l
     (exchange.mkFeeBuilder exchange.CryptocurrencyTradeFee "BTC" false (-1) 0)).1 in
  let feeN := (liqui.GetFee ∅ l
     (exchange.mkFeeBuilder exchange.CryptocurrencyTradeFee "BTC" false nan 1)).1 in
  (fee0 =? 0)%float = true /\ (fee0 <? 0)%float = false
  /\ PrimFloat.is_nan feeN = true /\ (feeN <? 0)%float = false.
Proof. vm_compute. repeat split; reflexivity. Qed.

(** ** Available pairs *)

Lemma GetAvailablePairs_range_omap order nonHidden :
  liqui.GetAvailablePairs_range order nonHidden = omap (listed nonHidden) order.
Proof.
  unfold liqui.GetAvailablePairs_range.
  enough (H : forall acc,
    fold_left
      (fun pairs '(x, y) =>
         if (nonHidden && (liqui.Hidden y =? 1)) || String.eqb x EmptyString
         then pairs
         else (pairs ++ [common.StringToUpper x])%list) order acc
    = (acc ++ omap (listed nonHidden) order)%list) by apply (H []).
  induction order as [|[x y] order IH]; intros acc; simpl.
  - by rewrite app_nil_r.
  - rewrite IH. unfold listed at 2. simpl.
    destruct ((nonHidden && (liqui.Hidden y =? 1)) || String.eqb x EmptyString); simpl.
    + reflexivity.
    + by rewrite <- app_assoc.
Qed.

Lemma StringToUpper_empty s : common.StringToUpper s = EmptyString -> s = EmptyString.
Proof. destruct s; simpl; [done|discriminate]. Qed.

(** C9. Whatever the iteration order of the pair-info map, a string is
    returned by [GetAvailablePairs] exactly when it is the uppercase form of
    a key of the table that is not the empty string and, when [nonHidden] is
    set, whose entry is not marked hidden ([Hidden = 1]); the empty string
    is never returned. *)
Theorem C9_GetAvailablePairs_members
    (l : liqui.Liqui) (nonHidden : bool) (order : list (string * liqui.PairData))
    (Horder : order ≡ₚ map_to_list (liqui.Pairs (liqui.Info_ l))) (s : string) :
  (s ∈ liqui.GetAvailablePairs_range order nonHidden <->
   exists x y, liqui.Pairs (liqui.Info_ l) !! x = Some y
               /\ s = common.StringToUpper x
               /\ x <> EmptyString
               /\ (nonHidden && (liqui.Hidden y =? 1) = false))
  /\ EmptyString ∉ liqui.GetAvailablePairs_range order nonHidden.
Proof.
  rewrite GetAvailablePairs_range_omap.
  assert (Hiff : forall s',
    s' ∈ omap (listed nonHidden) order <->
    exists x y, liqui.Pairs (liqui.Info_ l) !! x = Some y
                /\ s' = common.StringToUpper x
                /\ x <> EmptyString
                /\ (nonHidden && (liqui.Hidden y =? 1) = false)).
  { intros s'. rewrite list_elem_of_omap. split.
    - intros [[x y] [Hin Hl]]. exists x, y.
      rewrite Horder in Hin. apply elem_of_map_to_list in Hin.
      unfold listed in Hl. simpl in Hl.
      destruct (nonHidden && (liqui.Hidden y =? 1)) eqn:Hh; simpl in Hl; [done|].
      destruct (String.eqb x EmptyString) eqn:He; simpl in Hl; [done|].
      apply String.eqb_neq in He. by simplify_eq.
    - intros (x & y & Hlk & -> & Hne & Hh). exists (x, y). split.
      + rewrite Horder. by apply elem_of_map_to_list.
      + unfold listed. simpl. rewrite Hh. simpl.
        apply String.eqb_neq in Hne. by rewrite Hne. }
  split; [apply Hiff|].
  intros Hin. apply Hiff in Hin as (x & y & _ & Hup & Hne & _).
  symmetry in Hup. by apply StringToUpper_empty in Hup.
Qed.

Lemma C9_GetAvailablePairs_members_witness :
  ("ETH_BTC" ∈ liqui.GetAvailablePairs (liqui_with_pairs sample_pairs) true <->
   exists x y, sample_pairs !! x = Some y
               /\ "ETH_BTC" = common.StringToUpper x
               /\ x <> EmptyString
               /\ (true && (liqui.Hidden y =? 1) = false))
  /\ EmptyString ∉ liqui.GetAvailablePairs (liqui_with_pairs sample_pairs) true.
Proof.
  exact (C9_GetAvailablePairs_members (liqui_with_pairs sample_pairs) true
           (map_to_list sample_pairs) (reflexivity _) "ETH_BTC").
Defined.

Example GetAvailablePairs_sample :
  liqui.GetAvailablePairs (liqui_with_pairs sample_pairs) true = ["ETH_BTC"]
  /\ liqui.GetAvailablePairs (liqui_with_pairs sample_pairs) false ≡ₚ ["ETH_BTC"; "LTC_BTC"].
Proof. split; vm_compute; [reflexivity|]. first [reflexivity | apply perm_swap]. Qed.

(** ** Private calls: the gate on authenticated support *)

Lemma SendAuthenticatedHTTPRequest_gate {Payload} warning
    (transport : liqui.Transport Payload) now l w method values :
  liqui.AuthenticatedAPISupport l = false ->
  liqui.SendAuthenticatedHTTPRequest warning transport now l w method values
  = ((Some (fmt.Errorf1 warning (liqui.Name l)), None), l, w).
Proof.
  intros Hoff. unfold liqui.SendAuthenticatedHTTPRequest. by rewrite Hoff.
Qed.

(** C2 (as the code has it). Every private operation on an adapter whose
    [AuthenticatedAPISupport] flag is off returns the error formatted from
    [WarningAuthenticatedRequestWithoutCredentialsSet] and the exchange
    name, and leaves the adapter and the world as they were: the nonce is
    not advanced, no body is built or logged, and the transport is not
    called. *)
Theorem C2_gate_before_nonce_body_transport {Payload} OrderID FormatFloat warning
    (transport : liqui.Transport Payload) (now : Z) (l : liqui.Liqui)
    (w : liqui.World) (c : liqui.PrivateCall)
    (Hoff : liqui.AuthenticatedAPISupport l = false) :
  liqui.run_private OrderID FormatFloat warning transport now l w c
  = (Some (fmt.Errorf1 warning (liqui.Name l)), l, w).
Proof.
  destruct c; simpl;
    unfold liqui.GetAccountInfo, liqui.Trade, liqui.GetActiveOrders,
      liqui.GetOrderInfo, liqui.CancelOrder, liqui.GetTradeHistory,
      liqui.WithdrawCoins;
    rewrite SendAuthenticatedHTTPRequest_gate by exact Hoff; reflexivity.
Qed.

Lemma C2_gate_before_nonce_body_transport_witness :
  liqui.run_private sample_OrderID sample_FormatFloat sample_warning transport_ok
    1540000000 (liqui_sample false "key" "secret" 0) liqui.world0
    (liqui.CallCancelOrder 42)
  = (Some (errors_New "WARNING -- Exchange Liqui authenticated HTTP request called but not supported due to unset/default API keys."),
     liqui_sample false "key" "secret" 0, liqui.world0).
Proof.
  exact (C2_gate_before_nonce_body_transport sample_OrderID sample_FormatFloat
           sample_warning transport_ok 1540000000
           (liqui_sample false "key" "secret" 0) liqui.world0
           (liqui.CallCancelOrder 42) eq_refl).
Defined.

(** C2, as stated, fails: with the flag on and neither key nor secret
    configured, the call is signed with the empty secret and handed to the
    transport, and the nonce is advanced. *)
Lemma C2_counterexample :
  let l := liqui_sample true EmptyString EmptyString 0 in
  liqui.APIKey l = EmptyString /\ liqui.APISecret l = EmptyString /\
  exists l' w',
    liqui.run_private sample_OrderID sample_FormatFloat sample_warning transport_ok
      1540000000 l liqui.world0 liqui.CallGetAccountInfo = (None, l', w')
    /\ length (liqui.sent w') = 1%nat
    /\ nonce.Get (liqui.Nonce l') = 1540000000.
Proof.
  cbv zeta. split; [reflexivity|]. split; [reflexivity|].
  eexists _, _. split; [vm_compute; reflexivity|]. split; reflexivity.
Qed.

(** ** [CancelOrder] *)

Lemma SendAuthenticatedHTTPRequest_map_payload {A B} (f : A -> B) warning
    (transport : liqui.Transport A) now l w method values :
  liqui.SendAuthenticatedHTTPRequest warning (map_payload f transport) now l w
    method values
  = let '((err, result), l1, w1) :=
      liqui.SendAuthenticatedHTTPRequest warning transport now l w method values in
    ((err, f <$> result), l1, w1).
Proof.
  unfold liqui.SendAuthenticatedHTTPRequest.
  destruct (negb (liqui.AuthenticatedAPISupport l)); [reflexivity|].
  cbv zeta. unfold liqui.SendPayload, map_payload.
  match goal with |- context [transport ?h ?r] => destruct (transport h r) as [e p] end.
  reflexivity.
Qed.

(** C10. [CancelOrder] returns [(true, nil)] exactly when the authenticated
    request returns no error, and [(false, err)] with that error otherwise;
    it leaves the adapter and the world as the request left them, and its
    result is the same whatever the response payload holds. *)
Theorem C10_CancelOrder_result_is_error_status {Payload} warning
    (transport : liqui.Transport Payload) (now : Z) (l : liqui.Liqui)
    (w : liqui.World) (OrderID : Z) :
  let '((ok, err), l1, w1) := liqui.CancelOrder warning transport now l w OrderID in
  let '((err0, _), l0, w0) :=
    liqui.SendAuthenticatedHTTPRequest warning transport now l w
      liqui.liquiCancelOrder (url.Add ∅ "order_id" (strconv.FormatInt OrderID)) in
  err = err0
  /\ ok = match err0 with Some _ => false | None => true end
  /\ (l1, w1) = (l0, w0)
  /\ forall (Payload' : Type) (f : Payload -> Payload'),
       liqui.CancelOrder warning (map_payload f transport) now l w OrderID
       = ((ok, err), l1, w1).
Proof.
  unfold liqui.CancelOrder.
  pose proof (fun B (f : Payload -> B) =>
    SendAuthenticatedHTTPRequest_map_payload f warning transport now l w
      liqui.liquiCancelOrder (url.Add ∅ "order_id" (strconv.FormatInt OrderID)))
    as Hmap.
  destruct (liqui.SendAuthenticatedHTTPRequest warning transport now l w
              liqui.liquiCancelOrder _) as [[[err0 result] l0] w0].
  destruct err0 as [e|]; (repeat split; [intros B f; rewrite Hmap; reflexivity]).
Qed.

Example CancelOrder_ok_and_down :
  (liqui.CancelOrder sample_warning transport_ok 1540000000
     (liqui_sample true "key" "secret" 0) liqui.world0 42).1.1 = (true, None)
  /\ (liqui.CancelOrder sample_warning transport_down 1540000000
        (liqui_sample true "key" "secret" 0) liqui.world0 42).1.1
     = (false, Some (errors_New "connection refused")).
Proof. split; vm_compute; reflexivity. Qed.

(** ** The shape of a digest *)

Lemma be_bytes_length n z : length (common.be_bytes n z) = n.
Proof. induction n; simpl; congruence. Qed.

Lemma land_255_is_byte z : is_byte (Z.land z 255).
Proof.
  unfold is_byte. change 255 with (Z.ones 8).
  rewrite Z.land_ones by lia. apply Z.mod_pos_bound. lia.
Qed.

Lemma be_bytes_are_bytes n z : Forall is_byte (common.be_bytes n z).
Proof.
  induction n; cbn [common.be_bytes]; constructor;
    [apply land_255_is_byte | assumption].
Qed.

Lemma rounds_length ks st :
  ks <> [] -> length (fold_left common.round512 ks st).1 = 8%nat.
Proof.
  induction ks as [|k ks IH] using rev_ind; [done|]. intros _.
  rewrite fold_left_app. simpl.
  destruct (fold_left common.round512 ks st) as [v w]. reflexivity.
Qed.

Lemma compress512_length hs block :
  length hs = 8%nat -> length (common.compress512 hs block) = 8%nat.
Proof.
  intros Hhs. unfold common.compress512.
  pose proof (rounds_length common.K512
                (hs, common.be_word <$> common.chunks 16 8 block)) as Hv.
  destruct (fold_left common.round512 common.K512 _) as [v w]. simpl in Hv.
  rewrite length_zip_with, Hhs, Hv by (unfold common.K512; discriminate).
  reflexivity.
Qed.

Lemma words_bytes_length (ws : list Z) :
  length (mjoin (common.be_bytes 8 <$> ws)) = (8 * length ws)%nat.
Proof.
  induction ws as [|x ws IH]; [reflexivity|].
  rewrite fmap_cons. change (mjoin (?a :: ?b)) with (a ++ mjoin b)%list.
  rewrite length_app, be_bytes_length, IH. cbn [length]. lia.
Qed.

Lemma fold_left_preserves {A B} (P : A -> Prop) (f : A -> B -> A) l a :
  (forall a b, P a -> P (f a b)) -> P a -> P (fold_left f l a).
Proof.
  intros Hf. revert a. induction l as [|b l IH]; intros a Ha; [exact Ha|].
  apply (IH (f a b)), Hf, Ha.
Qed.

Lemma blocks_length blocks hs :
  length hs = 8%nat -> length (fold_left common.compress512 blocks hs) = 8%nat.
Proof.
  apply (fold_left_preserves (fun hs => length hs = 8%nat) common.compress512).
  intros a b. apply compress512_length.
Qed.

Lemma SHA512_length msg : length (common.SHA512 msg) = 64%nat.
Proof.
  unfold common.SHA512. cbv zeta.
  generalize (common.chunks (length (common.pad512 msg)) 128 (common.pad512 msg)).
  intros blocks. rewrite words_bytes_length.
  rewrite (blocks_length blocks common.H512 eq_refl). reflexivity.
Qed.

Lemma SHA512_bytes msg : Forall is_byte (common.SHA512 msg).
Proof.
  unfold common.SHA512.
  generalize (fold_left common.compress512
                (common.chunks (length (common.pad512 msg)) 128 (common.pad512 msg))
                common.H512).
  intros ws. induction ws as [|x ws IH]; [constructor|].
  rewrite fmap_cons. change (mjoin (?a :: ?b)) with (a ++ mjoin b)%list.
  apply Forall_app. split; [apply (be_bytes_are_bytes 8)|exact IH].
Qed.

Lemma hex_digit_lower n : 0 <= n < 16 -> lower_hex (common.hex_digit n) = true.
Proof.
  intros Hn.
  assert (exists k : nat, n = Z.of_nat k /\ (k < 16)%nat) as (k & -> & Hk)
    by (exists (Z.to_nat n); lia).
  do 16 (destruct k as [|k]; [reflexivity|]). lia.
Qed.

Lemma HexEncodeToString_length bs :
  String.length (common.HexEncodeToString bs) = (2 * length bs)%nat.
Proof. induction bs; simpl; [done|]. rewrite IHbs. lia. Qed.

Lemma HexEncodeToString_lower bs :
  Forall is_byte bs ->
  Forall (fun a => lower_hex a = true)
         (list_ascii_of_string (common.HexEncodeToString bs)).
Proof.
  induction 1 as [|b bs Hb _ IH]; cbn [common.HexEncodeToString list_ascii_of_string];
    [constructor|].
  unfold is_byte in Hb.
  constructor; [|constructor; [|exact IH]]; apply hex_digit_lower.
  - rewrite Z.shiftr_div_pow2 by lia. change (2 ^ 4) with 16.
    split; [apply Z.div_pos; lia | apply Z.div_lt_upper_bound; lia].
  - change 15 with (Z.ones 4). rewrite Z.land_ones by lia.
    apply Z.mod_pos_bound. lia.
Qed.

Lemma signature_is_lowercase_hex input key :
  let sign := common.HexEncodeToString
                (common.GetHMAC common.HashSHA512 input key) in
  String.length sign = 128%nat
  /\ Forall (fun a => lower_hex a = true) (list_ascii_of_string sign).
Proof.
  cbv zeta. unfold common.GetHMAC. split.
  - rewrite HexEncodeToString_length, SHA512_length. reflexivity.
  - apply HexEncodeToString_lower, SHA512_bytes.
Qed.

(** ** The signing path *)

Lemma headers_in_any_order (key sign : string) :
  <["Content-Type" := "application/x-www-form-urlencoded"]>
    (<["Sign" := sign]> (<["Key" := key]> (∅ : gmap string string)))
  = spec_headers key sign.
Proof.
  unfold spec_headers. cbn [list_to_map foldr uncurry fst snd].
  rewrite (insert_insert_ne _ "Content-Type" "Sign") by done.
  rewrite (insert_insert_ne _ "Content-Type" "Key") by done.
  rewrite (insert_insert_ne _ "Sign" "Key") by done.
  reflexivity.
Qed.

(** What [SendAuthenticatedHTTPRequest] does once past the gate. *)
Lemma SendAuthenticatedHTTPRequest_signed {Payload} warning
    (transport : liqui.Transport Payload) now l w method values :
  liqui.AuthenticatedAPISupport l = true ->
  liqui.SendAuthenticatedHTTPRequest warning transport now l w method values
  = let x := next_nonce now (liqui.Nonce l) in
    let r := spec_request l x method values in
    let line := "Sending POST request to " ++ liqui.APIUrlSecondary l
                ++ " calling method " ++ method
                ++ " with params " ++ (spec_sign method values (nonce.String_ x)
                                         (liqui.APISecret l)).1 in
    let answer := transport (liqui.sent w) r in
    ((answer.1, Some answer.2),
     liqui.with_Nonce l x,
     liqui.mkWorld (liqui.sent w ++ [r])%list
       (if liqui.Verbose l then (liqui.logged w ++ [line])%list
        else liqui.logged w)).
Proof.
  intros Hon. unfold liqui.SendAuthenticatedHTTPRequest. rewrite Hon.
  cbn [negb]. cbv zeta.
  unfold next_nonce, spec_request, spec_sign, spec_params,
    liqui.SendPayload, url.Set_.
  rewrite headers_in_any_order.
  destruct (nonce.Get (liqui.Nonce l) =? 0); cbn [liqui.with_Nonce liqui.Nonce
    liqui.APISecret liqui.APIKey liqui.Verbose liqui.APIUrlSecondary fst snd];
    destruct (liqui.Verbose l); cbn [liqui.sent liqui.logged];
    match goal with |- context [transport ?h ?r] => destruct (transport h r) end;
    reflexivity.
Qed.

Lemma Encode_from_any_order (keys keys' : list string) (v : url.Values) :
  keys ≡ₚ keys' -> url.Encode_from keys v = url.Encode_from keys' v.
Proof.
  intros Hperm. unfold url.Encode_from. f_equal.
  apply (Sorted_unique String.le).
  - apply Sorted_merge_sort; apply _.
  - apply Sorted_merge_sort; apply _.
  - by rewrite !merge_sort_Permutation.
Qed.

Lemma spec_headers_Sign key sign : spec_headers key sign !! "Sign" = Some sign.
Proof.
  unfold spec_headers. cbn [list_to_map foldr uncurry fst snd].
  rewrite lookup_insert_ne by done. apply lookup_insert_eq.
Qed.

(** C3. A signed call hands the transport one [POST] request.  Its body is
    the encoding of the parameters after [nonce] and [method] have been set
    in them, the encoding does not depend on the order in which the map
    yields its keys, the [Sign] header is the lowercase-hex HMAC-SHA512 of
    that body under the adapter's secret, and the headers are [Key], [Sign]
    and [Content-Type].  A second run with the same secret, parameters,
    method and nonce sends the same body and signature, whatever else
    differs. *)
Theorem C3_signed_request_contents {Payload} warning
    (transport : liqui.Transport Payload) (now : Z) (l : liqui.Liqui)
    (w : liqui.World) (method : string) (values : url.Values)
    (Hon : liqui.AuthenticatedAPISupport l = true) :
  let '(_, l1, w1) :=
    liqui.SendAuthenticatedHTTPRequest warning transport now l w method values in
  let nonce_ := nonce.String_ (liqui.Nonce l1) in
  let params := url.Set_ (url.Set_ values "nonce" nonce_) "method" method in
  let body := url.Encode params in
  let sign := common.HexEncodeToString
                (common.GetHMAC common.HashSHA512 (bytes_of_string body)
                   (bytes_of_string (liqui.APISecret l))) in
  liqui.sent w1
  = (liqui.sent w ++
     [exchange.mkRequest "POST" (liqui.APIUrlSecondary l)
        (list_to_map [("Key", liqui.APIKey l); ("Sign", sign);
                      ("Content-Type", "application/x-www-form-urlencoded")])
        (Some body) true (liqui.Verbose l)])%list
  /\ params !! "nonce" = Some [nonce_]
  /\ params !! "method" = Some [method]
  /\ (forall keys, keys ≡ₚ (map_to_list params).*1 ->
        url.Encode_from keys params = body)
  /\ String.length sign = 128%nat
  /\ Forall (fun a => lower_hex a = true) (list_ascii_of_string sign)
  /\ (forall Payload2 warning2 (transport2 : liqui.Transport Payload2) now2 l2 w2,
        liqui.AuthenticatedAPISupport l2 = true ->
        liqui.APISecret l2 = liqui.APISecret l ->
        let '(_, l3, w3) :=
          liqui.SendAuthenticatedHTTPRequest warning2 transport2 now2 l2 w2
            method values in
        liqui.Nonce l3 = liqui.Nonce l1 ->
        body_and_sign <$> last (liqui.sent w3) = Some (Some body, Some sign)).
Proof.
  rewrite SendAuthenticatedHTTPRequest_signed by exact Hon.
  cbv beta iota zeta. cbn [liqui.with_Nonce liqui.Nonce liqui.sent].
  set (x := next_nonce now (liqui.Nonce l)).
  split; [reflexivity|].
  split; [unfold url.Set_; rewrite lookup_insert_ne by done; apply lookup_insert_eq|].
  split; [apply lookup_insert_eq|].
  split; [intros keys Hkeys; by apply Encode_from_any_order|].
  split; [apply signature_is_lowercase_hex|].
  split; [apply signature_is_lowercase_hex|].
  intros Payload2 warning2 transport2 now2 l2 w2 Hon2 Hsecret.
  rewrite SendAuthenticatedHTTPRequest_signed by exact Hon2.
  cbv beta iota zeta. cbn [liqui.with_Nonce liqui.Nonce liqui.sent].
  intros ->. rewrite last_snoc. cbn [fmap option_fmap option_map].
  unfold body_and_sign, spec_request, spec_sign.
  cbn [exchange.body exchange.headers]. rewrite spec_headers_Sign, Hsecret.
  reflexivity.
Qed.

Lemma C3_signed_request_contents_witness :
  let '(_, l1, w1) :=
    liqui.SendAuthenticatedHTTPRequest sample_warning transport_ok 1540000000
      (liqui_sample true "key" "secret" 0) liqui.world0 "CancelOrder"
      (url.Add ∅ "order_id" "42") in
  liqui.sent w1
  = [exchange.mkRequest "POST" "https://api.Liqui.io/tapi"
       (list_to_map
          [("Key", "key");
           ("Sign", "41d28544a95cec8a2047a50c1141ef43b7948a9631cd41d27fbe908bff419a066ade87ded98a7a884f250a00a152a03d3ecf91b38c421585e65b9d7e2723e852");
           ("Content-Type", "application/x-www-form-urlencoded")])
       (Some "method=CancelOrder&nonce=1540000000&order_id=42") true false]
  /\ nonce.Get (liqui.Nonce l1) = 1540000000.
Proof.
  pose proof (C3_signed_request_contents sample_warning transport_ok 1540000000
                (liqui_sample true "key" "secret" 0) liqui.world0 "CancelOrder"
                (url.Add ∅ "order_id" "42") eq_refl) as H.
  destruct (liqui.SendAuthenticatedHTTPRequest _ _ _ _ _ _ _) as [[r l1] w1] eqn:E.
  destruct H as [Hsent _].
  vm_compute in E. injection E as _ <- _.
  split; [|reflexivity]. rewrite Hsent. vm_compute. reflexivity.
Defined.

(** ** Nonces of a session *)










Example session_nonces :
  (liqui.session sample_warning transport_ok
     [(1540000000, "getInfo", ∅);
      (1540000900, "Trade", url.Add ∅ "pair" "eth_btc");
      (1540000900, "CancelOrder", url.Add ∅ "order_id" "42")]
     (liqui_sample true "key" "secret" 0) liqui.world0).1.1
  = [1540000000; 1540000001; 1540000002].
Proof. vm_compute. reflexivity. Qed.

(** ** Signed calls side by side *)

(** A signed caller whose moves are not separated by another caller's does
    what [SendAuthenticatedHTTPRequest] does. *)
Lemma signed_caller_alone {Payload} warning (transport : liqui.Transport Payload)
    (now : Z) (method : string) (values : url.Values)
    (l : liqui.Liqui) (w : liqui.World)
    (callers : list (signing.Call * signing.Caller Payload)) (i : nat) :
  callers !! i = Some ((now, method, values), signing.AtGate) ->
  signing.run warning transport [i; i; i; i] (l, w, callers)
  = let '(r, l', w') :=
      liqui.SendAuthenticatedHTTPRequest warning transport now l w method values in
    (l', w', <[i := ((now, method, values), signing.Returned r)]> callers).
Proof.
  intros Hi. pose proof (lookup_lt_Some _ _ _ Hi) as Hlen.
  unfold signing.run, liqui.SendAuthenticatedHTTPRequest. cbn [fold_left].
  unfold signing.step at 4. rewrite Hi.
  destruct (liqui.AuthenticatedAPISupport l); cbn [negb].
  - unfold signing.step at 3. rewrite list_lookup_insert_eq by exact Hlen.
    cbv beta iota zeta. rewrite list_insert_insert_eq.
    unfold signing.step at 2. rewrite list_lookup_insert_eq by exact Hlen.
    cbv beta iota zeta.
    destruct (nonce.Get (liqui.Nonce l) =? 0); rewrite list_insert_insert_eq;
      unfold signing.step; rewrite list_lookup_insert_eq by exact Hlen;
      cbv beta iota zeta; unfold signing.sign_and_send; cbv zeta;
      destruct (liqui.SendPayload _ _ _) as [r w'];
      by rewrite list_insert_insert_eq.
  - assert (Hlen' : (i < length (<[i := ((now, method, values),
                       signing.Returned
                         (Some (fmt.Errorf1 warning (liqui.Name l)), None))]>
                                   callers))%nat)
      by (by rewrite length_insert).
    unfold signing.step at 3. rewrite list_lookup_insert_eq by exact Hlen.
    cbv beta iota zeta.
    unfold signing.step at 2. rewrite list_lookup_insert_eq by exact Hlen.
    cbv beta iota zeta.
    unfold signing.step. rewrite list_lookup_insert_eq by exact Hlen.
    reflexivity.
Qed.


(** ** The wrapper: lookups after a batch refresh *)

Section WrapperFacts.

Variable FormatExchangeCurrency : string -> pair.CurrencyPair -> string.
Variable p : poloniex.Poloniex.
Variable assetType : string.

Lemma ticker_fold_enabled (tick : gmap string poloniex.Ticker) (xs : list pair.CurrencyPair) (c : ticker.Store)
    (x : pair.CurrencyPair) :
  x ∈ xs ->
  fold_left (poloniex.UpdateTicker_body FormatExchangeCurrency p assetType tick) xs c
    !! (poloniex.Name p, x, assetType)
  = Some (poloniex.ticker_snapshot FormatExchangeCurrency p tick x).
Proof.
  induction xs as [|y xs IH] using rev_ind; [by intros ?%elem_of_nil|].
  intros Hin. rewrite fold_left_app. cbn [fold_left].
  unfold poloniex.UpdateTicker_body at 1, ticker.ProcessTicker, poloniex.GetName.
  destruct (decide (y = x)) as [->|Hne].
  - apply lookup_insert_eq.
  - rewrite lookup_insert_ne by congruence. apply IH.
    apply elem_of_app in Hin as [Hin|Hin%list_elem_of_singleton]; congruence.
Qed.

Lemma ticker_fold_other (tick : gmap string poloniex.Ticker)
    (xs : list pair.CurrencyPair) (c : ticker.Store) (k : ticker.Key) :
  Forall (fun x => (poloniex.Name p, x, assetType) <> k) xs ->
  fold_left (poloniex.UpdateTicker_body FormatExchangeCurrency p assetType tick) xs c
    !! k
  = c !! k.
Proof.
  induction xs as [|y xs IH] using rev_ind; [done|].
  intros [Hxs Hy]%Forall_app. apply Forall_inv in Hy.
  rewrite fold_left_app. cbn [fold_left].
  unfold poloniex.UpdateTicker_body at 1, ticker.ProcessTicker, poloniex.GetName.
  rewrite lookup_insert_ne by exact Hy. by apply IH.
Qed.

Lemma collect_items (items : list poloniex.OrderbookItem) acc :
  fold_left (fun items y => (items ++ [poloniex.to_item y])%list) items acc
  = (acc ++ (poloniex.to_item <$> items))%list.
Proof.
  revert acc. induction items as [|y items IH]; intros acc; cbn [fold_left fmap list_fmap].
  - by rewrite app_nil_r.
  - rewrite IH, <- app_assoc. reflexivity.
Qed.

(** One turn of [UpdateOrderbook]'s loop, spelled out. *)
Lemma UpdateOrderbook_body_eq (data_ : gmap string poloniex.Orderbook)
    (c : orderbook.Store) (ob : orderbook.Base) (x : pair.CurrencyPair) :
  poloniex.UpdateOrderbook_body FormatExchangeCurrency p assetType data_ (c, ob) x
  = match data_ !! FormatExchangeCurrency (poloniex.Name p) x with
    | None => (c, ob)
    | Some data => (<[(poloniex.Name p, x, assetType) := orderbook_snapshot x data]> c,
                    orderbook_snapshot x data)
    end.
Proof.
  unfold poloniex.UpdateOrderbook_body.
  destruct (data_ !! _) as [data|]; [|reflexivity].
  cbv zeta. cbn [orderbook.Pair orderbook.Bids orderbook.Asks].
  rewrite !collect_items. reflexivity.
Qed.

Lemma orderbook_fold_present (data_ : gmap string poloniex.Orderbook)
    (xs : list pair.CurrencyPair) (c : orderbook.Store) (ob : orderbook.Base)
    (x : pair.CurrencyPair) (data : poloniex.Orderbook) :
  x ∈ xs ->
  data_ !! FormatExchangeCurrency (poloniex.Name p) x = Some data ->
  (fold_left (poloniex.UpdateOrderbook_body FormatExchangeCurrency p assetType data_)
     xs (c, ob)).1 !! (poloniex.Name p, x, assetType)
  = Some (orderbook_snapshot x data).
Proof.
  intros Hin Hdata. revert Hin.
  induction xs as [|y xs IH] using rev_ind; [by intros ?%elem_of_nil|].
  intros Hin. rewrite fold_left_app. cbn [fold_left].
  destruct (fold_left _ xs (c, ob)) as [c' ob'] eqn:Hfold.
  rewrite UpdateOrderbook_body_eq.
  destruct (decide (y = x)) as [->|Hne].
  - rewrite Hdata. cbn [fst]. apply lookup_insert_eq.
  - assert (Hx : x ∈ xs)
      by (apply elem_of_app in Hin as [Hin|Hin%list_elem_of_singleton]; congruence).
    specialize (IH Hx). cbn [fst] in IH.
    destruct (data_ !! FormatExchangeCurrency (poloniex.Name p) y);
      cbn [fst]; [|exact IH].
    rewrite lookup_insert_ne by congruence. exact IH.
Qed.

Lemma orderbook_fold_other (data_ : gmap string poloniex.Orderbook)
    (xs : list pair.CurrencyPair) (c : orderbook.Store) (ob : orderbook.Base)
    (k : orderbook.Key) :
  Forall (fun x => is_Some (data_ !! FormatExchangeCurrency (poloniex.Name p) x) ->
                   (poloniex.Name p, x, assetType) <> k) xs ->
  (fold_left (poloniex.UpdateOrderbook_body FormatExchangeCurrency p assetType data_)
     xs (c, ob)).1 !! k
  = c !! k.
Proof.
  induction xs as [|y xs IH] using rev_ind; [done|].
  intros [Hxs Hy]%Forall_app. apply Forall_inv in Hy.
  rewrite fold_left_app. cbn [fold_left].
  specialize (IH Hxs).
  destruct (fold_left _ xs (c, ob)) as [c' ob'] eqn:Hfold.
  rewrite UpdateOrderbook_body_eq. cbn [fst] in IH.
  destruct (data_ !! _) as [d|] eqn:Hd; cbn [fst]; [|exact IH].
  rewrite lookup_insert_ne by (apply Hy; eauto). exact IH.
Qed.

End WrapperFacts.

(** ** Get-or-refresh *)

Lemma GetTickerPrice_cases FormatExchangeCurrency net p w
    (currencyPair : pair.CurrencyPair) (assetType : string) :
  poloniex.GetTickerPrice FormatExchangeCurrency net p w currencyPair assetType
  = match poloniex.tickers w !! (poloniex.Name p, currencyPair, assetType) with
    | Some t => ((t, None), w)
    | None => poloniex.UpdateTicker FormatExchangeCurrency net p w currencyPair assetType
    end.
Proof.
  unfold poloniex.GetTickerPrice, ticker.GetTicker, poloniex.GetName.
  by destruct (poloniex.tickers w !! _).
Qed.

Lemma GetOrderbookEx_cases FormatExchangeCurrency net p w
    (currencyPair : pair.CurrencyPair) (assetType : string) :
  poloniex.GetOrderbookEx FormatExchangeCurrency net p w currencyPair assetType
  = match poloniex.orderbooks w !! (poloniex.Name p, currencyPair, assetType) with
    | Some ob => ((ob, None), w)
    | None => poloniex.UpdateOrderbook FormatExchangeCurrency net p w currencyPair assetType
    end.
Proof.
  unfold poloniex.GetOrderbookEx, orderbook.GetOrderbook, poloniex.GetName.
  by destruct (poloniex.orderbooks w !! _).
Qed.

(** C4 (as the code has it). On both paths, get-or-refresh returns the
    cached snapshot and leaves the world alone (no fetch) when the key has
    an entry, and otherwise returns exactly what the refresh function
    returns.  The refresh performs one fetch.  When the fetch fails, the
    refresh returns its error and the cache is as before.  When it
    succeeds and the requested pair is enabled (on the orderbook path: and
    the response covers it), the snapshot built from the response is stored
    under the key and is what the refresh returns; for any other requested
    pair the key is left as it was and the refresh returns the lookup of
    that key, the cache's miss when the key was empty. *)
Theorem C4_get_or_refresh
    (FormatExchangeCurrency : string -> pair.CurrencyPair -> string)
    (net : poloniex.Network) (p : poloniex.Poloniex) (w : poloniex.World)
    (currencyPair : pair.CurrencyPair) (assetType : string) :
  let key := (poloniex.Name p, currencyPair, assetType) in
  (poloniex.GetTickerPrice FormatExchangeCurrency net p w currencyPair assetType
   = match poloniex.tickers w !! key with
     | Some t => ((t, None), w)
     | None => poloniex.UpdateTicker FormatExchangeCurrency net p w currencyPair assetType
     end)
  /\ (let '(result, w') :=
        poloniex.UpdateTicker FormatExchangeCurrency net p w currencyPair assetType in
      poloniex.ticker_fetches w' = S (poloniex.ticker_fetches w)
      /\ match poloniex.net_GetTicker net (poloniex.ticker_fetches w) with
         | (_, Some e) =>
             result = (ticker.zeroPrice, Some e)
             /\ poloniex.tickers w' = poloniex.tickers w
         | (tick, None) =>
             if bool_decide (currencyPair ∈ poloniex.EnabledPairs p) then
               result
               = (poloniex.ticker_snapshot FormatExchangeCurrency p tick
                    currencyPair, None)
               /\ poloniex.tickers w' !! key
                  = Some (poloniex.ticker_snapshot FormatExchangeCurrency p tick
                            currencyPair)
             else
               result = ticker.GetTicker (poloniex.tickers w) (poloniex.Name p)
                          currencyPair assetType
               /\ poloniex.tickers w' !! key = poloniex.tickers w !! key
         end)
  /\ (poloniex.GetOrderbookEx FormatExchangeCurrency net p w currencyPair assetType
      = match poloniex.orderbooks w !! key with
        | Some ob => ((ob, None), w)
        | None => poloniex.UpdateOrderbook FormatExchangeCurrency net p w currencyPair assetType
        end)
  /\ (let '(result, w') :=
        poloniex.UpdateOrderbook FormatExchangeCurrency net p w currencyPair assetType in
      poloniex.orderbook_fetches w' = S (poloniex.orderbook_fetches w)
      /\ match poloniex.net_GetOrderbook net (poloniex.orderbook_fetches w) with
         | (_, Some e) =>
             result = (orderbook.zeroBase, Some e)
             /\ poloniex.orderbooks w' = poloniex.orderbooks w
         | (data_, None) =>
             match (if bool_decide (currencyPair ∈ poloniex.EnabledPairs p)
                    then data_ !! FormatExchangeCurrency (poloniex.Name p) currencyPair
                    else None) with
             | Some data =>
                 result = (orderbook_snapshot currencyPair data, None)
                 /\ poloniex.orderbooks w' !! key
                    = Some (orderbook_snapshot currencyPair data)
             | None =>
                 result = orderbook.GetOrderbook (poloniex.orderbooks w)
                            (poloniex.Name p) currencyPair assetType
                 /\ poloniex.orderbooks w' !! key = poloniex.orderbooks w !! key
             end
         end).
Proof.
  cbv zeta. split; [|split; [|split]].
  - apply GetTickerPrice_cases.
  - unfold poloniex.UpdateTicker, poloniex.GetTicker.
    destruct (poloniex.net_GetTicker net _) as [tick [e|]];
      [repeat split|].
    unfold ticker.GetTicker, poloniex.GetEnabledCurrencies.
    cbn [poloniex.tickers poloniex.with_tickers poloniex.ticker_fetches].
    split; [reflexivity|].
    destruct (bool_decide_reflect (currencyPair ∈ poloniex.EnabledPairs p))
      as [Hin|Hout].
    + rewrite (ticker_fold_enabled FormatExchangeCurrency p assetType)
        by exact Hin.
      split; reflexivity.
    + rewrite (ticker_fold_other FormatExchangeCurrency p assetType);
        [split; reflexivity|].
      apply Forall_forall. intros x Hx Heq. apply Hout. congruence.
  - apply GetOrderbookEx_cases.
  - unfold poloniex.UpdateOrderbook, poloniex.GetOrderbook.
    destruct (poloniex.net_GetOrderbook net _) as [data_ [e|]];
      [repeat split|].
    unfold poloniex.GetEnabledCurrencies. cbn [poloniex.orderbooks].
    destruct (fold_left _ _ _) as [c ob] eqn:Hfold.
    assert (Hc : c = (fold_left
                        (poloniex.UpdateOrderbook_body FormatExchangeCurrency p
                           assetType data_)
                        (poloniex.EnabledPairs p)
                        (poloniex.orderbooks w, orderbook.zeroBase)).1)
      by (by rewrite Hfold).
    unfold orderbook.GetOrderbook.
    cbn [poloniex.orderbooks poloniex.with_orderbooks poloniex.orderbook_fetches].
    split; [reflexivity|]. subst c.
    destruct (bool_decide_reflect (currencyPair ∈ poloniex.EnabledPairs p))
      as [Hin|Hout].
    + destruct (data_ !! FormatExchangeCurrency (poloniex.Name p) currencyPair)
        as [data|] eqn:Hdata.
      * rewrite (orderbook_fold_present FormatExchangeCurrency p assetType
                   data_ _ _ _ currencyPair data Hin Hdata).
        split; reflexivity.
      * rewrite (orderbook_fold_other FormatExchangeCurrency p assetType);
          [split; reflexivity|].
        apply Forall_forall. intros x Hx [d Hd] Heq.
        assert (x = currencyPair) as -> by congruence. congruence.
    + rewrite (orderbook_fold_other FormatExchangeCurrency p assetType);
        [split; reflexivity|].
      apply Forall_forall. intros x Hx _ Heq. apply Hout. congruence.
Qed.

(** C4, as stated, fails: asked for a pair that is not enabled, the refresh
    fetches with success and yet stores nothing under the key and returns
    the cache's miss, an error that is neither a snapshot nor the error of
    the fetch; the next call for the same key fetches again.  The same
    happens on the orderbook path for an enabled pair the response does not
    cover. *)
Lemma C4_counterexample :
  (let '(r1, w1) :=
     poloniex.GetTickerPrice sample_format net_full sample_poloniex
       poloniex.world0 LTC_USD ticker.Spot in
   let '(r2, w2) :=
     poloniex.GetTickerPrice sample_format net_full sample_poloniex w1
       LTC_USD ticker.Spot in
   (poloniex.net_GetTicker net_full 0).2 = None
   /\ r1 = (ticker.zeroPrice, Some ticker.errMiss)
   /\ poloniex.tickers w1 !! ("Poloniex", LTC_USD, ticker.Spot) = None
   /\ r2 = r1
   /\ poloniex.ticker_fetches w2 = 2%nat)
  /\ (let '(r1, w1) :=
        poloniex.GetOrderbookEx sample_format net_without_eth sample_poloniex
          poloniex.world0 ETH_USD ticker.Spot in
      (poloniex.net_GetOrderbook net_without_eth 0).2 = None
      /\ ETH_USD ∈ poloniex.EnabledPairs sample_poloniex
      /\ r1 = (orderbook.zeroBase, Some orderbook.errMiss)
      /\ poloniex.orderbooks w1 !! ("Poloniex", ETH_USD, ticker.Spot) = None).
Proof.
  vm_compute. repeat split; try reflexivity.
  apply list_elem_of_In. right. left. reflexivity.
Qed.

Example GetTickerPrice_miss_then_hit :
  let '(r1, w1) :=
    poloniex.GetTickerPrice sample_format net_full sample_poloniex
      poloniex.world0 BTC_USD ticker.Spot in
  let '(r2, w2) :=
    poloniex.GetTickerPrice sample_format net_full sample_poloniex w1
      BTC_USD ticker.Spot in
  r1 = (ticker.mkPrice BTC_USD 6400 6500 6300 6399 6401 1200, None)
  /\ r2 = r1
  /\ poloniex.ticker_fetches w1 = 1%nat
  /\ poloniex.ticker_fetches w2 = 1%nat.
Proof. vm_compute. repeat split; reflexivity. Qed.

(** ** Batch refresh *)

(** C6 (as the code has it). After a batch refresh whose fetch succeeds,
    every enabled pair that the response covers has its own snapshot in the
    cache, built from its own entry alone, whatever the other entries hold
    and whichever pairs are missing; keys of no enabled pair are untouched,
    and on the orderbook path so is the entry of a pair the response lacks.
    The call returns the cache lookup of the requested pair and nothing
    about any other pair. *)
Theorem C6_batch_installs_each_covered_pair
    (FormatExchangeCurrency : string -> pair.CurrencyPair -> string)
    (net : poloniex.Network) (p : poloniex.Poloniex) (w : poloniex.World)
    (currencyPair : pair.CurrencyPair) (assetType : string)
    (tick : gmap string poloniex.Ticker) (data_ : gmap string poloniex.Orderbook)
    (Hticker : poloniex.net_GetTicker net (poloniex.ticker_fetches w) = (tick, None))
    (Hbook : poloniex.net_GetOrderbook net (poloniex.orderbook_fetches w)
             = (data_, None)) :
  let '(rt, wt) :=
    poloniex.UpdateTicker FormatExchangeCurrency net p w currencyPair assetType in
  let '(ro, wo) :=
    poloniex.UpdateOrderbook FormatExchangeCurrency net p w currencyPair assetType in
  (forall (x : pair.CurrencyPair) (t : poloniex.Ticker),
      x ∈ poloniex.EnabledPairs p ->
      tick !! FormatExchangeCurrency (poloniex.Name p) x = Some t ->
      poloniex.tickers wt !! (poloniex.Name p, x, assetType)
      = Some (ticker.mkPrice x (poloniex.Last t) (poloniex.High24Hr t)
                (poloniex.Low24Hr t) (poloniex.HighestBid t)
                (poloniex.LowestAsk t) (poloniex.BaseVolume t)))
  /\ (forall k : ticker.Key,
        Forall (fun x => (poloniex.Name p, x, assetType) <> k) (poloniex.EnabledPairs p) ->
        poloniex.tickers wt !! k = poloniex.tickers w !! k)
  /\ rt = ticker.GetTicker (poloniex.tickers wt) (poloniex.Name p) currencyPair assetType
  /\ (forall (x : pair.CurrencyPair) (data : poloniex.Orderbook),
        x ∈ poloniex.EnabledPairs p ->
        data_ !! FormatExchangeCurrency (poloniex.Name p) x = Some data ->
        poloniex.orderbooks wo !! (poloniex.Name p, x, assetType)
        = Some (orderbook.mkBase x (poloniex.to_item <$> poloniex.Bids data)
                                   (poloniex.to_item <$> poloniex.Asks data)))
  /\ (forall x : pair.CurrencyPair,
        data_ !! FormatExchangeCurrency (poloniex.Name p) x = None ->
        poloniex.orderbooks wo !! (poloniex.Name p, x, assetType)
        = poloniex.orderbooks w !! (poloniex.Name p, x, assetType))
  /\ (forall k : orderbook.Key,
        Forall (fun x => (poloniex.Name p, x, assetType) <> k) (poloniex.EnabledPairs p) ->
        poloniex.orderbooks wo !! k = poloniex.orderbooks w !! k)
  /\ ro = orderbook.GetOrderbook (poloniex.orderbooks wo) (poloniex.Name p)
            currencyPair assetType.
Proof.
  unfold poloniex.UpdateTicker, poloniex.UpdateOrderbook, poloniex.GetTicker,
    poloniex.GetOrderbook.
  rewrite Hticker, Hbook. unfold poloniex.GetEnabledCurrencies.
  cbn [poloniex.tickers poloniex.orderbooks].
  destruct (fold_left (poloniex.UpdateOrderbook_body _ _ _ _) _ _) as [c ob] eqn:Hfold.
  cbn [poloniex.tickers poloniex.orderbooks poloniex.with_tickers
       poloniex.with_orderbooks].
  assert (Hc : c = (fold_left
            (poloniex.UpdateOrderbook_body FormatExchangeCurrency p assetType data_)
            (poloniex.EnabledPairs p) (poloniex.orderbooks w, orderbook.zeroBase)).1)
    by (by rewrite Hfold).
  repeat split.
  - intros x t Hin Ht.
    rewrite (ticker_fold_enabled FormatExchangeCurrency p assetType) by exact Hin.
    unfold poloniex.ticker_snapshot, poloniex.GetName. by rewrite Ht.
  - intros k Hk. by apply ticker_fold_other.
  - intros x data Hin Hdata. rewrite Hc.
    by apply orderbook_fold_present.
  - intros x Hx. rewrite Hc. apply orderbook_fold_other.
    apply Forall_forall. intros y _ [d Hd] Heq.
    injection Heq as ->. rewrite Hx in Hd. discriminate.
  - intros k Hk. rewrite Hc. apply orderbook_fold_other.
    eapply Forall_impl; [exact Hk|]. auto.
Qed.

Lemma C6_batch_installs_each_covered_pair_witness :
  let '(_, wt) :=
    poloniex.UpdateTicker sample_format net_without_eth sample_poloniex
      poloniex.world0 ETH_USD ticker.Spot in
  let '(_, wo) :=
    poloniex.UpdateOrderbook sample_format net_without_eth sample_poloniex
      poloniex.world0 ETH_USD ticker.Spot in
  poloniex.tickers wt !! ("Poloniex", BTC_USD, ticker.Spot)
  = Some (ticker.mkPrice BTC_USD 6400 6500 6300 6399 6401 1200)
  /\ poloniex.orderbooks wo !! ("Poloniex", BTC_USD, ticker.Spot)
     = Some (orderbook_snapshot BTC_USD btc_book).
Proof.
  pose proof (C6_batch_installs_each_covered_pair sample_format net_without_eth
                sample_poloniex poloniex.world0 ETH_USD ticker.Spot
                (<["BTC_USD" := btc_ticker 6400]> ∅) (<["BTC_USD" := btc_book]> ∅)
                eq_refl eq_refl) as H.
  destruct (poloniex.UpdateTicker _ _ _ _ _ _) as [rt wt].
  destruct (poloniex.UpdateOrderbook _ _ _ _ _ _) as [ro wo].
  destruct H as (Ht & _ & _ & Ho & _).
  split.
  - apply (Ht BTC_USD (btc_ticker 6400)); [by left|reflexivity].
  - apply (Ho BTC_USD btc_book); [by left|reflexivity].
Defined.

(** C6, as stated, fails: with ETH_USD enabled and absent from the batch
    response, the refresh returns the BTC_USD snapshot without any error,
    exactly as it does when the response is complete; nothing reports the
    missing pair, whose key simply stays empty. *)
Lemma C6_counterexample :
  let '(r_missing, w_missing) :=
    poloniex.UpdateOrderbook sample_format net_without_eth sample_poloniex
      poloniex.world0 BTC_USD ticker.Spot in
  let '(r_full, _) :=
    poloniex.UpdateOrderbook sample_format net_full sample_poloniex
      poloniex.world0 BTC_USD ticker.Spot in
  ETH_USD ∈ poloniex.EnabledPairs sample_poloniex
  /\ (poloniex.net_GetOrderbook net_without_eth 0).1 !! "ETH_USD" = None
  /\ r_missing = (orderbook_snapshot BTC_USD btc_book, None)
  /\ r_missing = r_full
  /\ poloniex.orderbooks w_missing !! ("Poloniex", ETH_USD, ticker.Spot) = None.
Proof.
  vm_compute. split; [apply list_elem_of_In; right; left; reflexivity|].
  repeat split; reflexivity.
Qed.

(** On the ticker path a pair the response lacks is not skipped: its key
    receives the all-zero snapshot, and asking for that pair succeeds. *)
Example UpdateTicker_absent_pair_reads_as_zero :
  (poloniex.UpdateTicker sample_format net_without_eth sample_poloniex
     poloniex.world0 ETH_USD ticker.Spot).1
  = (ticker.mkPrice ETH_USD 0 0 0 0 0 0, None).
Proof. vm_compute. reflexivity. Qed.

(** ** Callers side by side and one after the other *)

(** A caller whose two moves are not separated by another caller's does
    what [GetTickerPrice] does. *)
Lemma caller_alone_is_GetTickerPrice FormatExchangeCurrency net p
    (currencyPair : pair.CurrencyPair) (assetType : string)
    (callers : list poloniex.Caller) (w : poloniex.World) (i : nat) :
  callers !! i = Some poloniex.AtStart ->
  poloniex.run FormatExchangeCurrency net p currencyPair assetType [i; i]
    (callers, w)
  = let '(r, w') :=
      poloniex.GetTickerPrice FormatExchangeCurrency net p w currencyPair assetType in
    (<[i := poloniex.Returned r]> callers, w').
Proof.
  intros Hi. pose proof (lookup_lt_Some _ _ _ Hi) as Hlen.
  unfold poloniex.run. cbn [fold_left].
  unfold poloniex.step at 2. rewrite Hi.
  unfold poloniex.GetTickerPrice.
  destruct (ticker.GetTicker _ _ _ _) as [t [e|]]; unfold poloniex.step.
  - rewrite list_lookup_insert_eq by exact Hlen.
    destruct (poloniex.UpdateTicker _ _ _ _ _ _) as [r w'].
    by rewrite list_insert_insert_eq.
  - by rewrite list_lookup_insert_eq by exact Hlen.
Qed.

(** C5, as stated, fails: two callers that both look up the uncached key
    before either refreshes it fetch twice, and each returns the snapshot of
    its own fetch. *)
Lemma C5_counterexample :
  let '(callers, w) :=
    poloniex.run sample_format net_full sample_poloniex BTC_USD ticker.Spot
      [0; 1; 0; 1]%nat ([poloniex.AtStart; poloniex.AtStart], poloniex.world0) in
  poloniex.ticker_fetches w = 2%nat
  /\ callers
     = [poloniex.Returned (ticker.mkPrice BTC_USD 6400 6500 6300 6399 6401 1200, None);
        poloniex.Returned (ticker.mkPrice BTC_USD 6401 6500 6300 6399 6401 1200, None)].
Proof. vm_compute. split; reflexivity. Qed.

Lemma GetTickerPrice_times_hit FormatExchangeCurrency net p w
    (currencyPair : pair.CurrencyPair) (assetType : string) t n :
  poloniex.tickers w !! (poloniex.Name p, currencyPair, assetType) = Some t ->
  poloniex.GetTickerPrice_times FormatExchangeCurrency net n p w currencyPair assetType
  = (replicate n (t, None), w).
Proof.
  intros Hhit. induction n as [|n IH]; cbn [poloniex.GetTickerPrice_times replicate];
    [done|].
  by rewrite GetTickerPrice_cases, Hhit, IH.
Qed.

Lemma GetOrderbookEx_times_hit FormatExchangeCurrency net p w
    (currencyPair : pair.CurrencyPair) (assetType : string) ob n :
  poloniex.orderbooks w !! (poloniex.Name p, currencyPair, assetType) = Some ob ->
  poloniex.GetOrderbookEx_times FormatExchangeCurrency net n p w currencyPair assetType
  = (replicate n (ob, None), w).
Proof.
  intros Hhit. induction n as [|n IH]; cbn [poloniex.GetOrderbookEx_times replicate];
    [done|].
  by rewrite GetOrderbookEx_cases, Hhit, IH.
Qed.

(** C5 (as the code has it). When the callers of get-or-refresh for an
    uncached key run one after the other, and the first refresh succeeds and
    covers the pair, the refresh function runs exactly once and every
    caller receives the snapshot of that one fetch; this holds on the ticker
    path and on the orderbook path. *)
Theorem C5_callers_in_turn_fetch_once
    (FormatExchangeCurrency : string -> pair.CurrencyPair -> string)
    (net : poloniex.Network) (p : poloniex.Poloniex) (w : poloniex.World)
    (currencyPair : pair.CurrencyPair) (assetType : string) (n : nat)
    (tick : gmap string poloniex.Ticker) (data_ : gmap string poloniex.Orderbook)
    (data : poloniex.Orderbook)
    (Hmiss_ticker :
       poloniex.tickers w !! (poloniex.Name p, currencyPair, assetType) = None)
    (Hmiss_book :
       poloniex.orderbooks w !! (poloniex.Name p, currencyPair, assetType) = None)
    (Henabled : currencyPair ∈ poloniex.EnabledPairs p)
    (Hticker : poloniex.net_GetTicker net (poloniex.ticker_fetches w) = (tick, None))
    (Hbook : poloniex.net_GetOrderbook net (poloniex.orderbook_fetches w)
             = (data_, None))
    (Hcovered : data_ !! FormatExchangeCurrency (poloniex.Name p) currencyPair
                = Some data) :
  (let '(results, w') :=
     poloniex.GetTickerPrice_times FormatExchangeCurrency net (S n) p w
       currencyPair assetType in
   poloniex.ticker_fetches w' = S (poloniex.ticker_fetches w)
   /\ results
      = replicate (S n)
          (poloniex.ticker_snapshot FormatExchangeCurrency p tick currencyPair, None))
  /\ (let '(results, w') :=
        poloniex.GetOrderbookEx_times FormatExchangeCurrency net (S n) p w
          currencyPair assetType in
      poloniex.orderbook_fetches w' = S (poloniex.orderbook_fetches w)
      /\ results = replicate (S n) (orderbook_snapshot currencyPair data, None)).
Proof.
  split.
  - cbn [poloniex.GetTickerPrice_times].
    rewrite GetTickerPrice_cases, Hmiss_ticker.
    unfold poloniex.UpdateTicker, poloniex.GetTicker. rewrite Hticker.
    unfold ticker.GetTicker, poloniex.GetEnabledCurrencies.
    cbn [poloniex.tickers].
    rewrite (ticker_fold_enabled FormatExchangeCurrency p assetType) by exact Henabled.
    erewrite GetTickerPrice_times_hit;
      [|cbn [poloniex.tickers poloniex.with_tickers];
        by apply (ticker_fold_enabled FormatExchangeCurrency p assetType)].
    split; reflexivity.
  - cbn [poloniex.GetOrderbookEx_times].
    rewrite GetOrderbookEx_cases, Hmiss_book.
    unfold poloniex.UpdateOrderbook, poloniex.GetOrderbook. rewrite Hbook.
    unfold orderbook.GetOrderbook, poloniex.GetEnabledCurrencies.
    cbn [poloniex.orderbooks].
    pose proof (orderbook_fold_present FormatExchangeCurrency p assetType data_
                  (poloniex.EnabledPairs p) (poloniex.orderbooks w)
                  orderbook.zeroBase currencyPair data Henabled Hcovered) as Hin.
    destruct (fold_left _ _ _) as [c ob]. cbn [fst] in Hin. rewrite Hin.
    erewrite GetOrderbookEx_times_hit;
      [|cbn [poloniex.orderbooks poloniex.with_orderbooks]; exact Hin].
    split; reflexivity.
Qed.

Lemma C5_callers_in_turn_fetch_once_witness :
  (let '(results, w') :=
     poloniex.GetTickerPrice_times sample_format net_full 3 sample_poloniex
       poloniex.world0 BTC_USD ticker.Spot in
   poloniex.ticker_fetches w' = 1%nat
   /\ results
      = replicate 3 (ticker.mkPrice BTC_USD 6400 6500 6300 6399 6401 1200, None))
  /\ (let '(results, w') :=
        poloniex.GetOrderbookEx_times sample_format net_full 3 sample_poloniex
          poloniex.world0 BTC_USD ticker.Spot in
      poloniex.orderbook_fetches w' = 1%nat
      /\ results = replicate 3 (orderbook_snapshot BTC_USD btc_book, None)).
Proof.
  exact (C5_callers_in_turn_fetch_once sample_format net_full sample_poloniex
           poloniex.world0 BTC_USD ticker.Spot 2
           (<["BTC_USD" := btc_ticker 6400]> (<["ETH_USD" := eth_ticker]> ∅))
           (<["BTC_USD" := btc_book]> (<["ETH_USD" := eth_book]> ∅)) btc_book
           eq_refl eq_refl (list_elem_of_here _ _) eq_refl eq_refl eq_refl).
Defined.

(** ** Operations the venue does not implement *)

(** C7 (as the code has it). Every generic operation the wrapper does not
    implement returns, for every adapter and every argument, the zero value
    of its result type (the nil slice, [0], the zero struct, the empty
    string; nothing for the two cancel operations) together with the plain
    [errors.New] value with the fixed text of that operation; the error has
    no other content. *)
Theorem C7_unimplemented_operations_return_fixed_text
    {FundHistory TradeHistory OrderDetail : Type} (zeroOrderDetail : OrderDetail)
    (p : poloniex.Poloniex) (c : UnsupportedCall) :
  unsupported_outcome (FundHistory := FundHistory) (TradeHistory := TradeHistory)
    zeroOrderDetail p c
  = (zero_outcome zeroOrderDetail c, Some (errors_New (unsupported_message c)))
  /\ unsupported_error p c = Some (errors_New (unsupported_message c))
  /\ unsupported_message c ∈ ["not supported on exchange";
                               "trade history not yet implemented";
                               "not yet implemented"].
Proof.
  destruct c; (split; [reflexivity|]); (split; [reflexivity|]);
    cbn [unsupported_message];
    repeat first [apply list_elem_of_here | apply list_elem_of_further].
Qed.

(** C7, as stated, fails: the error of an unimplemented operation is the
    very value a live call returns when the exchange call fails with the
    same text, so nothing in it tells a venue limitation from a live
    failure. *)
Lemma C7_counterexample :
  (poloniex.GetExchangeAccountInfo (net_balances_fail "not yet implemented")
     sample_poloniex poloniex.world0).1.2
  = (poloniex.SubmitExchangeOrder sample_poloniex BTC_USD "buy" "limit" 1 6400 EmptyString).2.
Proof. reflexivity. Qed.

(** * Further properties *)

(** ** Private calls: what the signing path does with the parameters *)

Lemma Set_discards_old (v : url.Values) (key value : string) :
  url.Set_ (delete key v) key value = url.Set_ v key value.
Proof. unfold url.Set_. apply insert_delete_eq. Qed.

Lemma signed_params_discard_old (v : url.Values) (method nonce_ : string) :
  url.Set_ (url.Set_ (delete "nonce" (delete "method" v)) "nonce" nonce_)
           "method" method
  = url.Set_ (url.Set_ v "nonce" nonce_) "method" method.
Proof.
  rewrite Set_discards_old. unfold url.Set_.
  rewrite (insert_insert_ne _ "method" "nonce") by done.
  rewrite (insert_delete_eq (M := gmap string)).
  by rewrite (insert_insert_ne _ "nonce" "method").
Qed.

(** X1. Whatever the caller has put under [nonce] and [method] is thrown
    away: a call behaves exactly as the call on the parameters without
    these two keys, and the parameters that get encoded hold the one nonce
    and the one method name of the call. *)
Theorem X1_caller_nonce_and_method_are_overwritten {Payload} warning
    (transport : liqui.Transport Payload) (now : Z) (l : liqui.Liqui)
    (w : liqui.World) (method : string) (values : url.Values) :
  liqui.SendAuthenticatedHTTPRequest warning transport now l w method values
  = liqui.SendAuthenticatedHTTPRequest warning transport now l w method
      (delete "nonce" (delete "method" values))
  /\ forall old_nonce old_method : list string,
       liqui.SendAuthenticatedHTTPRequest warning transport now l w method
         (<["nonce" := old_nonce]> (<["method" := old_method]> values))
       = liqui.SendAuthenticatedHTTPRequest warning transport now l w method values.
Proof.
  assert (Hdel : forall v,
    liqui.SendAuthenticatedHTTPRequest warning transport now l w method v
    = liqui.SendAuthenticatedHTTPRequest warning transport now l w method
        (delete "nonce" (delete "method" v))).
  { intros v. unfold liqui.SendAuthenticatedHTTPRequest.
    destruct (negb (liqui.AuthenticatedAPISupport l)); [reflexivity|].
    cbv zeta. by rewrite signed_params_discard_old. }
  split; [apply Hdel|].
  intros old_nonce old_method.
  rewrite Hdel, (Hdel values). f_equal.
  rewrite (delete_insert_ne (M := gmap string)) by done.
  rewrite (delete_insert_eq (M := gmap string)).
  rewrite (delete_insert_eq (M := gmap string)). reflexivity.
Qed.

Lemma run_private_signed {Payload} OrderID FormatFloat warning
    (transport : liqui.Transport Payload) now l w (c : liqui.PrivateCall) :
  liqui.AuthenticatedAPISupport l = true ->
  liqui.run_private OrderID FormatFloat warning transport now l w c
  = let x := next_nonce now (liqui.Nonce l) in
    let r := spec_request l x (private_method c) (private_values FormatFloat c) in
    let line := "Sending POST request to " ++ liqui.APIUrlSecondary l
                ++ " calling method " ++ private_method c
                ++ " with params "
                ++ (spec_sign (private_method c) (private_values FormatFloat c)
                      (nonce.String_ x) (liqui.APISecret l)).1 in
    ((transport (liqui.sent w) r).1,
     liqui.with_Nonce l x,
     liqui.mkWorld (liqui.sent w ++ [r])%list
       (if liqui.Verbose l then (liqui.logged w ++ [line])%list
        else liqui.logged w)).
Proof.
  intros Hon. destruct c; cbn [liqui.run_private];
    unfold liqui.GetAccountInfo, liqui.Trade, liqui.GetActiveOrders,
      liqui.GetOrderInfo, liqui.CancelOrder, liqui.GetTradeHistory,
      liqui.WithdrawCoins;
    rewrite SendAuthenticatedHTTPRequest_signed by exact Hon;
    cbv beta iota zeta; cbn [private_method private_values];
    unfold liqui.liquiAccountInfo, liqui.liquiTrade, liqui.liquiActiveOrders,
      liqui.liquiOrderInfo, liqui.liquiCancelOrder, liqui.liquiTradeHistory,
      liqui.liquiWithdrawCoin;
    try match goal with |- context [transport ?h ?r] =>
          destruct (transport h r) as [[e|] res] end;
    reflexivity.
Qed.

(** X2. With authenticated support on, every private operation hands the
    transport exactly one request, a [POST] to the private endpoint flagged
    as authenticated and signed for the operation's method name and
    parameters, returns the transport's error as it is, and advances the
    nonce, also when the transport fails; nothing else of the adapter
    changes. *)
Theorem X2_private_call_outcome {Payload} OrderID FormatFloat warning
    (transport : liqui.Transport Payload) (now : Z) (l : liqui.Liqui)
    (w : liqui.World) (c : liqui.PrivateCall)
    (Hon : liqui.AuthenticatedAPISupport l = true) :
  let '(err, l', w') :=
    liqui.run_private OrderID FormatFloat warning transport now l w c in
  let r := spec_request l (next_nonce now (liqui.Nonce l)) (private_method c)
             (private_values FormatFloat c) in
  liqui.sent w' = (liqui.sent w ++ [r])%list
  /\ err = (transport (liqui.sent w) r).1
  /\ l' = liqui.with_Nonce l (next_nonce now (liqui.Nonce l))
  /\ exchange.httpMethod r = "POST"
  /\ exchange.path r = liqui.APIUrlSecondary l
  /\ exchange.authRequest r = true
  /\ exchange.headers r !! "Key" = Some (liqui.APIKey l)
  /\ length (liqui.logged w')
     = (length (liqui.logged w) + if liqui.Verbose l then 1 else 0)%nat.
Proof.
  rewrite run_private_signed by exact Hon. cbv beta iota zeta.
  cbn [liqui.sent liqui.logged].
  repeat split.
  destruct (liqui.Verbose l); [rewrite length_app; reflexivity | lia].
Qed.

Lemma X2_private_call_outcome_witness :
  let '(err, l', w') :=
    liqui.run_private sample_OrderID sample_FormatFloat sample_warning
      transport_down 1540000000 (liqui_sample true "key" "secret" 7)
      liqui.world0 (liqui.CallTrade "eth_btc" "buy" 1 2) in
  err = Some (errors_New "connection refused")
  /\ nonce.Get (liqui.Nonce l') = 8
  /\ length (liqui.sent w') = 1%nat.
Proof.
  pose proof (X2_private_call_outcome sample_OrderID sample_FormatFloat
                sample_warning transport_down 1540000000
                (liqui_sample true "key" "secret" 7) liqui.world0
                (liqui.CallTrade "eth_btc" "buy" 1 2) eq_refl) as H.
  destruct (liqui.run_private _ _ _ _ _ _ _ _) as [[err l'] w'].
  destruct H as (Hsent & Herr & Hl & _).
  rewrite Hsent, Herr, Hl. repeat split.
Defined.

(** ** Private calls: the bodies on the wire *)

Lemma QueryEscape_uint (d : Decimal.uint) :
  url.QueryEscape (NilEmpty.string_of_uint d) = NilEmpty.string_of_uint d.
Proof.
  induction d; cbn [NilEmpty.string_of_uint]; [reflexivity|..];
    (etransitivity; [|apply f_equal, IHd]); reflexivity.
Qed.

(** A printed integer has nothing to escape. *)
Lemma QueryEscape_FormatInt (z : Z) :
  url.QueryEscape (strconv.FormatInt z) = strconv.FormatInt z.
Proof.
  unfold strconv.FormatInt.
  destruct (Z.to_int z) as [d|d]; cbn [NilZero.string_of_int].
  - destruct d; try reflexivity; apply (QueryEscape_uint (_ d)).
  - etransitivity; [|apply (f_equal (String "-"))].
    + reflexivity.
    + destruct d; try reflexivity; apply (QueryEscape_uint (_ d)).
Qed.

Lemma string_app_cons (x : ascii) (a b : string) :
  String x a ++ b = String x (a ++ b).
Proof. reflexivity. Qed.

Lemma string_app_assoc (a b c : string) : (a ++ b) ++ c = a ++ (b ++ c).
Proof.
  induction a as [|x a IH]; [reflexivity|].
  by rewrite !string_app_cons, IH.
Qed.

Lemma string_app_empty (a b : string) : a ++ b = EmptyString -> a = EmptyString /\ b = EmptyString.
Proof. destruct a; [done|]. rewrite string_app_cons. discriminate. Qed.

Lemma write_pair_glue (ke buf value : string) :
  url.write_pair ke buf value
  = match buf with
    | EmptyString => ke ++ "=" ++ url.QueryEscape value
    | _ => buf ++ "&" ++ ke ++ "=" ++ url.QueryEscape value
    end.
Proof.
  unfold url.write_pair. destruct buf as [|c buf]; [reflexivity|].
  cbn [String.length Nat.ltb Nat.leb]. apply string_app_assoc.
Qed.

Lemma join_amp_snoc (ps : list string) (q : string) :
  ps <> [] -> join_amp (ps ++ [q]) = join_amp ps ++ "&" ++ q.
Proof.
  induction ps as [|p ps IH]; [done|]. intros _.
  destruct ps as [|p' ps]; [reflexivity|].
  change (join_amp ((p :: p' :: ps) ++ [q]))
    with (p ++ "&" ++ join_amp ((p' :: ps) ++ [q])).
  rewrite IH by done.
  change (join_amp (p :: p' :: ps)) with (p ++ "&" ++ join_amp (p' :: ps)).
  by rewrite !string_app_assoc.
Qed.

Lemma join_amp_empty (ps : list string) :
  Forall (fun p => p <> EmptyString) ps -> join_amp ps = EmptyString -> ps = [].
Proof.
  destruct 1 as [|p ps Hp Hps]; [done|]. intros Hj. exfalso.
  destruct ps; [by apply Hp|].
  cbn [join_amp] in Hj. apply string_app_empty in Hj as [? _]. by apply Hp.
Qed.

Lemma piece_not_empty (k x : string) :
  url.QueryEscape k ++ "=" ++ url.QueryEscape x <> EmptyString.
Proof. intros [_ H]%string_app_empty. discriminate. Qed.

Lemma pieces_not_empty (v : url.Values) (ks : list string) :
  Forall (fun p => p <> EmptyString) (pieces_of v ks).
Proof.
  unfold pieces_of. apply Forall_forall. intros p Hin.
  apply list_elem_of_bind in Hin as (k & Hp & _).
  apply list_elem_of_fmap in Hp as (x & -> & _). apply piece_not_empty.
Qed.

(** Writing the values of one key after the pieces [ps]. *)
Lemma write_values_join (k : string) (xs : list string) (ps : list string) :
  Forall (fun p => p <> EmptyString) ps ->
  fold_left (url.write_pair (url.QueryEscape k)) xs (join_amp ps)
  = join_amp (ps ++ ((fun x => url.QueryEscape k ++ "=" ++ url.QueryEscape x) <$> xs)).
Proof.
  revert ps. induction xs as [|x xs IH]; intros ps Hps; cbn [fold_left fmap list_fmap].
  - by rewrite app_nil_r.
  - rewrite write_pair_glue.
    set (q := url.QueryEscape k ++ "=" ++ url.QueryEscape x).
    assert (Hq : q <> EmptyString) by apply piece_not_empty.
    assert (Hglue : match join_amp ps with
                    | EmptyString => q
                    | _ => join_amp ps ++ "&" ++ q
                    end = join_amp (ps ++ [q])).
    { destruct (join_amp ps) eqn:Hj.
      - apply join_amp_empty in Hj as ->; [reflexivity|exact Hps].
      - rewrite join_amp_snoc, Hj; [reflexivity|]. by intros ->. }
    rewrite Hglue.
    rewrite (IH (ps ++ [q])%list)
      by (apply Forall_app; split; [exact Hps|]; by constructor).
    by rewrite <- app_assoc.
Qed.

(** [Encode] is the pieces of the sorted keys joined by [&]. *)
Lemma Encode_from_pieces (keys : list string) (v : url.Values) :
  url.Encode_from keys v = join_amp (pieces_of v (merge_sort String.le keys)).
Proof.
  unfold url.Encode_from. generalize (merge_sort String.le keys). intros ks.
  change EmptyString with (join_amp []) at 1.
  change (pieces_of v ks) with ([] ++ pieces_of v ks)%list.
  assert (Hnil : Forall (fun p : string => p <> EmptyString) []) by constructor.
  revert Hnil. generalize (@nil string).
  induction ks as [|k ks IH]; intros ps Hps; cbn [fold_left].
  - unfold pieces_of. cbn [mbind list_bind]. by rewrite app_nil_r.
  - unfold url.write_key at 2. rewrite write_values_join by exact Hps.
    rewrite IH by (apply Forall_app; split; [exact Hps|];
                   apply Forall_forall; intros p [x [-> _]]%list_elem_of_fmap;
                   apply piece_not_empty).
    unfold pieces_of. cbn [mbind list_bind]. by rewrite <- app_assoc.
Qed.

Lemma pieces_of_cons (v : url.Values) (k : string) (ks : list string) :
  pieces_of v (k :: ks)
  = app ((fun x => url.QueryEscape k ++ "=" ++ url.QueryEscape x)
            <$> default [] (v !! k))
        (pieces_of v ks).
Proof. reflexivity. Qed.

(** Compute the body of a map with known keys: sort the keys, look each one
    up, escape the key names, and leave the escaping of the values alone. *)
Ltac encode_body :=
  unfold url.Encode;
  etransitivity; [apply Encode_from_pieces|];
  match goal with
  | |- context [merge_sort String.le ?ks] =>
      let r := eval vm_compute in (merge_sort String.le ks) in
      replace (merge_sort String.le ks) with r by (vm_compute; reflexivity)
  end;
  rewrite ?pieces_of_cons;
  repeat match goal with
  | |- context [@lookup _ _ _ _ ?k ?v] =>
      let r := eval vm_compute in (@lookup _ _ _ _ k v) in
      replace (@lookup _ _ _ _ k v) with r by (vm_compute; reflexivity)
  end;
  repeat match goal with
  | |- context [url.QueryEscape (String ?c ?s)] =>
      let r := eval vm_compute in (url.QueryEscape (String c s)) in
      change (url.QueryEscape (String c s)) with r
  end;
  reflexivity.

Lemma body_without_parameters (m n : string) :
  url.Encode (spec_params m ∅ n)
  = "method=" ++ url.QueryEscape m ++ "&nonce=" ++ url.QueryEscape n.
Proof. encode_body. Qed.

Lemma body_with_order_id (m n id : string) :
  url.Encode (spec_params m (url.Add ∅ "order_id" id) n)
  = "method=" ++ url.QueryEscape m ++ "&nonce=" ++ url.QueryEscape n
    ++ "&order_id=" ++ url.QueryEscape id.
Proof. encode_body. Qed.

Lemma body_with_pair (m n pr : string) :
  url.Encode (spec_params m (url.Add ∅ "pair" pr) n)
  = "method=" ++ url.QueryEscape m ++ "&nonce=" ++ url.QueryEscape n
    ++ "&pair=" ++ url.QueryEscape pr.
Proof. encode_body. Qed.

Lemma body_of_Trade (m n pr orderType amount rate : string) :
  url.Encode
    (spec_params m
       (url.Add (url.Add (url.Add (url.Add ∅ "pair" pr) "type" orderType)
                         "amount" amount) "rate" rate) n)
  = "amount=" ++ url.QueryEscape amount
    ++ "&method=" ++ url.QueryEscape m ++ "&nonce=" ++ url.QueryEscape n
    ++ "&pair=" ++ url.QueryEscape pr ++ "&rate=" ++ url.QueryEscape rate
    ++ "&type=" ++ url.QueryEscape orderType.
Proof. encode_body. Qed.

Lemma body_of_WithdrawCoins (m n coin amount address : string) :
  url.Encode
    (spec_params m
       (url.Add (url.Add (url.Add ∅ "coinName" coin) "amount" amount)
                "address" address) n)
  = "address=" ++ url.QueryEscape address ++ "&amount=" ++ url.QueryEscape amount
    ++ "&coinName=" ++ url.QueryEscape coin
    ++ "&method=" ++ url.QueryEscape m ++ "&nonce=" ++ url.QueryEscape n.
Proof. encode_body. Qed.

Lemma last_body_of_private_call {Payload} OrderID FormatFloat warning
    (transport : liqui.Transport Payload) now l w (c : liqui.PrivateCall) :
  liqui.AuthenticatedAPISupport l = true ->
  last_body (liqui.run_private OrderID FormatFloat warning transport now l w c).2
  = Some (url.Encode
            (spec_params (private_method c) (private_values FormatFloat c)
               (nonce.String_ (next_nonce now (liqui.Nonce l))))).
Proof.
  intros Hon. rewrite run_private_signed by exact Hon. cbv beta iota zeta.
  unfold last_body. cbn [snd liqui.sent]. rewrite last_snoc. reflexivity.
Qed.

(** X3. The body of each private operation with fixed parameters, as it
    goes on the wire: the parameters in the byte order of their names, the
    nonce and the order id in plain decimal, every other value escaped. *)
Theorem X3_private_bodies {Payload} OrderID FormatFloat warning
    (transport : liqui.Transport Payload) (now : Z) (l : liqui.Liqui)
    (w : liqui.World) (Hon : liqui.AuthenticatedAPISupport l = true) :
  let n := strconv.FormatInt (nonce.Get (next_nonce now (liqui.Nonce l))) in
  let body c :=
    last_body (liqui.run_private OrderID FormatFloat warning transport now l w c).2 in
  body liqui.CallGetAccountInfo = Some ("method=getInfo&nonce=" ++ n)
  /\ (forall id, body (liqui.CallCancelOrder id)
        = Some ("method=CancelOrder&nonce=" ++ n
                ++ "&order_id=" ++ strconv.FormatInt id))
  /\ (forall id, body (liqui.CallGetOrderInfo id)
        = Some ("method=OrderInfo&nonce=" ++ n
                ++ "&order_id=" ++ strconv.FormatInt id))
  /\ (forall pr, body (liqui.CallGetActiveOrders pr)
        = Some ("method=ActiveOrders&nonce=" ++ n
                ++ "&pair=" ++ url.QueryEscape pr))
  /\ (forall pr orderType amount price,
        body (liqui.CallTrade pr orderType amount price)
        = Some ("amount=" ++ url.QueryEscape (FormatFloat amount)
                ++ "&method=Trade&nonce=" ++ n
                ++ "&pair=" ++ url.QueryEscape pr
                ++ "&rate=" ++ url.QueryEscape (FormatFloat price)
                ++ "&type=" ++ url.QueryEscape orderType))
  /\ (forall coin amount address,
        body (liqui.CallWithdrawCoins coin amount address)
        = Some ("address=" ++ url.QueryEscape address
                ++ "&amount=" ++ url.QueryEscape (FormatFloat amount)
                ++ "&coinName=" ++ url.QueryEscape coin
                ++ "&method=WithdrawCoin&nonce=" ++ n))
  /\ body (liqui.CallGetTradeHistory ∅ EmptyString)
     = Some ("method=TradeHistory&nonce=" ++ n)
  /\ (forall c pr, body (liqui.CallGetTradeHistory ∅ (String c pr))
        = Some ("method=TradeHistory&nonce=" ++ n
                ++ "&pair=" ++ url.QueryEscape (String c pr))).
Proof.
  cbv zeta.
  repeat split; intros; rewrite last_body_of_private_call by exact Hon;
    cbn [private_method private_values String.eqb negb];
    unfold nonce.String_, nonce.Get; f_equal.
  - by rewrite body_without_parameters, QueryEscape_FormatInt.
  - by rewrite body_with_order_id, !QueryEscape_FormatInt.
  - by rewrite body_with_order_id, !QueryEscape_FormatInt.
  - by rewrite body_with_pair, QueryEscape_FormatInt.
  - by rewrite body_of_Trade, QueryEscape_FormatInt.
  - by rewrite body_of_WithdrawCoins, QueryEscape_FormatInt.
  - by rewrite body_without_parameters, QueryEscape_FormatInt.
  - by rewrite body_with_pair, QueryEscape_FormatInt.
Qed.

Lemma X3_private_bodies_witness :
  last_body
    (liqui.run_private sample_OrderID sample_FormatFloat sample_warning
       transport_ok 1540000000 (liqui_sample true "key" "secret" 0)
       liqui.world0 (liqui.CallCancelOrder 42)).2
  = Some "method=CancelOrder&nonce=1540000000&order_id=42".
Proof.
  pose proof (X3_private_bodies sample_OrderID sample_FormatFloat sample_warning
                transport_ok 1540000000 (liqui_sample true "key" "secret" 0)
                liqui.world0 eq_refl) as H.
  cbv zeta in H. destruct H as (_ & H & _).
  rewrite (H 42). vm_compute. reflexivity.
Defined.

(** ** Public calls *)

Lemma Sprintf_info (a : string) :
  liqui_public.Sprintf "%s/%s/%s/"
    [a; liqui_public.liquiAPIPublicVersion; liqui_public.liquiInfo]
  = a ++ "/3/info/".
Proof. reflexivity. Qed.

Lemma string_app_nil_r (a : string) : a ++ EmptyString = a.
Proof. induction a as [|x a IH]; [reflexivity|]. by rewrite string_app_cons, IH. Qed.

Lemma Sprintf_pair (a op cp : string) :
  liqui_public.Sprintf "%s/%s/%s/%s" [a; liqui_public.liquiAPIPublicVersion; op; cp]
  = a ++ "/3/" ++ op ++ "/" ++ cp.
Proof. cbn [liqui_public.Sprintf]. by rewrite string_app_nil_r. Qed.

(** X4. A public operation hands the transport exactly one [GET] for
    [APIUrl/3/<operation>/<pair>] (the pair appended as it is, [info] with a
    trailing slash), without headers and without body, not flagged as
    authenticated, whatever credentials the adapter holds and whether or
    not authenticated support is on; it writes nothing to the log, returns
    the transport's error as it is, and [GetDepth] and [GetTrades] return
    the entry of the requested pair. *)
Theorem X4_public_call_request {Payload} (entry : Payload -> string -> Payload)
    (transport : liqui.Transport Payload) (APIUrl : string) (l : liqui.Liqui)
    (w : liqui.World) (c : liqui_public.PublicCall) :
  let '((result, err), w') := liqui_public.run_public entry transport APIUrl l w c in
  let r := exchange.mkRequest "GET" (public_path APIUrl c) ∅ None false
             (liqui.Verbose l) in
  liqui.sent w' = (liqui.sent w ++ [r])%list
  /\ liqui.logged w' = liqui.logged w
  /\ err = (transport (liqui.sent w) r).1
  /\ result = Some match c with
                   | liqui_public.CallGetDepth cp
                   | liqui_public.CallGetTrades cp =>
                       entry (transport (liqui.sent w) r).2 cp
                   | _ => (transport (liqui.sent w) r).2
                   end.
Proof.
  destruct c; cbn [liqui_public.run_public public_path];
    unfold liqui_public.GetInfo, liqui_public.GetTicker, liqui_public.GetDepth,
      liqui_public.GetTrades, liqui_public.SendHTTPRequest, liqui.SendPayload;
    cbv zeta; rewrite ?Sprintf_info, ?Sprintf_pair;
    try change (APIUrl ++ "/3/" ++ liqui_public.liquiTicker ++ "/" ++ currencyPair)
          with (APIUrl ++ "/3/ticker/" ++ currencyPair);
    try change (APIUrl ++ "/3/" ++ liqui_public.liquiDepth ++ "/" ++ currencyPair)
          with (APIUrl ++ "/3/depth/" ++ currencyPair);
    try change (APIUrl ++ "/3/" ++ liqui_public.liquiTrades ++ "/" ++ currencyPair)
          with (APIUrl ++ "/3/trades/" ++ currencyPair);
    match goal with |- context [transport ?h ?r] =>
      destruct (transport h r) as [e res] end;
    repeat split.
Qed.

(** ** Available pairs: the hidden filter, the count, duplicates *)

Lemma listed_hidden_filter (kv : string * liqui.PairData) :
  listed true kv
  = if decide (liqui.Hidden kv.2 <> 1) then listed false kv else None.
Proof.
  unfold listed. cbn [andb].
  destruct (Z.eqb_spec (liqui.Hidden kv.2) 1) as [Heq|Hne].
  - rewrite decide_False by (intros ?; contradiction). reflexivity.
  - rewrite decide_True by exact Hne. reflexivity.
Qed.

Lemma omap_listed_filter (order : list (string * liqui.PairData)) :
  omap (listed true) order
  = omap (listed false) (filter (fun kv => liqui.Hidden kv.2 <> 1) order).
Proof.
  induction order as [|kv order IH]; [reflexivity|].
  rewrite filter_cons. cbn [omap list_omap]. rewrite listed_hidden_filter.
  destruct (decide (liqui.Hidden kv.2 <> 1)); cbn [omap list_omap];
    fold (omap (listed true) order);
    fold (omap (listed false) (filter (fun kv => liqui.Hidden kv.2 <> 1) order));
    by rewrite IH.
Qed.

Lemma omap_listed_sublist (order : list (string * liqui.PairData)) :
  omap (listed true) order `sublist_of` omap (listed false) order.
Proof.
  induction order as [|kv order IH]; [constructor|].
  cbn [omap list_omap]. rewrite listed_hidden_filter.
  fold (omap (listed true) order). fold (omap (listed false) order).
  destruct (decide (liqui.Hidden kv.2 <> 1)).
  - destruct (listed false kv); [by constructor|exact IH].
  - destruct (listed false kv); [by constructor|exact IH].
Qed.

Lemma omap_listed_all_length (order : list (string * liqui.PairData)) :
  Forall (fun kv => kv.1 <> EmptyString) order ->
  length (omap (listed false) order) = length order.
Proof.
  induction 1 as [|kv order Hkv _ IH]; [reflexivity|].
  cbn [omap list_omap]. unfold listed at 1. cbn [andb orb].
  apply String.eqb_neq in Hkv. rewrite Hkv. cbn [length].
  fold (omap (listed false) order). by rewrite IH.
Qed.

Lemma listed_all_size (m : gmap string liqui.PairData) :
  m !! EmptyString = None ->
  length (omap (listed false) (map_to_list m)) = size m.
Proof.
  intros Hnone. rewrite omap_listed_all_length; [apply length_map_to_list|].
  apply Forall_forall. intros [k y] Hin%elem_of_map_to_list Hk.
  cbn [fst] in Hk. subst k. congruence.
Qed.

(** X5. Asking for the non-hidden pairs only removes entries: for every
    iteration order the non-hidden listing is a sublist of the full one,
    and it is the full listing of the table without its hidden entries.
    The full listing has one entry for every key of the table but the
    empty one. *)
Theorem X5_hidden_filter_only_removes (l : liqui.Liqui)
    (order : list (string * liqui.PairData)) :
  liqui.GetAvailablePairs_range order true
    `sublist_of` liqui.GetAvailablePairs_range order false
  /\ liqui.GetAvailablePairs_range order true
     = liqui.GetAvailablePairs_range
         (filter (fun kv => liqui.Hidden kv.2 <> 1) order) false
  /\ length (liqui.GetAvailablePairs l false)
     = size (delete EmptyString (liqui.Pairs (liqui.Info_ l))).
Proof.
  unfold liqui.GetAvailablePairs. rewrite !GetAvailablePairs_range_omap.
  split; [apply omap_listed_sublist|]. split; [apply omap_listed_filter|].
  set (m := liqui.Pairs (liqui.Info_ l)).
  destruct (m !! EmptyString) as [x|] eqn:Hx.
  - rewrite <- (listed_all_size (delete EmptyString m)) by apply lookup_delete_eq.
    rewrite <- (map_to_list_delete m EmptyString x Hx).
    reflexivity.
  - rewrite delete_id by exact Hx. by apply listed_all_size.
Qed.

Lemma byte_of_ascii_range (a : ascii) : 0 <= byte_of_ascii a < 256.
Proof.
  unfold byte_of_ascii. pose proof (N_ascii_bounded a). lia.
Qed.

Lemma byte_of_ascii_inj (a b : ascii) : byte_of_ascii a = byte_of_ascii b -> a = b.
Proof.
  unfold byte_of_ascii. intros H%N2Z.inj.
  by rewrite <- (ascii_N_embedding a), <- (ascii_N_embedding b), H.
Qed.

Lemma byte_of_ascii_of_byte (n : Z) :
  0 <= n < 256 -> byte_of_ascii (ascii_of_byte n) = n.
Proof.
  intros Hn. unfold byte_of_ascii, ascii_of_byte.
  rewrite N_ascii_embedding by lia. lia.
Qed.

Lemma upper_ascii_inj (a b : ascii) :
  not_upper a = true -> not_upper b = true ->
  common.upper_ascii a = common.upper_ascii b -> a = b.
Proof.
  unfold not_upper, common.upper_ascii. intros Ha Hb H.
  pose proof (byte_of_ascii_range a) as Hra.
  pose proof (byte_of_ascii_range b) as Hrb.
  apply byte_of_ascii_inj.
  apply (f_equal byte_of_ascii) in H. revert H.
  destruct ((97 <=? byte_of_ascii a) && (byte_of_ascii a <=? 122)) eqn:Hla;
    destruct ((97 <=? byte_of_ascii b) && (byte_of_ascii b <=? 122)) eqn:Hlb;
    rewrite ?byte_of_ascii_of_byte by lia; lia.
Qed.

Lemma StringToUpper_inj (s t : string) :
  no_upper s = true -> no_upper t = true ->
  common.StringToUpper s = common.StringToUpper t -> s = t.
Proof.
  revert t. induction s as [|a s IH]; intros [|b t]; cbn [no_upper common.StringToUpper];
    try done.
  intros [Ha Hs]%andb_prop [Hb Ht]%andb_prop [= Hab Hst].
  f_equal; [by apply upper_ascii_inj | by apply IH].
Qed.

Lemma omap_listed_NoDup (nonHidden : bool) (order : list (string * liqui.PairData)) :
  NoDup (order.*1) ->
  Forall (fun kv => no_upper kv.1 = true) order ->
  NoDup (omap (listed nonHidden) order).
Proof.
  induction order as [|[k y] order IH]; [constructor|].
  rewrite fmap_cons. intros [Hk Hnd]%NoDup_cons [Hup Hall]%Forall_cons.
  cbn [omap list_omap]. fold (omap (listed nonHidden) order).
  destruct (listed nonHidden (k, y)) as [s|] eqn:Hs; [|by apply IH].
  apply NoDup_cons. split; [|by apply IH].
  intros ([k' y'] & Hin & Hl')%list_elem_of_omap.
  apply Hk. apply list_elem_of_fmap. exists (k', y'). split; [|exact Hin].
  cbn [fst]. rewrite Forall_forall in Hall. specialize (Hall _ Hin).
  unfold listed in Hs, Hl'. cbn [fst snd] in *.
  destruct (_ || _) in Hs; [discriminate|].
  destruct (_ || _) in Hl'; [discriminate|].
  apply StringToUpper_inj; [exact Hup|exact Hall|congruence].
Qed.

(** X6. When every key of the pair-info table is a string of ASCII bytes
    without an uppercase letter, no pair is listed twice.  The keys are
    taken ASCII because upper-casing is modelled on ASCII bytes (beyond
    them two keys without uppercase letters may share their uppercase
    form). *)
Theorem X6_no_pair_listed_twice (l : liqui.Liqui) (nonHidden : bool)
    (Hkeys : forall k, is_Some (liqui.Pairs (liqui.Info_ l) !! k) ->
                       ascii_only k = true /\ no_upper k = true) :
  NoDup (liqui.GetAvailablePairs l nonHidden).
Proof.
  unfold liqui.GetAvailablePairs. rewrite GetAvailablePairs_range_omap.
  apply omap_listed_NoDup; [apply NoDup_fst_map_to_list|].
  apply Forall_forall. intros [k y] Hin%elem_of_map_to_list.
  apply Hkeys. by exists y.
Qed.

Lemma X6_no_pair_listed_twice_witness :
  NoDup (liqui.GetAvailablePairs (liqui_with_pairs sample_pairs) false).
Proof.
  apply (X6_no_pair_listed_twice (liqui_with_pairs sample_pairs) false).
  intros k [y Hy]. apply elem_of_map_to_list in Hy.
  vm_compute in Hy.
  repeat (apply list_elem_of_In in Hy; destruct Hy as [Hy|Hy];
          [injection Hy as <- _; split; reflexivity
          | apply list_elem_of_In in Hy]).
  by apply elem_of_nil in Hy.
Defined.

(** With keys that differ only in case the same pair comes out twice. *)
Example GetAvailablePairs_duplicate :
  liqui.GetAvailablePairs
    (liqui_with_pairs (<["eth_btc" := liqui.mkPairData 0]>
                         (<["ETH_BTC" := liqui.mkPairData 0]> ∅))) false
  = ["ETH_BTC"; "ETH_BTC"].
Proof. vm_compute. reflexivity. Qed.

(** ** The wrapper: what a refresh leaves in the cache *)

Lemma UpdateTicker_ok FormatExchangeCurrency net p w
    (currencyPair : pair.CurrencyPair) (assetType : string)
    (tick : gmap string poloniex.Ticker) :
  poloniex.net_GetTicker net (poloniex.ticker_fetches w) = (tick, None) ->
  poloniex.UpdateTicker FormatExchangeCurrency net p w currencyPair assetType
  = let c := fold_left
               (poloniex.UpdateTicker_body FormatExchangeCurrency p assetType tick)
               (poloniex.EnabledPairs p) (poloniex.tickers w) in
    (ticker.GetTicker c (poloniex.Name p) currencyPair assetType,
     poloniex.mkWorld c (poloniex.orderbooks w) (S (poloniex.ticker_fetches w))
       (poloniex.orderbook_fetches w) (poloniex.balance_fetches w)).
Proof.
  intros Hfetch. unfold poloniex.UpdateTicker, poloniex.GetTicker.
  rewrite Hfetch. reflexivity.
Qed.

Lemma UpdateOrderbook_ok FormatExchangeCurrency net p w
    (currencyPair : pair.CurrencyPair) (assetType : string)
    (data_ : gmap string poloniex.Orderbook) :
  poloniex.net_GetOrderbook net (poloniex.orderbook_fetches w) = (data_, None) ->
  poloniex.UpdateOrderbook FormatExchangeCurrency net p w currencyPair assetType
  = let c := (fold_left
                (poloniex.UpdateOrderbook_body FormatExchangeCurrency p assetType data_)
                (poloniex.EnabledPairs p)
                (poloniex.orderbooks w, orderbook.zeroBase)).1 in
    (orderbook.GetOrderbook c (poloniex.Name p) currencyPair assetType,
     poloniex.mkWorld (poloniex.tickers w) c (poloniex.ticker_fetches w)
       (S (poloniex.orderbook_fetches w)) (poloniex.balance_fetches w)).
Proof.
  intros Hfetch. unfold poloniex.UpdateOrderbook, poloniex.GetOrderbook.
  rewrite Hfetch. unfold poloniex.GetEnabledCurrencies. cbn [poloniex.orderbooks].
  by destruct (fold_left _ _ _).
Qed.

(** X7. One refresh serves every enabled pair: after a get-or-refresh that
    missed and whose fetch succeeded, the ticker of each enabled pair, and
    the orderbook of each enabled pair the response covers, comes from the
    cache, built from that response, without another fetch. *)
Theorem X7_one_refresh_serves_all_enabled_pairs
    (FormatExchangeCurrency : string -> pair.CurrencyPair -> string)
    (net : poloniex.Network) (p : poloniex.Poloniex) (w : poloniex.World)
    (currencyPair : pair.CurrencyPair) (assetType : string)
    (tick : gmap string poloniex.Ticker) (data_ : gmap string poloniex.Orderbook)
    (Hmiss_ticker :
       poloniex.tickers w !! (poloniex.Name p, currencyPair, assetType) = None)
    (Hmiss_book :
       poloniex.orderbooks w !! (poloniex.Name p, currencyPair, assetType) = None)
    (Hticker : poloniex.net_GetTicker net (poloniex.ticker_fetches w) = (tick, None))
    (Hbook : poloniex.net_GetOrderbook net (poloniex.orderbook_fetches w)
             = (data_, None)) :
  (let '(_, w1) :=
     poloniex.GetTickerPrice FormatExchangeCurrency net p w currencyPair assetType in
   forall x : pair.CurrencyPair, x ∈ poloniex.EnabledPairs p ->
     poloniex.GetTickerPrice FormatExchangeCurrency net p w1 x assetType
     = ((poloniex.ticker_snapshot FormatExchangeCurrency p tick x, None), w1))
  /\ (let '(_, w1) :=
        poloniex.GetOrderbookEx FormatExchangeCurrency net p w currencyPair assetType in
      forall (x : pair.CurrencyPair) (data : poloniex.Orderbook),
        x ∈ poloniex.EnabledPairs p ->
        data_ !! FormatExchangeCurrency (poloniex.Name p) x = Some data ->
        poloniex.GetOrderbookEx FormatExchangeCurrency net p w1 x assetType
        = ((orderbook_snapshot x data, None), w1)).
Proof.
  split.
  - rewrite GetTickerPrice_cases, Hmiss_ticker.
    rewrite (UpdateTicker_ok _ _ _ _ _ _ tick) by exact Hticker. cbv zeta.
    intros x Hx. rewrite GetTickerPrice_cases. cbn [poloniex.tickers].
    by rewrite (ticker_fold_enabled FormatExchangeCurrency p assetType).
  - rewrite GetOrderbookEx_cases, Hmiss_book.
    rewrite (UpdateOrderbook_ok _ _ _ _ _ _ data_) by exact Hbook. cbv zeta.
    intros x data Hx Hdata. rewrite GetOrderbookEx_cases. cbn [poloniex.orderbooks].
    by rewrite (orderbook_fold_present FormatExchangeCurrency p assetType
                  data_ _ _ _ x data Hx Hdata).
Qed.

Lemma X7_one_refresh_serves_all_enabled_pairs_witness :
  let '(_, w1) :=
    poloniex.GetTickerPrice sample_format net_full sample_poloniex
      poloniex.world0 BTC_USD ticker.Spot in
  poloniex.GetTickerPrice sample_format net_full sample_poloniex w1 ETH_USD
    ticker.Spot
  = ((ticker.mkPrice ETH_USD 200 210 190 199 201 5000, None), w1).
Proof.
  pose proof (X7_one_refresh_serves_all_enabled_pairs sample_format net_full
                sample_poloniex poloniex.world0 BTC_USD ticker.Spot
                (<["BTC_USD" := btc_ticker 6400]> (<["ETH_USD" := eth_ticker]> ∅))
                (<["BTC_USD" := btc_book]> (<["ETH_USD" := eth_book]> ∅))
                eq_refl eq_refl eq_refl eq_refl) as [H _].
  destruct (poloniex.GetTickerPrice _ _ _ _ _ _) as [r w1].
  apply (H ETH_USD). right. left.
Defined.

(** ** The wrapper: calls that find nothing to return *)

Lemma GetTickerPrice_times_failing FormatExchangeCurrency net p
    (currencyPair : pair.CurrencyPair) (assetType : string) (n : nat) :
  (forall k : nat, (poloniex.net_GetTicker net k).2 <> None) ->
  forall w : poloniex.World,
  poloniex.tickers w !! (poloniex.Name p, currencyPair, assetType) = None ->
  poloniex.GetTickerPrice_times FormatExchangeCurrency net n p w currencyPair assetType
  = ((fun k => (ticker.zeroPrice, (poloniex.net_GetTicker net k).2))
       <$> seq (poloniex.ticker_fetches w) n,
     poloniex.mkWorld (poloniex.tickers w) (poloniex.orderbooks w)
       (poloniex.ticker_fetches w + n) (poloniex.orderbook_fetches w)
       (poloniex.balance_fetches w)).
Proof.
  intros Hfail. induction n as [|n IH]; intros w Hmiss.
  - cbn [poloniex.GetTickerPrice_times seq fmap list_fmap].
    rewrite Nat.add_0_r. by destruct w.
  - cbn [poloniex.GetTickerPrice_times seq fmap list_fmap].
    rewrite GetTickerPrice_cases, Hmiss.
    unfold poloniex.UpdateTicker, poloniex.GetTicker.
    specialize (Hfail (poloniex.ticker_fetches w)).
    destruct (poloniex.net_GetTicker net (poloniex.ticker_fetches w))
      as [tick [e|]]; [|done].
    rewrite IH by exact Hmiss.
    cbn [poloniex.tickers poloniex.orderbooks poloniex.ticker_fetches
         poloniex.orderbook_fetches poloniex.balance_fetches snd].
    by rewrite Nat.add_succ_r.
Qed.

Lemma GetOrderbookEx_times_failing FormatExchangeCurrency net p
    (currencyPair : pair.CurrencyPair) (assetType : string) (n : nat) :
  (forall k : nat, (poloniex.net_GetOrderbook net k).2 <> None) ->
  forall w : poloniex.World,
  poloniex.orderbooks w !! (poloniex.Name p, currencyPair, assetType) = None ->
  poloniex.GetOrderbookEx_times FormatExchangeCurrency net n p w currencyPair assetType
  = ((fun k => (orderbook.zeroBase, (poloniex.net_GetOrderbook net k).2))
       <$> seq (poloniex.orderbook_fetches w) n,
     poloniex.mkWorld (poloniex.tickers w) (poloniex.orderbooks w)
       (poloniex.ticker_fetches w) (poloniex.orderbook_fetches w + n)
       (poloniex.balance_fetches w)).
Proof.
  intros Hfail. induction n as [|n IH]; intros w Hmiss.
  - cbn [poloniex.GetOrderbookEx_times seq fmap list_fmap].
    rewrite Nat.add_0_r. by destruct w.
  - cbn [poloniex.GetOrderbookEx_times seq fmap list_fmap].
    rewrite GetOrderbookEx_cases, Hmiss.
    unfold poloniex.UpdateOrderbook, poloniex.GetOrderbook.
    specialize (Hfail (poloniex.orderbook_fetches w)).
    destruct (poloniex.net_GetOrderbook net (poloniex.orderbook_fetches w))
      as [data_ [e|]]; [|done].
    rewrite IH by exact Hmiss.
    cbn [poloniex.tickers poloniex.orderbooks poloniex.ticker_fetches
         poloniex.orderbook_fetches poloniex.balance_fetches snd].
    by rewrite Nat.add_succ_r.
Qed.

(** X8. A failed fetch is not remembered: while every fetch fails, [n]
    calls of get-or-refresh for an uncached key fetch [n] times, the
    [i]-th call returns the zero value and the error of the [i]-th fetch,
    and the caches and the other counters are as before. *)
Theorem X8_failed_fetches_are_retried_every_call
    (FormatExchangeCurrency : string -> pair.CurrencyPair -> string)
    (net : poloniex.Network) (p : poloniex.Poloniex) (w : poloniex.World)
    (currencyPair : pair.CurrencyPair) (assetType : string) (n : nat)
    (Hmiss_ticker :
       poloniex.tickers w !! (poloniex.Name p, currencyPair, assetType) = None)
    (Hmiss_book :
       poloniex.orderbooks w !! (poloniex.Name p, currencyPair, assetType) = None)
    (Hticker : forall k : nat, (poloniex.net_GetTicker net k).2 <> None)
    (Hbook : forall k : nat, (poloniex.net_GetOrderbook net k).2 <> None) :
  poloniex.GetTickerPrice_times FormatExchangeCurrency net n p w currencyPair assetType
  = ((fun k => (ticker.zeroPrice, (poloniex.net_GetTicker net k).2))
       <$> seq (poloniex.ticker_fetches w) n,
     poloniex.mkWorld (poloniex.tickers w) (poloniex.orderbooks w)
       (poloniex.ticker_fetches w + n) (poloniex.orderbook_fetches w)
       (poloniex.balance_fetches w))
  /\ poloniex.GetOrderbookEx_times FormatExchangeCurrency net n p w currencyPair
       assetType
     = ((fun k => (orderbook.zeroBase, (poloniex.net_GetOrderbook net k).2))
          <$> seq (poloniex.orderbook_fetches w) n,
        poloniex.mkWorld (poloniex.tickers w) (poloniex.orderbooks w)
          (poloniex.ticker_fetches w) (poloniex.orderbook_fetches w + n)
          (poloniex.balance_fetches w)).
Proof.
  split.
  - by apply GetTickerPrice_times_failing.
  - by apply GetOrderbookEx_times_failing.
Qed.

Lemma X8_failed_fetches_are_retried_every_call_witness :
  poloniex.GetTickerPrice_times sample_format (net_down "timeout") 3
    sample_poloniex poloniex.world0 BTC_USD ticker.Spot
  = (replicate 3 (ticker.zeroPrice, Some (errors_New "timeout")),
     poloniex.mkWorld ∅ ∅ 3 0 0).
Proof.
  refine (proj1 (X8_failed_fetches_are_retried_every_call sample_format
                   (net_down "timeout") sample_poloniex poloniex.world0 BTC_USD
                   ticker.Spot 3 _ _ _ _));
    [reflexivity | reflexivity | intros k; discriminate | intros k; discriminate].
Defined.

Lemma GetTickerPrice_times_not_enabled FormatExchangeCurrency net p
    (currencyPair : pair.CurrencyPair) (assetType : string) (n : nat) :
  currencyPair ∉ poloniex.EnabledPairs p ->
  (forall k : nat, (poloniex.net_GetTicker net k).2 = None) ->
  forall w : poloniex.World,
  poloniex.tickers w !! (poloniex.Name p, currencyPair, assetType) = None ->
  let '(results, w') :=
    poloniex.GetTickerPrice_times FormatExchangeCurrency net n p w currencyPair
      assetType in
  results = replicate n (ticker.zeroPrice, Some ticker.errMiss)
  /\ poloniex.ticker_fetches w' = (poloniex.ticker_fetches w + n)%nat
  /\ poloniex.tickers w' !! (poloniex.Name p, currencyPair, assetType) = None.
Proof.
  intros Hout Hok. induction n as [|n IH]; intros w Hmiss.
  - cbn [poloniex.GetTickerPrice_times replicate]. by rewrite Nat.add_0_r.
  - cbn [poloniex.GetTickerPrice_times replicate].
    rewrite GetTickerPrice_cases, Hmiss.
    pose proof (Hok (poloniex.ticker_fetches w)) as Hnow.
    destruct (poloniex.net_GetTicker net (poloniex.ticker_fetches w))
      as [tick err] eqn:Hfetch.
    cbn [snd] in Hnow. subst err.
    rewrite (UpdateTicker_ok _ _ _ _ _ _ tick) by exact Hfetch. cbv zeta.
    assert (Hkept :
      fold_left (poloniex.UpdateTicker_body FormatExchangeCurrency p assetType tick)
        (poloniex.EnabledPairs p) (poloniex.tickers w)
        !! (poloniex.Name p, currencyPair, assetType) = None).
    { rewrite (ticker_fold_other FormatExchangeCurrency p assetType); [exact Hmiss|].
      apply Forall_forall. intros x Hx Heq. apply Hout. congruence. }
    unfold ticker.GetTicker. rewrite Hkept.
    match goal with
    | |- context [poloniex.GetTickerPrice_times _ _ _ _ ?w1 _ _] =>
        specialize (IH w1 Hkept);
        destruct (poloniex.GetTickerPrice_times FormatExchangeCurrency net n p w1
                    currencyPair assetType) as [rs w2]
    end.
    destruct IH as (-> & -> & ->). cbn [poloniex.ticker_fetches].
    repeat split. lia.
Qed.

Lemma GetOrderbookEx_times_uncovered FormatExchangeCurrency net p
    (currencyPair : pair.CurrencyPair) (assetType : string) (n : nat) :
  (forall k : nat,
     (poloniex.net_GetOrderbook net k).2 = None
     /\ (poloniex.net_GetOrderbook net k).1
          !! FormatExchangeCurrency (poloniex.Name p) currencyPair = None) ->
  forall w : poloniex.World,
  poloniex.orderbooks w !! (poloniex.Name p, currencyPair, assetType) = None ->
  let '(results, w') :=
    poloniex.GetOrderbookEx_times FormatExchangeCurrency net n p w currencyPair
      assetType in
  results = replicate n (orderbook.zeroBase, Some orderbook.errMiss)
  /\ poloniex.orderbook_fetches w' = (poloniex.orderbook_fetches w + n)%nat
  /\ poloniex.orderbooks w' !! (poloniex.Name p, currencyPair, assetType) = None.
Proof.
  intros Hok. induction n as [|n IH]; intros w Hmiss.
  - cbn [poloniex.GetOrderbookEx_times replicate]. by rewrite Nat.add_0_r.
  - cbn [poloniex.GetOrderbookEx_times replicate].
    rewrite GetOrderbookEx_cases, Hmiss.
    pose proof (Hok (poloniex.orderbook_fetches w)) as [Hnow Habsent].
    destruct (poloniex.net_GetOrderbook net (poloniex.orderbook_fetches w))
      as [data_ err] eqn:Hfetch.
    cbn [fst snd] in Hnow, Habsent. subst err.
    rewrite (UpdateOrderbook_ok _ _ _ _ _ _ data_) by exact Hfetch. cbv zeta.
    assert (Hkept :
      (fold_left (poloniex.UpdateOrderbook_body FormatExchangeCurrency p assetType data_)
         (poloniex.EnabledPairs p) (poloniex.orderbooks w, orderbook.zeroBase)).1
        !! (poloniex.Name p, currencyPair, assetType) = None).
    { rewrite (orderbook_fold_other FormatExchangeCurrency p assetType); [exact Hmiss|].
      apply Forall_forall. intros x Hx [d Hd] Heq.
      assert (x = currencyPair) as -> by congruence. congruence. }
    unfold orderbook.GetOrderbook. rewrite Hkept.
    match goal with
    | |- context [poloniex.GetOrderbookEx_times _ _ _ _ ?w1 _ _] =>
        specialize (IH w1 Hkept);
        destruct (poloniex.GetOrderbookEx_times FormatExchangeCurrency net n p w1
                    currencyPair assetType) as [rs w2]
    end.
    destruct IH as (-> & -> & ->). cbn [poloniex.orderbook_fetches].
    repeat split. lia.
Qed.

(** X9. A miss is not remembered either.  On the ticker path a pair that
    is not enabled, and on the orderbook path a pair the responses do not
    cover (enabled or not), is never installed: while the fetches succeed,
    each of [n] calls of get-or-refresh for it fetches again and returns
    the zero value with the cache's miss error. *)
Theorem X9_unserved_pair_is_refetched_every_call
    (FormatExchangeCurrency : string -> pair.CurrencyPair -> string)
    (net : poloniex.Network) (p : poloniex.Poloniex) (w : poloniex.World)
    (tickerPair bookPair : pair.CurrencyPair) (assetType : string) (n : nat)
    (Hmiss_ticker :
       poloniex.tickers w !! (poloniex.Name p, tickerPair, assetType) = None)
    (Hmiss_book :
       poloniex.orderbooks w !! (poloniex.Name p, bookPair, assetType) = None)
    (Hnot_enabled : tickerPair ∉ poloniex.EnabledPairs p)
    (Hticker : forall k : nat, (poloniex.net_GetTicker net k).2 = None)
    (Hbook : forall k : nat,
       (poloniex.net_GetOrderbook net k).2 = None
       /\ (poloniex.net_GetOrderbook net k).1
            !! FormatExchangeCurrency (poloniex.Name p) bookPair = None) :
  (let '(results, w') :=
     poloniex.GetTickerPrice_times FormatExchangeCurrency net n p w tickerPair
       assetType in
   results = replicate n (ticker.zeroPrice, Some ticker.errMiss)
   /\ poloniex.ticker_fetches w' = (poloniex.ticker_fetches w + n)%nat
   /\ poloniex.tickers w' !! (poloniex.Name p, tickerPair, assetType) = None)
  /\ (let '(results, w') :=
        poloniex.GetOrderbookEx_times FormatExchangeCurrency net n p w bookPair
          assetType in
      results = replicate n (orderbook.zeroBase, Some orderbook.errMiss)
      /\ poloniex.orderbook_fetches w' = (poloniex.orderbook_fetches w + n)%nat
      /\ poloniex.orderbooks w' !! (poloniex.Name p, bookPair, assetType) = None).
Proof.
  split.
  - by apply GetTickerPrice_times_not_enabled.
  - by apply GetOrderbookEx_times_uncovered.
Qed.

Lemma X9_unserved_pair_is_refetched_every_call_witness :
  (let '(results, w') :=
     poloniex.GetTickerPrice_times sample_format net_without_eth 3 sample_poloniex
       poloniex.world0 LTC_USD ticker.Spot in
   results = replicate 3 (ticker.zeroPrice, Some ticker.errMiss)
   /\ poloniex.ticker_fetches w'
      = (poloniex.ticker_fetches poloniex.world0 + 3)%nat
   /\ poloniex.tickers w' !! (poloniex.Name sample_poloniex, LTC_USD, ticker.Spot)
      = None)
  /\ (let '(results, w') :=
        poloniex.GetOrderbookEx_times sample_format net_without_eth 3
          sample_poloniex poloniex.world0 ETH_USD ticker.Spot in
      results = replicate 3 (orderbook.zeroBase, Some orderbook.errMiss)
      /\ poloniex.orderbook_fetches w'
         = (poloniex.orderbook_fetches poloniex.world0 + 3)%nat
      /\ poloniex.orderbooks w'
           !! (poloniex.Name sample_poloniex, ETH_USD, ticker.Spot) = None).
Proof.
  apply (X9_unserved_pair_is_refetched_every_call sample_format
           net_without_eth sample_poloniex poloniex.world0 LTC_USD ETH_USD
           ticker.Spot 3).
  - reflexivity.
  - reflexivity.
  - intros Hin. apply list_elem_of_In in Hin.
    destruct Hin as [H|[H|[]]]; discriminate H.
  - intros k. reflexivity.
  - intros k. split; reflexivity.
Defined.

(** ** The wrapper: refreshing again *)





(** X11. On the ticker path an enabled pair the response lacks is not
    skipped: the refresh overwrites whatever its key held with the snapshot
    whose six figures are zero, and get-or-refresh for that pair from an
    uncached key returns this snapshot without an error. *)
Theorem X11_ticker_refresh_installs_zero_for_absent_pair
    (FormatExchangeCurrency : string -> pair.CurrencyPair -> string)
    (net : poloniex.Network) (p : poloniex.Poloniex) (w : poloniex.World)
    (currencyPair x : pair.CurrencyPair) (assetType : string)
    (tick : gmap string poloniex.Ticker)
    (Hticker : poloniex.net_GetTicker net (poloniex.ticker_fetches w) = (tick, None))
    (Henabled : x ∈ poloniex.EnabledPairs p)
    (Habsent : tick !! FormatExchangeCurrency (poloniex.Name p) x = None) :
  (let '(_, w') :=
     poloniex.UpdateTicker FormatExchangeCurrency net p w currencyPair assetType in
   poloniex.tickers w' !! (poloniex.Name p, x, assetType)
   = Some (ticker.mkPrice x 0 0 0 0 0 0))
  /\ (poloniex.tickers w !! (poloniex.Name p, x, assetType) = None ->
      (poloniex.GetTickerPrice FormatExchangeCurrency net p w x assetType).1
      = (ticker.mkPrice x 0 0 0 0 0 0, None)).
Proof.
  assert (Hzero : poloniex.ticker_snapshot FormatExchangeCurrency p tick x
                  = ticker.mkPrice x 0 0 0 0 0 0).
  { unfold poloniex.ticker_snapshot, poloniex.GetName. by rewrite Habsent. }
  split.
  - rewrite (UpdateTicker_ok _ _ _ _ _ _ tick) by exact Hticker. cbv zeta.
    cbn [poloniex.tickers].
    by rewrite (ticker_fold_enabled FormatExchangeCurrency p assetType), Hzero.
  - intros Hmiss. rewrite GetTickerPrice_cases, Hmiss.
    rewrite (UpdateTicker_ok _ _ _ _ _ _ tick) by exact Hticker. cbv zeta.
    cbn [fst]. unfold ticker.GetTicker.
    by rewrite (ticker_fold_enabled FormatExchangeCurrency p assetType), Hzero.
Qed.

Lemma X11_ticker_refresh_installs_zero_for_absent_pair_witness :
  (let '(_, w') :=
     poloniex.UpdateTicker sample_format net_without_eth sample_poloniex
       poloniex.world0 BTC_USD ticker.Spot in
   poloniex.tickers w' !! (poloniex.Name sample_poloniex, ETH_USD, ticker.Spot)
   = Some (ticker.mkPrice ETH_USD 0 0 0 0 0 0))
  /\ (poloniex.tickers poloniex.world0
        !! (poloniex.Name sample_poloniex, ETH_USD, ticker.Spot) = None ->
      (poloniex.GetTickerPrice sample_format net_without_eth sample_poloniex
         poloniex.world0 ETH_USD ticker.Spot).1
      = (ticker.mkPrice ETH_USD 0 0 0 0 0 0, None)).
Proof.
  apply (X11_ticker_refresh_installs_zero_for_absent_pair sample_format
           net_without_eth sample_poloniex poloniex.world0 BTC_USD ETH_USD
           ticker.Spot (<["BTC_USD" := btc_ticker 6400]> ∅)).
  - reflexivity.
  - apply list_elem_of_In. right. left. reflexivity.
  - reflexivity.
Defined.

(** ** The wrapper: account information *)

Lemma collect_balances (l : list (string * float))
    (acc : list poloniex.AccountCurrencyInfo) :
  fold_left (fun cs '(x, y) => (cs ++ [poloniex.mkAccountCurrencyInfo x y])%list) l acc
  = (acc ++ (account_entry <$> l))%list.
Proof.
  revert acc. induction l as [|[x y] l IH]; intros acc;
    cbn [fold_left fmap list_fmap].
  - by rewrite app_nil_r.
  - rewrite IH, <- app_assoc. reflexivity.
Qed.

(** X12. [GetExchangeAccountInfo] asks for the balances once and touches
    neither cache.  When the fetch fails it returns the fetch's error and no
    currencies; otherwise it lists one entry per currency of the balances
    map: a currency with its value is listed exactly when the map holds it,
    no currency is listed twice, and the list is as long as the map.  The
    exchange name is filled in either way. *)
Theorem X12_account_info_lists_each_balance_once
    (net : poloniex.Network) (p : poloniex.Poloniex) (w : poloniex.World) :
  let '((info, err), w') := poloniex.GetExchangeAccountInfo net p w in
  poloniex.ExchangeName info = poloniex.Name p
  /\ w' = poloniex.mkWorld (poloniex.tickers w) (poloniex.orderbooks w)
            (poloniex.ticker_fetches w) (poloniex.orderbook_fetches w)
            (S (poloniex.balance_fetches w))
  /\ match poloniex.net_GetBalances net (poloniex.balance_fetches w) with
     | (_, Some e) => err = Some e /\ poloniex.Currencies info = []
     | (accountBalance, None) =>
         err = None
         /\ poloniex.Currencies info = account_entry <$> map_to_list accountBalance
         /\ (forall (c : string) (v : float),
               poloniex.mkAccountCurrencyInfo c v ∈ poloniex.Currencies info
               <-> accountBalance !! c = Some v)
         /\ NoDup (poloniex.CurrencyName <$> poloniex.Currencies info)
         /\ length (poloniex.Currencies info) = size accountBalance
     end.
Proof.
  unfold poloniex.GetExchangeAccountInfo, poloniex.GetBalances, poloniex.GetName.
  destruct (poloniex.net_GetBalances net (poloniex.balance_fetches w))
    as [accountBalance [e|]]; cbn [poloniex.ExchangeName poloniex.Currencies].
  - repeat split.
  - rewrite collect_balances, app_nil_l. repeat split.
    + intros Hin. apply list_elem_of_fmap in Hin as ([c' v'] & Heq & Hin).
      apply elem_of_map_to_list in Hin. unfold account_entry in Heq.
      cbn [fst snd] in Heq. by injection Heq as -> ->.
    + intros Hlook. apply list_elem_of_fmap. exists (c, v). split; [reflexivity|].
      by apply elem_of_map_to_list.
    + rewrite <- list_fmap_compose.
      assert (Hfst : poloniex.CurrencyName ∘ account_entry = fst) by reflexivity.
      rewrite Hfst. apply NoDup_fst_map_to_list.
    + by rewrite length_fmap, length_map_to_list.
Qed.

(** ** The wrapper: what a call leaves alone *)

Lemma UpdateTicker_frame FormatExchangeCurrency net p w
    (currencyPair : pair.CurrencyPair) (assetType : string) :
  let w' := (poloniex.UpdateTicker FormatExchangeCurrency net p w currencyPair
               assetType).2 in
  poloniex.ticker_fetches w' = S (poloniex.ticker_fetches w)
  /\ poloniex.orderbooks w' = poloniex.orderbooks w
  /\ poloniex.orderbook_fetches w' = poloniex.orderbook_fetches w
  /\ poloniex.balance_fetches w' = poloniex.balance_fetches w.
Proof.
  unfold poloniex.UpdateTicker, poloniex.GetTicker.
  destruct (poloniex.net_GetTicker net (poloniex.ticker_fetches w)) as [tick [e|]];
    cbv zeta; repeat split.
Qed.

Lemma UpdateOrderbook_frame FormatExchangeCurrency net p w
    (currencyPair : pair.CurrencyPair) (assetType : string) :
  let w' := (poloniex.UpdateOrderbook FormatExchangeCurrency net p w currencyPair
               assetType).2 in
  poloniex.orderbook_fetches w' = S (poloniex.orderbook_fetches w)
  /\ poloniex.tickers w' = poloniex.tickers w
  /\ poloniex.ticker_fetches w' = poloniex.ticker_fetches w
  /\ poloniex.balance_fetches w' = poloniex.balance_fetches w.
Proof.
  unfold poloniex.UpdateOrderbook, poloniex.GetOrderbook.
  destruct (poloniex.net_GetOrderbook net (poloniex.orderbook_fetches w))
    as [data_ [e|]]; cbv zeta; [repeat split|].
  destruct (fold_left _ _ _) as [c ob]. repeat split.
Qed.

(** X13. The two caches are independent, and a call fetches at most once.
    Get-or-refresh of a ticker never touches the orderbook cache nor the
    counters of the other endpoints, and the other way round; either call
    leaves the whole state as it was (a hit) or has made exactly one fetch
    on its own endpoint. *)
Theorem X13_each_path_leaves_the_other_alone
    (FormatExchangeCurrency : string -> pair.CurrencyPair -> string)
    (net : poloniex.Network) (p : poloniex.Poloniex) (w : poloniex.World)
    (currencyPair : pair.CurrencyPair) (assetType : string) :
  (let w' := (poloniex.GetTickerPrice FormatExchangeCurrency net p w currencyPair
                assetType).2 in
   poloniex.orderbooks w' = poloniex.orderbooks w
   /\ poloniex.orderbook_fetches w' = poloniex.orderbook_fetches w
   /\ poloniex.balance_fetches w' = poloniex.balance_fetches w
   /\ (w' = w \/ poloniex.ticker_fetches w' = S (poloniex.ticker_fetches w)))
  /\ (let w' := (poloniex.GetOrderbookEx FormatExchangeCurrency net p w currencyPair
                   assetType).2 in
      poloniex.tickers w' = poloniex.tickers w
      /\ poloniex.ticker_fetches w' = poloniex.ticker_fetches w
      /\ poloniex.balance_fetches w' = poloniex.balance_fetches w
      /\ (w' = w \/ poloniex.orderbook_fetches w' = S (poloniex.orderbook_fetches w))).
Proof.
  split; cbv zeta.
  - rewrite GetTickerPrice_cases.
    destruct (poloniex.tickers w !! _) as [t|]; cbn [snd]; [by repeat split; left|].
    pose proof (UpdateTicker_frame FormatExchangeCurrency net p w currencyPair
                  assetType) as (Hf & Ho & Hof & Hb).
    cbv zeta in Hf, Ho, Hof, Hb. repeat split; try assumption. by right.
  - rewrite GetOrderbookEx_cases.
    destruct (poloniex.orderbooks w !! _) as [ob|]; cbn [snd]; [by repeat split; left|].
    pose proof (UpdateOrderbook_frame FormatExchangeCurrency net p w currencyPair
                  assetType) as (Hf & Ht & Htf & Hb).
    cbv zeta in Hf, Ht, Htf, Hb. repeat split; try assumption. by right.
Qed.

(** ** The wrapper: callers side by side, under any schedule *)

Lemma pending_insert (cs : list poloniex.Caller) (i : nat) (c c' : poloniex.Caller) :
  cs !! i = Some c ->
  (pending (<[i := c']> cs) + is_pending c = pending cs + is_pending c')%nat.
Proof.
  revert i. induction cs as [|x cs IH]; intros [|i] Hi; try discriminate Hi.
  - injection Hi as ->. unfold pending.
    change (sum_list (is_pending <$> <[0%nat := c']> (c :: cs)))
      with (is_pending c' + sum_list (is_pending <$> cs))%nat.
    change (sum_list (is_pending <$> (c :: cs)))
      with (is_pending c + sum_list (is_pending <$> cs))%nat.
    lia.
  - specialize (IH i Hi). unfold pending in *.
    change (sum_list (is_pending <$> <[S i := c']> (x :: cs)))
      with (is_pending x + sum_list (is_pending <$> <[i := c']> cs))%nat.
    change (sum_list (is_pending <$> (x :: cs)))
      with (is_pending x + sum_list (is_pending <$> cs))%nat.
    lia.
Qed.

Lemma step_measure FormatExchangeCurrency net p
    (currencyPair : pair.CurrencyPair) (assetType : string)
    (cs : list poloniex.Caller) (w : poloniex.World) (i : nat) :
  let '(cs', w') :=
    poloniex.step FormatExchangeCurrency net p currencyPair assetType (cs, w) i in
  (poloniex.ticker_fetches w' + pending cs' <= poloniex.ticker_fetches w + pending cs)%nat
  /\ length cs' = length cs
  /\ (forall (j : nat) (r : ticker.Price * option error),
        cs !! j = Some (poloniex.Returned r) -> cs' !! j = Some (poloniex.Returned r)).
Proof.
  unfold poloniex.step.
  destruct (cs !! i) as [[| |r0]|] eqn:Hi; [| |by repeat split..].
  - destruct (ticker.GetTicker _ _ _ _) as [t [e|]].
    + pose proof (pending_insert cs i _ poloniex.SawMiss Hi) as Hp.
      cbn [is_pending] in Hp. split; [lia|]. split; [by rewrite length_insert|].
      intros j r Hj. rewrite list_lookup_insert_ne; [exact Hj|]. congruence.
    + pose proof (pending_insert cs i _ (poloniex.Returned (t, None)) Hi) as Hp.
      cbn [is_pending] in Hp. split; [lia|]. split; [by rewrite length_insert|].
      intros j r Hj. rewrite list_lookup_insert_ne; [exact Hj|]. congruence.
  - pose proof (UpdateTicker_frame FormatExchangeCurrency net p w currencyPair
                  assetType) as (Hf & _). cbv zeta in Hf.
    destruct (poloniex.UpdateTicker _ _ _ _ _ _) as [r w']. cbn [snd] in Hf.
    pose proof (pending_insert cs i _ (poloniex.Returned r) Hi) as Hp.
    cbn [is_pending] in Hp. split; [lia|]. split; [by rewrite length_insert|].
    intros j r' Hj. rewrite list_lookup_insert_ne; [exact Hj|]. congruence.
Qed.

Lemma pending_replicate_AtStart (n : nat) : pending (replicate n poloniex.AtStart) = n.
Proof.
  unfold pending. induction n as [|n IH]; [reflexivity|].
  change (sum_list (is_pending <$> replicate (S n) poloniex.AtStart))
    with (S (sum_list (is_pending <$> replicate n poloniex.AtStart))).
  by rewrite IH.
Qed.

(** X14. Whatever the schedule, no caller of [GetTickerPrice] fetches more
    than once: along every interleaving the fetches made so far plus the
    callers that have not returned never exceed what they were at the
    start, a caller that has returned keeps its result, and so [n] callers
    started together cause at most [n] fetches. *)
Theorem X14_at_most_one_fetch_per_caller
    (FormatExchangeCurrency : string -> pair.CurrencyPair -> string)
    (net : poloniex.Network) (p : poloniex.Poloniex)
    (currencyPair : pair.CurrencyPair) (assetType : string)
    (schedule : list nat) (callers : list poloniex.Caller) (w : poloniex.World)
    (n : nat) :
  (let '(callers', w') :=
     poloniex.run FormatExchangeCurrency net p currencyPair assetType schedule
       (callers, w) in
   (poloniex.ticker_fetches w' + pending callers'
    <= poloniex.ticker_fetches w + pending callers)%nat
   /\ length callers' = length callers
   /\ (forall (j : nat) (r : ticker.Price * option error),
         callers !! j = Some (poloniex.Returned r) ->
         callers' !! j = Some (poloniex.Returned r)))
  /\ (poloniex.ticker_fetches
        (poloniex.run FormatExchangeCurrency net p currencyPair assetType schedule
           (replicate n poloniex.AtStart, w)).2
      <= poloniex.ticker_fetches w + n)%nat.
Proof.
  assert (Hrun : forall (cs : list poloniex.Caller) (w0 : poloniex.World),
    let '(cs', w') :=
      poloniex.run FormatExchangeCurrency net p currencyPair assetType schedule
        (cs, w0) in
    (poloniex.ticker_fetches w' + pending cs'
     <= poloniex.ticker_fetches w0 + pending cs)%nat
    /\ length cs' = length cs
    /\ (forall (j : nat) (r : ticker.Price * option error),
          cs !! j = Some (poloniex.Returned r) ->
          cs' !! j = Some (poloniex.Returned r))).
  { unfold poloniex.run.
    induction schedule as [|i schedule IH] using rev_ind; intros cs w0.
    - cbn [fold_left]. split; [lia|]. split; [reflexivity|]. intros j r Hj. exact Hj.
    - rewrite fold_left_app. cbn [fold_left].
      specialize (IH cs w0).
      destruct (fold_left _ schedule (cs, w0)) as [cs1 w1].
      pose proof (step_measure FormatExchangeCurrency net p currencyPair assetType
                    cs1 w1 i) as Hstep.
      destruct (poloniex.step _ _ _ _ _ (cs1, w1) i) as [cs2 w2].
      destruct IH as (IH1 & IH2 & IH3), Hstep as (H1 & H2 & H3).
      split; [lia|]. split; [congruence|]. intros j r Hj. by apply H3, IH3. }
  split; [apply Hrun|].
  specialize (Hrun (replicate n poloniex.AtStart) w).
  destruct (poloniex.run _ _ _ _ _ schedule (replicate n poloniex.AtStart, w))
    as [cs' w'].
  destruct Hrun as (Hle & _). rewrite pending_replicate_AtStart in Hle.
  cbn [snd]. lia.
Qed.

Lemma run_cons FormatExchangeCurrency net p
    (currencyPair : pair.CurrencyPair) (assetType : string)
    (i : nat) (schedule : list nat) (cfg : list poloniex.Caller * poloniex.World) :
  poloniex.run FormatExchangeCurrency net p currencyPair assetType (i :: schedule) cfg
  = poloniex.run FormatExchangeCurrency net p currencyPair assetType schedule
      (poloniex.step FormatExchangeCurrency net p currencyPair assetType cfg i).
Proof. reflexivity. Qed.

Lemma run_app FormatExchangeCurrency net p
    (currencyPair : pair.CurrencyPair) (assetType : string)
    (s1 s2 : list nat) (cfg : list poloniex.Caller * poloniex.World) :
  poloniex.run FormatExchangeCurrency net p currencyPair assetType (s1 ++ s2)%list cfg
  = poloniex.run FormatExchangeCurrency net p currencyPair assetType s2
      (poloniex.run FormatExchangeCurrency net p currencyPair assetType s1 cfg).
Proof. apply fold_left_app. Qed.

(** Every caller looks up the uncached key before any of them refreshes. *)
Lemma run_all_look_up FormatExchangeCurrency net p
    (currencyPair : pair.CurrencyPair) (assetType : string) (w : poloniex.World)
    (m : nat) :
  poloniex.tickers w !! (poloniex.Name p, currencyPair, assetType) = None ->
  forall pre : list poloniex.Caller,
  poloniex.run FormatExchangeCurrency net p currencyPair assetType
    (seq (length pre) m) ((pre ++ replicate m poloniex.AtStart)%list, w)
  = ((pre ++ replicate m poloniex.SawMiss)%list, w).
Proof.
  intros Hmiss. induction m as [|m IH]; intros pre; [reflexivity|].
  cbn [seq]. rewrite run_cons.
  assert (Hstep :
    poloniex.step FormatExchangeCurrency net p currencyPair assetType
      ((pre ++ replicate (S m) poloniex.AtStart)%list, w) (length pre)
    = (((pre ++ [poloniex.SawMiss]) ++ replicate m poloniex.AtStart)%list, w)).
  { unfold poloniex.step. cbn [replicate].
    rewrite list_lookup_middle by reflexivity.
    unfold ticker.GetTicker, poloniex.GetName. rewrite Hmiss.
    rewrite insert_app_r_alt by lia. rewrite Nat.sub_diag.
    by rewrite <- app_assoc. }
  rewrite Hstep.
  replace (S (length pre)) with (length (pre ++ [poloniex.SawMiss])%list)
    by (rewrite length_app; cbn [length]; lia).
  rewrite IH, <- app_assoc. reflexivity.
Qed.

(** Then every caller refreshes. *)
Lemma run_all_refresh FormatExchangeCurrency net p
    (currencyPair : pair.CurrencyPair) (assetType : string) (m : nat) :
  forall (pre : list poloniex.Caller) (w : poloniex.World),
  let '(callers', w') :=
    poloniex.run FormatExchangeCurrency net p currencyPair assetType
      (seq (length pre) m) ((pre ++ replicate m poloniex.SawMiss)%list, w) in
  poloniex.ticker_fetches w' = (poloniex.ticker_fetches w + m)%nat
  /\ exists rs : list (ticker.Price * option error),
       length rs = m /\ callers' = (pre ++ (poloniex.Returned <$> rs))%list.
Proof.
  induction m as [|m IH]; intros pre w.
  - cbn [seq replicate]. unfold poloniex.run. cbn [fold_left].
    split; [lia|]. exists []. split; reflexivity.
  - cbn [seq]. rewrite run_cons.
    pose proof (UpdateTicker_frame FormatExchangeCurrency net p w currencyPair
                  assetType) as (Hf & _). cbv zeta in Hf.
    destruct (poloniex.UpdateTicker FormatExchangeCurrency net p w currencyPair
                assetType) as [r w1] eqn:Hupdate. cbn [snd] in Hf.
    assert (Hstep :
      poloniex.step FormatExchangeCurrency net p currencyPair assetType
        ((pre ++ replicate (S m) poloniex.SawMiss)%list, w) (length pre)
      = (((pre ++ [poloniex.Returned r]) ++ replicate m poloniex.SawMiss)%list, w1)).
    { unfold poloniex.step. cbn [replicate].
      rewrite list_lookup_middle by reflexivity. rewrite Hupdate.
      rewrite insert_app_r_alt by lia. rewrite Nat.sub_diag.
      by rewrite <- app_assoc. }
    rewrite Hstep.
    replace (S (length pre)) with (length (pre ++ [poloniex.Returned r])%list)
      by (rewrite length_app; cbn [length]; lia).
    specialize (IH (pre ++ [poloniex.Returned r])%list w1).
    destruct (poloniex.run _ _ _ _ _ _ _) as [callers' w'].
    destruct IH as (Hfetch & rs & Hlen & ->).
    split; [lia|]. exists (r :: rs). split; [cbn [length]; lia|].
    rewrite <- app_assoc. reflexivity.
Qed.

(** X15. The bound of one fetch per caller is reached: when [n] callers of
    [GetTickerPrice] for an uncached key all look the key up before any of
    them refreshes, every one of them refreshes, so the exchange is asked
    [n] times and every caller returns. *)
Theorem X15_overlapping_callers_all_fetch
    (FormatExchangeCurrency : string -> pair.CurrencyPair -> string)
    (net : poloniex.Network) (p : poloniex.Poloniex) (w : poloniex.World)
    (currencyPair : pair.CurrencyPair) (assetType : string) (n : nat)
    (Hmiss :
       poloniex.tickers w !! (poloniex.Name p, currencyPair, assetType) = None) :
  let '(callers', w') :=
    poloniex.run FormatExchangeCurrency net p currencyPair assetType
      (seq 0 n ++ seq 0 n)%list (replicate n poloniex.AtStart, w) in
  poloniex.ticker_fetches w' = (poloniex.ticker_fetches w + n)%nat
  /\ exists rs : list (ticker.Price * option error),
       length rs = n /\ callers' = poloniex.Returned <$> rs.
Proof.
  rewrite run_app.
  pose proof (run_all_look_up FormatExchangeCurrency net p currencyPair assetType
                w n Hmiss []) as Hlook.
  cbn [length app] in Hlook. rewrite Hlook.
  apply (run_all_refresh FormatExchangeCurrency net p currencyPair assetType n [] w).
Qed.

Lemma X15_overlapping_callers_all_fetch_witness :
  let '(callers', w') :=
    poloniex.run sample_format net_full sample_poloniex BTC_USD ticker.Spot
      (seq 0 3 ++ seq 0 3)%list (replicate 3 poloniex.AtStart, poloniex.world0) in
  poloniex.ticker_fetches w' = (poloniex.ticker_fetches poloniex.world0 + 3)%nat
  /\ exists rs : list (ticker.Price * option error),
       length rs = 3%nat /\ callers' = poloniex.Returned <$> rs.
Proof.
  apply (X15_overlapping_callers_all_fetch sample_format net_full sample_poloniex
           poloniex.world0 BTC_USD ticker.Spot 3).
  reflexivity.
Defined.
